(** * View-frustum and camera algebra of the frontend [ViewState]

    A shallow embedding of [core/frontend/src/ViewState.ts] and of the
    geometry it calls, followed by the properties of the view algebra.

    Numbers.  A TypeScript [number] is modelled as a real number: the
    development describes the exact arithmetic the algorithms are designed
    around.  IEEE rounding, infinities and NaN are outside the model; an
    equality proved here is the exact counterpart of a floating-point
    equality "within tolerance".

    Mutation.  The TypeScript methods mutate [this] and return a status; the
    embedding passes the state explicitly and returns the status together
    with the new state. *)

From Stdlib Require Import Reals Lra Psatz ZArith List Bool FunctionalExtensionality.
Import ListNotations.
Open Scope R_scope.

(* ================================================================== *)
(** * Scalars *)

(** [Constant] of the geometry package: lengths are expressed in meters. *)
Module Constant.
Definition oneMillimeter : R := 0.001.
Definition oneCentimeter : R := 0.01.
Definition oneMeter : R := 1.
Definition oneKilometer : R := 1000.
End Constant.

(** JavaScript truthiness of an optional number: [d ? d : dflt]. *)
Definition orElse (d : option R) (dflt : R) : R :=
  match d with
  | Some v => if Req_dec_T v 0 then dflt else v
  | None => dflt
  end.

(** [Geometry.clamp]. *)
Definition clamp (v lo hi : R) : R := Rmax lo (Rmin hi v).

(** [Angle] stores radians. *)
Record Angle := createRadians { radians : R }.

(** [Math.atan2] on the reals. *)
Definition atan2 (yy xx : R) : R :=
  if Rlt_dec 0 xx then atan (yy / xx)
  else if Rlt_dec xx 0 then
         (if Rle_dec 0 yy then atan (yy / xx) + PI else atan (yy / xx) - PI)
  else if Rlt_dec 0 yy then PI / 2
  else if Rlt_dec yy 0 then - (PI / 2)
  else 0.

(* ================================================================== *)
(** * Geometry primitives

    The geometry package is not part of this extract.  Its vectors, matrices
    and transforms are modelled as the exact mathematical operations their
    names denote. *)

(** [XYZ], the common shape of [Point3d] and [Vector3d]. *)
Record XYZ := mkXYZ { x : R; y : R; z : R }.
Definition Point3d := XYZ.
Definition Vector3d := XYZ.

(** [XAndY], the shape of [Point2d] and [Vector2d]. *)
Record XAndY := mkXY { x2 : R; y2 : R }.

Module Vector3d.
Definition create (a b c : R) : Vector3d := mkXYZ a b c.
Definition createZero : Vector3d := mkXYZ 0 0 0.
Definition unitZ : Vector3d := mkXYZ 0 0 1.

(** Vector from [a] to [b]. *)
Definition createStartEnd (a b : XYZ) : Vector3d :=
  mkXYZ (x b - x a) (y b - y a) (z b - z a).

Definition plus (u v : XYZ) : XYZ := mkXYZ (x u + x v) (y u + y v) (z u + z v).
Definition minus (u v : XYZ) : XYZ := mkXYZ (x u - x v) (y u - y v) (z u - z v).
Definition scale (u : XYZ) (s : R) : XYZ := mkXYZ (x u * s) (y u * s) (z u * s).

Definition plusScaled (u v : XYZ) (s : R) : XYZ :=
  mkXYZ (x u + x v * s) (y u + y v * s) (z u + z v * s).
Definition plus2Scaled (u a : XYZ) (sa : R) (b : XYZ) (sb : R) : XYZ :=
  mkXYZ (x u + x a * sa + x b * sb)
        (y u + y a * sa + y b * sb)
        (z u + z a * sa + z b * sb).
Definition plus3Scaled (u a : XYZ) (sa : R) (b : XYZ) (sb : R) (c : XYZ) (sc : R) : XYZ :=
  mkXYZ (x u + x a * sa + x b * sb + x c * sc)
        (y u + y a * sa + y b * sb + y c * sc)
        (z u + z a * sa + z b * sb + z c * sc).

Definition dotProduct (u v : XYZ) : R := x u * x v + y u * y v + z u * z v.
Definition crossProduct (u v : XYZ) : Vector3d :=
  mkXYZ (y u * z v - z u * y v) (z u * x v - x u * z v) (x u * y v - y u * x v).
Definition tripleProduct (u v w : XYZ) : R := dotProduct u (crossProduct v w).

Definition magnitudeSquared (u : XYZ) : R := dotProduct u u.
Definition magnitude (u : XYZ) : R := sqrt (magnitudeSquared u).
Definition magnitudeXY (u : XYZ) : R := sqrt (x u * x u + y u * y u).
Definition distance (a b : XYZ) : R := magnitude (createStartEnd a b).
Definition vectorTo (a b : XYZ) : Vector3d := createStartEnd a b.
Definition interpolate (a : XYZ) (f : R) (b : XYZ) : XYZ :=
  mkXYZ (x a + f * (x b - x a)) (y a + f * (y b - y a)) (z a + f * (z b - z a)).
End Vector3d.

(** The results of [normalizeWithLength]: the unit vector, when there is
    one, and the length that was measured. *)
Record NormalizeResult := mkNormalized { v : option Vector3d; mag : R }.

(** [Matrix3d], by rows: [xy] is the entry of row x, column y. *)
Record Matrix3d := createRowValues {
  xx : R; xy : R; xz : R;
  yx : R; yy : R; yz : R;
  zx : R; zy : R; zz : R
}.

(** [Transform]: the affine map [p |-> trOrigin + trMatrix * p]. *)
Record Transform := createOriginAndMatrix { trOrigin : Point3d; trMatrix : Matrix3d }.

(** A row of a [Matrix4d]. *)
Record Point4d := mkPoint4d { hx : R; hy : R; hz : R; hw : R }.

(** [Matrix4d], by rows. *)
Record Matrix4d := mkMatrix4d { row0 : Point4d; row1 : Point4d; row2 : Point4d; row3 : Point4d }.

(** [Map4d]: a homogeneous map ([transform0]) and its inverse ([transform1]). *)
Record Map4d := mkMap4d { transform0 : Matrix4d; transform1 : Matrix4d }.

(** [Range3d]. *)
Record Range3d := mkRange3d { low : Point3d; high : Point3d }.

(** The only axis order the view code asks for. *)
Inductive AxisOrder := AxisOrder_XYZ.

(** Constants of packages that are not part of this extract.  Their values
    are not fixed by the specification, so the development is parametric in
    them:
    - [smallMetricDistance] is [Geometry.smallMetricDistance], the fixed
      small-distance epsilon below which a length counts as zero;
    - [nearScale24] is [Viewport.nearScale24], the smallest front/back
      distance ratio a 24-bit depth buffer resolves;
    - [standardViewMatrices] and [standardViewTolerance] are the table of
      standard view rotations of [StandardView] and the tolerance within
      which a rotation is snapped to one of them. *)
Class Constants := {
  smallMetricDistance : R;
  nearScale24 : R;
  standardViewMatrices : list Matrix3d;
  standardViewTolerance : R
}.

Section VectorNormalization.
Context {K : Constants}.
Import Vector3d.

(** [Geometry.correctSmallMetricDistance]. *)
Definition correctSmallMetricDistance (d : R) : R :=
  if Rlt_dec (Rabs d) smallMetricDistance then 0 else d.

(** Modelled from the spec: [Vector3d.normalizeWithLength] of the geometry
    package.  A vector whose length is below the small-distance epsilon has
    no direction: the measured length is then 0 and there is no unit
    vector. *)
Definition normalizeWithLength (u : Vector3d) : NormalizeResult :=
  let m := correctSmallMetricDistance (magnitude u) in
  if Req_dec_T m 0 then mkNormalized None 0
  else mkNormalized (Some (scale u (1 / m))) m.

(** [Vector3d.normalize]. *)
Definition normalize (u : Vector3d) : option Vector3d := v (normalizeWithLength u).

(** [Vector3d.unitCrossProduct]. *)
Definition unitCrossProduct (u w : Vector3d) : option Vector3d :=
  normalize (crossProduct u w).
End VectorNormalization.

Module Matrix3d.
Import Vector3d.

Definition createIdentity : Matrix3d := createRowValues 1 0 0 0 1 0 0 0 1.

Definition createRows (a b c : Vector3d) : Matrix3d :=
  createRowValues (x a) (y a) (z a) (x b) (y b) (z b) (x c) (y c) (z c).
Definition createColumns (a b c : Vector3d) : Matrix3d :=
  createRowValues (x a) (x b) (x c) (y a) (y b) (y c) (z a) (z b) (z c).

Definition rowX (m : Matrix3d) : Vector3d := mkXYZ (xx m) (xy m) (xz m).
Definition rowY (m : Matrix3d) : Vector3d := mkXYZ (yx m) (yy m) (yz m).
Definition rowZ (m : Matrix3d) : Vector3d := mkXYZ (zx m) (zy m) (zz m).
Definition columnX (m : Matrix3d) : Vector3d := mkXYZ (xx m) (yx m) (zx m).
Definition columnY (m : Matrix3d) : Vector3d := mkXYZ (xy m) (yy m) (zy m).
Definition columnZ (m : Matrix3d) : Vector3d := mkXYZ (xz m) (yz m) (zz m).

(** [getRow] and [getColumn] take the index cyclically. *)
Definition getRow (m : Matrix3d) (i : nat) : Vector3d :=
  match (i mod 3)%nat with
  | O => rowX m
  | S O => rowY m
  | _ => rowZ m
  end.
Definition getColumn (m : Matrix3d) (i : nat) : Vector3d :=
  match (i mod 3)%nat with
  | O => columnX m
  | S O => columnY m
  | _ => columnZ m
  end.

Definition transpose (m : Matrix3d) : Matrix3d :=
  createRowValues (xx m) (yx m) (zx m) (xy m) (yy m) (zy m) (xz m) (yz m) (zz m).

(** [m * u]. *)
Definition multiplyVector (m : Matrix3d) (u : XYZ) : Vector3d :=
  mkXYZ (dotProduct (rowX m) u) (dotProduct (rowY m) u) (dotProduct (rowZ m) u).
(** [transpose m * u]. *)
Definition multiplyTransposeVector (m : Matrix3d) (u : XYZ) : Vector3d :=
  mkXYZ (dotProduct (columnX m) u) (dotProduct (columnY m) u) (dotProduct (columnZ m) u).
Definition multiplyTransposeXYZ (m : Matrix3d) (a b c : R) : Vector3d :=
  multiplyTransposeVector m (mkXYZ a b c).

Definition multiplyMatrixMatrix (a b : Matrix3d) : Matrix3d :=
  createRows (multiplyTransposeVector b (rowX a))
             (multiplyTransposeVector b (rowY a))
             (multiplyTransposeVector b (rowZ a)).

Definition determinant (m : Matrix3d) : R :=
  tripleProduct (rowX m) (rowY m) (rowZ m).

(** The inverse, when the determinant is not zero: the transposed matrix
    of cofactors over the determinant. *)
Definition inverse (m : Matrix3d) : option Matrix3d :=
  let d := determinant m in
  if Req_dec_T d 0 then None
  else
    let cx := crossProduct (rowY m) (rowZ m) in
    let cy := crossProduct (rowZ m) (rowX m) in
    let cz := crossProduct (rowX m) (rowY m) in
    Some (createColumns (scale cx (1 / d)) (scale cy (1 / d)) (scale cz (1 / d))).

(** Largest absolute difference between corresponding entries. *)
Definition maxDiff (a b : Matrix3d) : R :=
  Rmax (Rabs (xx a - xx b)) (Rmax (Rabs (xy a - xy b)) (Rmax (Rabs (xz a - xz b))
    (Rmax (Rabs (yx a - yx b)) (Rmax (Rabs (yy a - yy b)) (Rmax (Rabs (yz a - yz b))
    (Rmax (Rabs (zx a - zx b)) (Rmax (Rabs (zy a - zy b)) (Rabs (zz a - zz b))))))))).

(** A rigid matrix: rows of unit length, mutually orthogonal, determinant 1. *)
Definition isRigid (m : Matrix3d) : Prop :=
  dotProduct (rowX m) (rowX m) = 1 /\
  dotProduct (rowY m) (rowY m) = 1 /\
  dotProduct (rowZ m) (rowZ m) = 1 /\
  dotProduct (rowX m) (rowY m) = 0 /\
  dotProduct (rowX m) (rowZ m) = 0 /\
  dotProduct (rowY m) (rowZ m) = 0 /\
  determinant m = 1.

Section WithConstants.
Context {K : Constants}.

(** Modelled from the spec: [Matrix3d.createRigidFromColumns] of the
    geometry package, a Gram-Schmidt style construction honoring the
    X-then-Y-then-Z axis order: the first column is the direction of
    [a], the third the direction of [a x b], the second completes the
    right-handed frame.  There is no result when [a] and [b] are
    degenerate or parallel (a cross product that is too small). *)
Definition createRigidFromColumns (a b : Vector3d) (order : AxisOrder) : option Matrix3d :=
  match normalize a with
  | None => None
  | Some a1 =>
    match unitCrossProduct a1 b with
    | None => None
    | Some c1 =>
      match unitCrossProduct c1 a with
      | None => None
      | Some b1 => match order with AxisOrder_XYZ => Some (createColumns a1 b1 c1) end
      end
    end
  end.

(** Modelled from the spec: [Matrix3d.createRotationAroundVector], the
    rotation by [angle] about [axis]; there is none when the axis has no
    direction. *)
Definition createRotationAroundVector (axis : Vector3d) (angle : Angle) : option Matrix3d :=
  match normalize axis with
  | None => None
  | Some u =>
    let c := cos (radians angle) in
    let s := sin (radians angle) in
    let t := 1 - c in
    Some (createRowValues
            (x u * x u * t + c) (x u * y u * t - s * z u) (x u * z u * t + s * y u)
            (y u * x u * t + s * z u) (y u * y u * t + c) (y u * z u * t - s * x u)
            (z u * x u * t - s * y u) (z u * y u * t + s * x u) (z u * z u * t + c))
  end.
End WithConstants.
End Matrix3d.

Module Transform.
Import Vector3d.

Definition multiplyPoint3d (t : Transform) (p : Point3d) : Point3d :=
  plus (trOrigin t) (Matrix3d.multiplyVector (trMatrix t) p).

(** The inverse map [q |-> m^-1 * (q - origin)], when the matrix has an
    inverse. *)
Definition inverse (t : Transform) : option Transform :=
  match Matrix3d.inverse (trMatrix t) with
  | None => None
  | Some mi =>
    Some (createOriginAndMatrix (scale (Matrix3d.multiplyVector mi (trOrigin t)) (-1)) mi)
  end.

(** The map [p |-> fixedPoint + m * (p - fixedPoint)]. *)
Definition createFixedPointAndMatrix (fixedPoint : Point3d) (m : Matrix3d) : Transform :=
  createOriginAndMatrix (minus fixedPoint (Matrix3d.multiplyVector m fixedPoint)) m.
End Transform.

Module Matrix4d.
Definition dot4 (p q : Point4d) : R := hx p * hx q + hy p * hy q + hz p * hz q + hw p * hw q.

(** The row [a * row0 b + ...]: one row of a matrix product. *)
Definition combine (p : Point4d) (b : Matrix4d) : Point4d :=
  mkPoint4d
    (hx p * hx (row0 b) + hy p * hx (row1 b) + hz p * hx (row2 b) + hw p * hx (row3 b))
    (hx p * hy (row0 b) + hy p * hy (row1 b) + hz p * hy (row2 b) + hw p * hy (row3 b))
    (hx p * hz (row0 b) + hy p * hz (row1 b) + hz p * hz (row2 b) + hw p * hz (row3 b))
    (hx p * hw (row0 b) + hy p * hw (row1 b) + hz p * hw (row2 b) + hw p * hw (row3 b)).

Definition createRowValues
  (c00 c01 c02 c03 c10 c11 c12 c13 c20 c21 c22 c23 c30 c31 c32 c33 : R) : Matrix4d :=
  mkMatrix4d (mkPoint4d c00 c01 c02 c03) (mkPoint4d c10 c11 c12 c13)
             (mkPoint4d c20 c21 c22 c23) (mkPoint4d c30 c31 c32 c33).

(** The homogeneous matrix of an affine transform. *)
Definition createTransform (t : Transform) : Matrix4d :=
  let m := trMatrix t in
  let o := trOrigin t in
  createRowValues (xx m) (xy m) (xz m) (x o)
                  (yx m) (yy m) (yz m) (y o)
                  (zx m) (zy m) (zz m) (z o)
                  0 0 0 1.

Definition multiplyMatrixMatrix (a b : Matrix4d) : Matrix4d :=
  mkMatrix4d (combine (row0 a) b) (combine (row1 a) b) (combine (row2 a) b) (combine (row3 a) b).

(** Modelled from the spec: the quiet (non-throwing) perspective division.
    The point is taken with weight 1; the product is divided by its weight
    unless that weight is zero. *)
Definition multiplyPoint3dQuietNormalize (m : Matrix4d) (p : Point3d) : Point3d :=
  let q := mkPoint4d (x p) (y p) (z p) 1 in
  let w := dot4 (row3 m) q in
  if Req_dec_T w 0
  then mkXYZ (dot4 (row0 m) q) (dot4 (row1 m) q) (dot4 (row2 m) q)
  else mkXYZ (dot4 (row0 m) q / w) (dot4 (row1 m) q / w) (dot4 (row2 m) q / w).
End Matrix4d.

Module Map4d.
(** The composition [a o b] with its inverse [b^-1 o a^-1]. *)
Definition multiplyMapMap (a b : Map4d) : Map4d :=
  mkMap4d (Matrix4d.multiplyMatrixMatrix (transform0 a) (transform0 b))
          (Matrix4d.multiplyMatrixMatrix (transform1 b) (transform1 a)).

(** Modelled from the spec: [Map4d.createVectorFrustum], the standard
    perspective-or-parallel frustum construction.  The back face of the
    frustum is the parallelogram at [origin] spanned by [uVector] and
    [vVector]; [wVector] leads to the front face, which is the back face
    scaled by [fraction].  The world is first mapped onto the slab spanned
    by the three vectors, then the slab onto the unit cube by the
    perspective with that fraction.  There is no map when the three vectors
    are degenerate. *)
Definition createVectorFrustum
  (origin : Point3d) (uVector vVector wVector : Vector3d) (fraction : R) : option Map4d :=
  let fraction := Rmax fraction 1.0e-8 in
  let slabToWorld := createOriginAndMatrix origin (Matrix3d.createColumns uVector vVector wVector) in
  match Transform.inverse slabToWorld with
  | None => None
  | Some worldToSlab =>
    let worldToSlabMap :=
      mkMap4d (Matrix4d.createTransform worldToSlab) (Matrix4d.createTransform slabToWorld) in
    let slabToNPCMap :=
      mkMap4d
        (Matrix4d.createRowValues 1 0 0 0  0 1 0 0  0 0 fraction 0  0 0 (fraction - 1) 1)
        (Matrix4d.createRowValues 1 0 0 0  0 1 0 0  0 0 (1 / fraction) 0
                                  0 0 ((1 - fraction) / fraction) 1) in
    Some (multiplyMapMap slabToNPCMap worldToSlabMap)
  end.
End Map4d.

(* ================================================================== *)
(** * Camera and frustum

    [Camera], [Npc] and [Frustum] belong to the common package, which is not
    part of this extract. *)

(** Modelled from the spec: the [Camera] of a 3d view, a stored eye point,
    lens angle and focus distance. *)
Record Camera := mkCamera { lens : Angle; focusDist : R; eye : Point3d }.

Module Camera.
Definition getLensAngle (c : Camera) : Angle := lens c.
Definition getFocusDistance (c : Camera) : R := focusDist c.
Definition getEyePoint (c : Camera) : Point3d := eye c.
Definition setLensAngle (c : Camera) (a : Angle) : Camera := mkCamera a (focusDist c) (eye c).
Definition setFocusDistance (c : Camera) (d : R) : Camera := mkCamera (lens c) d (eye c).
Definition setEyePoint (c : Camera) (p : Point3d) : Camera := mkCamera (lens c) (focusDist c) p.

(** Modelled from the spec: [validateLens] forces the stored lens angle into
    a valid default when it is out of range.  The range, between pi/8 and pi,
    and the default, pi/2, are those of the common package. *)
Definition isValidLensAngle (a : Angle) : bool :=
  if Rlt_dec (PI / 8) (radians a) then (if Rlt_dec (radians a) PI then true else false) else false.
Definition validateLens (c : Camera) : Camera :=
  if isValidLensAngle (lens c) then c else setLensAngle c (createRadians (PI / 2)).
End Camera.

(** The corners of the normalized (NPC) cube, in the fixed order of the
    frustum points: left/right, then bottom/top, then rear/front. *)
Inductive Npc :=
| LeftBottomRear | RightBottomRear | LeftTopRear | RightTopRear
| LeftBottomFront | RightBottomFront | LeftTopFront | RightTopFront.

(** [Frustum]: exactly 8 points, one for each corner. *)
Record Frustum := mkFrustum { points : Npc -> Point3d }.

Module Frustum.
Import Vector3d.

(** The unit cube a new [Frustum] is initialised to ([initNpc]). *)
Definition initNpc : Frustum :=
  mkFrustum (fun n =>
    match n with
    | LeftBottomRear => mkXYZ 0 0 0
    | RightBottomRear => mkXYZ 1 0 0
    | LeftTopRear => mkXYZ 0 1 0
    | RightTopRear => mkXYZ 1 1 0
    | LeftBottomFront => mkXYZ 0 0 1
    | RightBottomFront => mkXYZ 1 0 1
    | LeftTopFront => mkXYZ 0 1 1
    | RightTopFront => mkXYZ 1 1 1
    end).

Definition getCorner (f : Frustum) (n : Npc) : Point3d := points f n.

(** The center: halfway between two opposite corners. *)
Definition getCenter (f : Frustum) : Point3d :=
  interpolate (getCorner f RightTopFront) 0.5 (getCorner f LeftBottomRear).

(** The frustum is mirrored when its edges at the left-bottom-rear corner,
    taken as (Z, Y, X), form a right-handed triple, that is when (X, Y, Z) is
    left-handed. *)
Definition hasMirror (f : Frustum) : bool :=
  let u := vectorTo (points f LeftBottomRear) (points f LeftBottomFront) in
  let v := vectorTo (points f LeftBottomRear) (points f LeftTopRear) in
  let w := vectorTo (points f LeftBottomRear) (points f RightBottomRear) in
  if Rlt_dec 0 (tripleProduct u v w) then true else false.

(** Modelled from the spec: [fixPointOrder] canonicalises the point order
    and handedness.  A mirrored frustum has the two ends of each of its four
    left-right edges exchanged; any other frustum is left as it is. *)
Definition fixPointOrder (f : Frustum) : Frustum :=
  if hasMirror f then
    mkFrustum (fun n =>
      match n with
      | LeftBottomRear => points f RightBottomRear
      | RightBottomRear => points f LeftBottomRear
      | LeftTopRear => points f RightTopRear
      | RightTopRear => points f LeftTopRear
      | LeftBottomFront => points f RightBottomFront
      | RightBottomFront => points f LeftBottomFront
      | LeftTopFront => points f RightTopFront
      | RightTopFront => points f LeftTopFront
      end)
  else f.

(** Every corner mapped by [g]. *)
Definition mapPoints (g : Point3d -> Point3d) (f : Frustum) : Frustum :=
  mkFrustum (fun n => g (points f n)).
End Frustum.

Module StandardView.
Section WithConstants.
Context {K : Constants}.

(** The first matrix of [tests] that [m] is within the tolerance of, or [m]
    itself when there is none. *)
Fixpoint snapTo (tests : list Matrix3d) (m : Matrix3d) : Matrix3d :=
  match tests with
  | [] => m
  | test :: rest =>
    if Rlt_dec standardViewTolerance (Matrix3d.maxDiff test m) then snapTo rest m else test
  end.

(** Modelled from the spec: [StandardView.adjustToStandardRotation] snaps a
    near-standard orientation to the exact standard view, within a
    tolerance. *)
Definition adjustToStandardRotation (m : Matrix3d) : Matrix3d :=
  snapTo standardViewMatrices m.
End WithConstants.
End StandardView.

(* ================================================================== *)
(** * View state *)

(** The result of a viewing operation. *)
Inductive ViewStatus :=
| Success | ViewNotInitialized | AlreadyAttached | NotAttached | DrawFailure
| NotResized | ModelNotFound | InvalidWindow | MinWindow | MaxWindow | MaxZoom
| MaxDisplayDepth | InvalidUpVector | InvalidTargetPoint | InvalidLens | InvalidViewport.

(** The smallest and largest values allowed for the extents of a view. *)
Record ExtentLimits := mkExtentLimits { min : R; max : R }.

(** Margins around a view volume, as fractions of the view size; the
    constructor limits each of them to [0, 0.25]. *)
Record MarginPercent := mkMarginPercent { left : R; top : R; right : R; bottom : R }.

Module MarginPercent.
Definition limitMargin (val : R) : R := clamp val 0 0.25.
Definition create (l t r b : R) : MarginPercent :=
  mkMarginPercent (limitMargin l) (limitMargin t) (limitMargin r) (limitMargin b).
End MarginPercent.

(** The state of a [ViewState3d].  Besides the fields of the class itself,
    the record holds what the methods below read from its base class and from
    its subclasses: the explicitly set extent limits ([_extentLimits]), the
    default limits of the concrete class, the "aspectSkew" view detail, and the
    answer of the concrete class to [supportsCamera]. *)
Record ViewState3d := mkViewState3d {
  _cameraOn : bool;
  origin : Point3d;
  extents : Vector3d;
  rotation : Matrix3d;
  camera : Camera;
  forceMinFrontDist : R;
  _extentLimits : option ExtentLimits;
  defaultExtentLimits : ExtentLimits;
  aspectSkew : option R;
  supportsCamera : bool
}.

(** The abstract members of [ViewState], the capability set every kind of
    view implements.  [is3d] is the type guard of the same name; [update3d]
    writes back what a method did to [this] after the guard succeeded. *)
Class ViewState (V : Type) := {
  is3d : V -> option ViewState3d;
  update3d : V -> ViewState3d -> V;
  getOrigin : V -> Point3d;
  getExtents : V -> Vector3d;
  getRotation : V -> Matrix3d;
  setOrigin : V -> Point3d -> V;
  setExtents : V -> Vector3d -> V;
  setRotation : V -> Matrix3d -> V;
  extentLimits : V -> ExtentLimits;
  getAspectRatioSkew : V -> R
}.

(** What [computeWorldToNpc] returns. *)
Record WorldToNpc := mkWorldToNpc { map : option Map4d; frustFraction : R }.

(** The local variables of [computeWorldToNpc] that go into the final
    [Map4d.createVectorFrustum]: the origin and the three edge vectors of the
    frustum, and the fraction. *)
Record FrustumVectors := mkFrustumVectors {
  fvOrigin : Point3d;
  xExtent : Vector3d;
  yExtent : Vector3d;
  zExtent : Vector3d;
  fvFraction : R
}.

Section ViewStateBase.
Context {K : Constants} {V : Type} {VS : ViewState V}.
Import Vector3d.

(** [this.is3d() && this.isCameraOn]. *)
Definition isCameraOn3d (view : V) : option ViewState3d :=
  match is3d view with
  | Some v3 => if _cameraOn v3 then Some v3 else None
  | None => None
  end.

(** The body of [computeWorldToNpc] up to its last statement. *)
Definition computeFrustumVectors
  (view : V) (viewRot : option Matrix3d) (inOrigin : option Point3d) (delta : option Vector3d)
  : FrustumVectors :=
  let viewRot := match viewRot with Some r => r | None => getRotation view end in
  let xVector := Matrix3d.rowX viewRot in
  let yVector := Matrix3d.rowY viewRot in
  let zVector := Matrix3d.rowZ viewRot in
  let delta := match delta with Some d => d | None => getExtents view end in
  let inOrigin := match inOrigin with Some o => o | None => getOrigin view end in
  match isCameraOn3d view with
  | Some v3 =>
    let camera := camera v3 in
    let eyeToOrigin := Matrix3d.multiplyVector viewRot (createStartEnd (eye camera) inOrigin) in
    let focusDistance := focusDist camera in
    let zDelta := z delta in
    let zBack := z eyeToOrigin in
    let zFront := zBack + zDelta in
    let '(zBack, zFront, zDelta, eyeToOrigin) :=
      if Rlt_dec (zFront / zBack) nearScale24 then
        let maximumBackClip := 10 * Constant.oneKilometer in
        let '(zBack, eyeToOrigin) :=
          if Rlt_dec maximumBackClip (- zBack)
          then (- maximumBackClip, mkXYZ (x eyeToOrigin) (y eyeToOrigin) (- maximumBackClip))
          else (zBack, eyeToOrigin) in
        let zFront := zBack * nearScale24 in
        let zDelta := zFront - z eyeToOrigin in
        (zBack, zFront, zDelta, eyeToOrigin)
      else (zBack, zFront, zDelta, eyeToOrigin) in
    let backFraction := (- zBack) / focusDistance in
    let frontFraction := (- zFront) / focusDistance in
    let frustFraction := frontFraction / backFraction in
    let xExtent := scale xVector (x delta * backFraction) in
    let yExtent := scale yVector (y delta * backFraction) in
    let zExtent :=
      Matrix3d.multiplyTransposeVector viewRot
        (mkXYZ (x eyeToOrigin * (frontFraction - backFraction))
               (y eyeToOrigin * (frontFraction - backFraction))
               zDelta) in
    let origin :=
      Matrix3d.multiplyTransposeVector viewRot
        (mkXYZ (x eyeToOrigin * backFraction) (y eyeToOrigin * backFraction) (z eyeToOrigin)) in
    let origin := plus origin (eye camera) in
    mkFrustumVectors origin xExtent yExtent zExtent frustFraction
  | None =>
    mkFrustumVectors inOrigin (scale xVector (x delta)) (scale yVector (y delta))
                     (scale zVector (z delta)) 1
  end.

(** [ViewState.computeWorldToNpc]. *)
Definition computeWorldToNpc
  (view : V) (viewRot : option Matrix3d) (inOrigin : option Point3d) (delta : option Vector3d)
  : WorldToNpc :=
  let fv := computeFrustumVectors view viewRot inOrigin delta in
  mkWorldToNpc
    (Map4d.createVectorFrustum (fvOrigin fv) (xExtent fv) (yExtent fv) (zExtent fv) (fvFraction fv))
    (fvFraction fv).

(** [ViewState.calculateFrustum]: the corners of the NPC cube mapped back to
    world coordinates, or nothing when the view has no world-to-NPC map. *)
Definition calculateFrustum (view : V) : option Frustum :=
  let val := computeWorldToNpc view None None None in
  match map val with
  | None => None
  | Some m =>
    Some (Frustum.mapPoints (Matrix4d.multiplyPoint3dQuietNormalize (transform1 m)) Frustum.initNpc)
  end.

(** The closure [limitWindowSize] of [validateViewDelta]; the error it
    assigns is threaded through. *)
Definition limitWindowSize (limit : ExtentLimits) (error : ViewStatus) (val : R) (ignoreError : bool)
  : R * ViewStatus :=
  if Rlt_dec val (min limit) then (min limit, if ignoreError then error else MinWindow)
  else if Rlt_dec (max limit) val then (max limit, if ignoreError then error else MaxWindow)
  else (val, error).

(** [ViewState.validateViewDelta]: the status and the delta as the method
    leaves it.  The message to the host's notification manager is an output
    that is not part of the state. *)
Definition validateViewDelta (view : V) (delta : Vector3d) (messageNeeded : bool)
  : ViewStatus * Vector3d :=
  let limit := extentLimits view in
  let error := Success in
  let '(dx, error) := limitWindowSize limit error (x delta) false in
  let '(dy, error) := limitWindowSize limit error (y delta) false in
  let '(dz, error) := limitWindowSize limit error (z delta) true in
  (error, mkXYZ dx dy dz).

(** [ViewState.setupFromFrustum], the frustum-to-view solver of the base
    class. *)
Definition setupFromFrustum (view : V) (inFrustum : Frustum) : ViewStatus * V :=
  let frustum := Frustum.fixPointOrder inFrustum in
  let frustPts := points frustum in
  let viewOrg := frustPts LeftBottomRear in
  let frustumX := minus (frustPts RightBottomRear) viewOrg in
  let frustumY := minus (frustPts LeftTopRear) viewOrg in
  let frustumZ := minus (frustPts LeftBottomFront) viewOrg in
  match Matrix3d.createRigidFromColumns frustumX frustumY AxisOrder_XYZ with
  | None => (InvalidWindow, view)
  | Some frustMatrix =>
    let frustMatrix := StandardView.adjustToStandardRotation frustMatrix in
    let xDir := Matrix3d.getColumn frustMatrix 0 in
    let yDir := Matrix3d.getColumn frustMatrix 1 in
    let zDir := Matrix3d.getColumn frustMatrix 2 in
    match Matrix3d.inverse frustMatrix with
    | None => (InvalidWindow, view)
    | Some viewRot =>
      let zSize := dotProduct zDir frustumZ in
      if Rlt_dec zSize 0 then (InvalidWindow, view)
      else
        let viewDiagRoot :=
          plus2Scaled createZero xDir (dotProduct xDir frustumX) yDir (dotProduct yDir frustumY) in
        let viewDiagRoot := plusScaled viewDiagRoot zDir zSize in
        let viewOrg := plusScaled (Frustum.getCenter frustum) viewDiagRoot (-0.5) in
        let viewDelta := Matrix3d.multiplyVector viewRot viewDiagRoot in
        let viewDelta := snd (validateViewDelta view viewDelta false) in
        let view := setOrigin view viewOrg in
        let view := setExtents view viewDelta in
        let view := setRotation view viewRot in
        (Success, view)
    end
  end.

(** [ViewState.getCenter]. *)
Definition getCenter (view : V) : Point3d :=
  let delta := Matrix3d.multiplyVector (Matrix3d.transpose (getRotation view)) (getExtents view) in
  plusScaled (getOrigin view) delta 0.5.

Definition getXVector (view : V) : Vector3d := Matrix3d.getRow (getRotation view) 0.
Definition getYVector (view : V) : Vector3d := Matrix3d.getRow (getRotation view) 1.
Definition getZVector (view : V) : Vector3d := Matrix3d.getRow (getRotation view) 2.

(** [ViewState.adjustAspectRatio].  The method has no result when the
    rotation of the view has no inverse (the TypeScript dereferences the
    missing inverse). *)
Definition adjustAspectRatio (view : V) (windowAspect : R) : option V :=
  let extents := getExtents view in
  let viewAspect := x extents / y extents in
  let windowAspect := windowAspect * getAspectRatioSkew view in
  if Rlt_dec (Rabs (1 - viewAspect / windowAspect)) 1.0e-9 then Some view
  else
    let oldDelta := extents in
    let extents :=
      if Rlt_dec windowAspect viewAspect
      then mkXYZ (x extents) (x extents / windowAspect) (z extents)
      else mkXYZ (y extents * windowAspect) (y extents) (z extents) in
    let origin := getOrigin view in
    let trans := createOriginAndMatrix createZero (getRotation view) in
    let newOrigin := Transform.multiplyPoint3d trans origin in
    let newOrigin :=
      mkXYZ (x newOrigin + (x oldDelta - x extents) / 2)
            (y newOrigin + (y oldDelta - y extents) / 2)
            (z newOrigin) in
    match Transform.inverse trans with
    | None => None
    | Some inv =>
      let origin := Transform.multiplyPoint3d inv newOrigin in
      let view := setOrigin view origin in
      Some (setExtents view extents)
    end.
End ViewStateBase.

(* ================================================================== *)
(** * 3d views *)

Module ViewState3d.
Import Vector3d.

Definition getOrigin (view : ViewState3d) : Point3d := origin view.
Definition getExtents (view : ViewState3d) : Vector3d := extents view.
Definition getRotation (view : ViewState3d) : Matrix3d := rotation view.

Definition setOrigin (view : ViewState3d) (o : XYZ) : ViewState3d :=
  mkViewState3d (_cameraOn view) o (extents view) (rotation view) (camera view)
    (forceMinFrontDist view) (_extentLimits view) (defaultExtentLimits view)
    (aspectSkew view) (supportsCamera view).
Definition setExtents (view : ViewState3d) (e : XYZ) : ViewState3d :=
  mkViewState3d (_cameraOn view) (origin view) e (rotation view) (camera view)
    (forceMinFrontDist view) (_extentLimits view) (defaultExtentLimits view)
    (aspectSkew view) (supportsCamera view).
Definition setRotation (view : ViewState3d) (rot : Matrix3d) : ViewState3d :=
  mkViewState3d (_cameraOn view) (origin view) (extents view) rot (camera view)
    (forceMinFrontDist view) (_extentLimits view) (defaultExtentLimits view)
    (aspectSkew view) (supportsCamera view).

(** Assignment to the [camera] field's contents. *)
Definition setCamera (view : ViewState3d) (c : Camera) : ViewState3d :=
  mkViewState3d (_cameraOn view) (origin view) (extents view) (rotation view) c
    (forceMinFrontDist view) (_extentLimits view) (defaultExtentLimits view)
    (aspectSkew view) (supportsCamera view).
(** Assignment to [_cameraOn]. *)
Definition setCameraOn (view : ViewState3d) (b : bool) : ViewState3d :=
  mkViewState3d b (origin view) (extents view) (rotation view) (camera view)
    (forceMinFrontDist view) (_extentLimits view) (defaultExtentLimits view)
    (aspectSkew view) (supportsCamera view).

(** The getter [extentLimits] of the base class. *)
Definition extentLimits (view : ViewState3d) : ExtentLimits :=
  match _extentLimits view with
  | Some l => l
  | None => defaultExtentLimits view
  end.

(** [getAspectRatioSkew]: the "aspectSkew" detail, 1.0 when there is none. *)
Definition getAspectRatioSkew (view : ViewState3d) : R :=
  match aspectSkew view with
  | Some s => s
  | None => 1.0
  end.

Definition isCameraOn (view : ViewState3d) : bool := _cameraOn view.
Definition enableCamera (view : ViewState3d) : ViewState3d :=
  if supportsCamera view then setCameraOn view true else view.
Definition turnCameraOff (view : ViewState3d) : ViewState3d := setCameraOn view false.

Definition minimumFrontDistance (view : ViewState3d) : R :=
  Rmax (15.2 * Constant.oneCentimeter) (forceMinFrontDist view).

Definition getEyePoint (view : ViewState3d) : Point3d := eye (camera view).
Definition getLensAngle (view : ViewState3d) : Angle := lens (camera view).
Definition getFocusDistance (view : ViewState3d) : R := focusDist (camera view).
Definition setLensAngle (view : ViewState3d) (a : Angle) : ViewState3d :=
  setCamera view (Camera.setLensAngle (camera view) a).
Definition setEyePoint (view : ViewState3d) (pt : XYZ) : ViewState3d :=
  setCamera view (Camera.setEyePoint (camera view) pt).
Definition setFocusDistance (view : ViewState3d) (dist : R) : ViewState3d :=
  setCamera view (Camera.setFocusDistance (camera view) dist).

(** [ViewState3d.calculateMaxDepth]. *)
Definition calculateMaxDepth (delta zVec : Vector3d) : R :=
  let depthRatioLimit := 1.0e8 in
  let maxTransformRowRatio := 1.0e5 in
  let minXYComponent := Rmin (Rabs (x zVec)) (Rabs (y zVec)) in
  let maxDepthRatio :=
    if Req_dec_T 0 minXYComponent then depthRatioLimit
    else Rmin (maxTransformRowRatio / minXYComponent) depthRatioLimit in
  Rmax (x delta) (y delta) * maxDepthRatio.

(** [ViewState3d.calcLensAngle]. *)
Definition calcLensAngle (view : ViewState3d) : Angle :=
  let maxDelta := Rmax (x (extents view)) (y (extents view)) in
  createRadians (2.0 * atan2 (maxDelta * 0.5) (Camera.getFocusDistance (camera view))).

(** [ViewState3d.getBackDistance]. *)
Definition getBackDistance (view : ViewState3d) : R :=
  let eyeOrg := vectorTo (origin view) (getEyePoint view) in
  let eyeOrg := Matrix3d.multiplyVector (getRotation view) eyeOrg in
  z eyeOrg.

(** [ViewState3d.getFrontDistance]. *)
Definition getFrontDistance (view : ViewState3d) : R :=
  getBackDistance view - z (extents view).
End ViewState3d.

(** A [ViewState3d] is a [ViewState]. *)
#[export] Instance ViewState3d_isViewState : ViewState ViewState3d := {|
  is3d := fun view => Some view;
  update3d := fun _ v3 => v3;
  getOrigin := ViewState3d.getOrigin;
  getExtents := ViewState3d.getExtents;
  getRotation := ViewState3d.getRotation;
  setOrigin := ViewState3d.setOrigin;
  setExtents := ViewState3d.setExtents;
  setRotation := ViewState3d.setRotation;
  extentLimits := ViewState3d.extentLimits;
  getAspectRatioSkew := ViewState3d.getAspectRatioSkew
|}.

Section ViewState3dCamera.
Context {K : Constants}.
Import Vector3d.

(** [ViewState3d.getTargetPoint]: the center of the view when the camera is
    off, the point at the focus distance in front of the eye otherwise. *)
Definition getTargetPoint (view : ViewState3d) : Point3d :=
  if negb (_cameraOn view) then getCenter view
  else
    let viewZ := Matrix3d.getRow (ViewState3d.getRotation view) 2 in
    plusScaled (ViewState3d.getEyePoint view) viewZ (-1.0 * ViewState3d.getFocusDistance view).

(** [ViewState3d.lookAt]. *)
Definition lookAt
  (view : ViewState3d) (eyePoint targetPoint : XYZ) (upVector : Vector3d)
  (newExtents : option XAndY) (frontDistance backDistance : option R)
  : ViewStatus * ViewState3d :=
  let eye := mkXYZ (x eyePoint) (y eyePoint) (z eyePoint) in
  match normalize upVector with
  | None => (InvalidUpVector, view)
  | Some yVec =>
    let zVec := createStartEnd targetPoint eye in
    let nz := normalizeWithLength zVec in
    let zVec := match v nz with Some u => u | None => zVec end in
    let focusDist := mag nz in
    let minFrontDist := ViewState3d.minimumFrontDistance view in
    if Rle_dec focusDist minFrontDist then (InvalidTargetPoint, view)
    else
      let nx := normalizeWithLength (crossProduct yVec zVec) in
      let xVec := match v nx with Some u => u | None => createZero end in
      if Rlt_dec (mag nx) smallMetricDistance then (InvalidUpVector, view)
      else
        let ny := normalizeWithLength (crossProduct zVec xVec) in
        let yVec := match v ny with Some u => u | None => yVec end in
        if Rlt_dec (mag ny) smallMetricDistance then (InvalidUpVector, view)
        else
          let rotation := Matrix3d.createRows xVec yVec zVec in
          let backDistance := orElse backDistance (ViewState3d.getBackDistance view) in
          let frontDistance := orElse frontDistance (ViewState3d.getFrontDistance view) in
          let delta :=
            match newExtents with
            | Some e => mkXYZ (Rabs (x2 e)) (Rabs (y2 e)) (z (extents view))
            | None => extents view
            end in
          let frontDistance := Rmax frontDistance (0.5 * Constant.oneMeter) in
          let backDistance := Rmax backDistance (focusDist + 0.5 * Constant.oneMeter) in
          let backDistance :=
            if Rlt_dec backDistance focusDist then focusDist + Constant.oneMillimeter
            else backDistance in
          let frontDistance :=
            if Rlt_dec focusDist frontDistance then focusDist - minFrontDist else frontDistance in
          let frontDistance :=
            if Rlt_dec frontDistance minFrontDist then minFrontDist else frontDistance in
          let delta := mkXYZ (x delta) (y delta) (backDistance - frontDistance) in
          let frontDelta := scale delta (frontDistance / focusDist) in
          match fst (validateViewDelta view frontDelta false) with
          | Success =>
            if Rlt_dec (ViewState3d.calculateMaxDepth delta zVec) (z delta)
            then (MaxDisplayDepth, view)
            else
              let origin :=
                plus3Scaled eye zVec (- backDistance) xVec (-0.5 * x delta) yVec (-0.5 * y delta) in
              let view := ViewState3d.setEyePoint view eyePoint in
              let view := ViewState3d.setRotation view rotation in
              let view := ViewState3d.setFocusDistance view focusDist in
              let view := ViewState3d.setOrigin view origin in
              let view := ViewState3d.setExtents view delta in
              let view := ViewState3d.setLensAngle view (ViewState3d.calcLensAngle view) in
              let view := ViewState3d.enableCamera view in
              (Success, view)
          | stat => (stat, view)
          end
  end.

(** [ViewState3d.lookAtUsingLensAngle]. *)
Definition lookAtUsingLensAngle
  (view : ViewState3d) (eyePoint targetPoint : Point3d) (upVector : Vector3d) (fov : Angle)
  (frontDistance backDistance : option R) : ViewStatus * ViewState3d :=
  let focusDist := magnitude (vectorTo eyePoint targetPoint) in
  if Rle_dec focusDist Constant.oneMillimeter then (InvalidTargetPoint, view)
  else if Rlt_dec (radians fov) 0.0001 then (InvalidLens, view)
  else if Rlt_dec PI (radians fov) then (InvalidLens, view)
  else
    let extent := 2.0 * tan (radians fov / 2.0) * focusDist in
    let delta := mkXY (x (extents view)) (y (extents view)) in
    let longAxis := Rmax (x2 delta) (y2 delta) in
    let delta := mkXY (x2 delta * (extent / longAxis)) (y2 delta * (extent / longAxis)) in
    lookAt view eyePoint targetPoint upVector (Some delta) frontDistance backDistance.

(** [ViewState3d.moveCameraWorld]. *)
Definition moveCameraWorld (view : ViewState3d) (distance : Vector3d) : ViewStatus * ViewState3d :=
  if negb (_cameraOn view) then (Success, ViewState3d.setOrigin view (plus (origin view) distance))
  else
    let newTarget := plus (getTargetPoint view) distance in
    let newEyePt := plus (ViewState3d.getEyePoint view) distance in
    lookAt view newEyePt newTarget (getYVector view) None None None.

(** [ViewState3d.moveCameraLocal]. *)
Definition moveCameraLocal (view : ViewState3d) (distance : Vector3d) : ViewStatus * ViewState3d :=
  let distWorld := Matrix3d.multiplyTransposeVector (ViewState3d.getRotation view) distance in
  moveCameraWorld view distWorld.

(** [ViewState3d.rotateCameraWorld]. *)
Definition rotateCameraWorld
  (view : ViewState3d) (angle : Angle) (axis : Vector3d) (aboutPt : option Point3d)
  : ViewStatus * ViewState3d :=
  let about := match aboutPt with Some p => p | None => ViewState3d.getEyePoint view end in
  match Matrix3d.createRotationAroundVector axis angle with
  | None => (InvalidUpVector, view)
  | Some rotation =>
    let trans := Transform.createFixedPointAndMatrix about rotation in
    let newTarget := Transform.multiplyPoint3d trans (getTargetPoint view) in
    let upVec := Matrix3d.multiplyVector rotation (getYVector view) in
    lookAt view (ViewState3d.getEyePoint view) newTarget upVec None None None
  end.

(** [ViewState3d.rotateCameraLocal]. *)
Definition rotateCameraLocal
  (view : ViewState3d) (angle : Angle) (axis : Vector3d) (aboutPt : option Point3d)
  : ViewStatus * ViewState3d :=
  let axisWorld := Matrix3d.multiplyTransposeVector (ViewState3d.getRotation view) axis in
  rotateCameraWorld view angle axisWorld aboutPt.

(** [ViewState3d.centerEyePoint]. *)
Definition centerEyePoint (view : ViewState3d) (backDistance : option R) : ViewState3d :=
  let eyePoint := scale (ViewState3d.getExtents view) 0.5 in
  let eyePoint :=
    mkXYZ (x eyePoint) (y eyePoint) (orElse backDistance (ViewState3d.getBackDistance view)) in
  let eye :=
    Matrix3d.multiplyTransposeXYZ (ViewState3d.getRotation view) (x eyePoint) (y eyePoint) (z eyePoint) in
  ViewState3d.setCamera view
    (Camera.setEyePoint (camera view) (plus (ViewState3d.getOrigin view) eye)).

(** [ViewState3d.centerFocusDistance]. *)
Definition centerFocusDistance (view : ViewState3d) : ViewState3d :=
  let backDist := ViewState3d.getBackDistance view in
  let frontDist := ViewState3d.getFrontDistance view in
  let eye := ViewState3d.getEyePoint view in
  let target := plusScaled eye (getZVector view) (frontDist - backDist) in
  snd (lookAtUsingLensAngle view eye target (getYVector view) (ViewState3d.getLensAngle view)
         (Some frontDist) (Some backDist)).

(** [ViewState3d.verifyFocusPlane]. *)
Definition verifyFocusPlane (view : ViewState3d) : ViewState3d :=
  if negb (_cameraOn view) then view
  else
    let backDist := ViewState3d.getBackDistance view in
    let frontDist := backDist - z (extents view) in
    let camera := camera view in
    let extents := extents view in
    let rot := rotation view in
    if (if Rle_dec backDist 0 then true else if Rle_dec frontDist 0 then true else false)
    then
      let tanAngle := tan (radians (lens camera) / 2.0) in
      let backDist := z extents / tanAngle in
      let view := ViewState3d.setCamera view (Camera.setFocusDistance camera (backDist / 2)) in
      centerEyePoint view (Some backDist)
    else
      let focusDist0 := focusDist camera in
      if (if Rlt_dec frontDist focusDist0 then (if Rlt_dec focusDist0 backDist then true else false)
          else false)
      then view
      else
        let camera := Camera.setFocusDistance camera (z extents / 2.0 + frontDist) in
        let ratio := focusDist camera / focusDist0 in
        let extents := mkXYZ (x extents * ratio) (y extents * ratio) (z extents) in
        let origin :=
          plus3Scaled (eye camera) (Matrix3d.rowZ rot) (- backDist)
                      (Matrix3d.rowX rot) (-0.5 * x extents)
                      (Matrix3d.rowY rot) (-0.5 * y extents) in
        let view := ViewState3d.setCamera view camera in
        let view := ViewState3d.setExtents view extents in
        ViewState3d.setOrigin view origin.
End ViewState3dCamera.

(** [ViewState3d.setupFromFrustum]: the solver of the base class, then the
    camera derived from the taper of the frustum. *)
Definition ViewState3d_setupFromFrustum {K : Constants} (view : ViewState3d) (frustum : Frustum)
  : ViewStatus * ViewState3d :=
  match setupFromFrustum view frustum with
  | (Success, view) =>
    let view := ViewState3d.turnCameraOff view in
    let frustPts := points frustum in
    let xBack := Vector3d.distance (frustPts LeftBottomRear) (frustPts RightBottomRear) in
    let xFront := Vector3d.distance (frustPts LeftBottomFront) (frustPts RightBottomFront) in
    let flatViewFractionTolerance := 1.0e-6 in
    if Rlt_dec (xBack * (1.0 + flatViewFractionTolerance)) xFront then (InvalidWindow, view)
    else
      let compression := xFront / xBack in
      if Rle_dec (1.0 - flatViewFractionTolerance) compression then (Success, view)
      else
        let viewOrg := frustPts LeftBottomRear in
        let viewDelta := ViewState3d.getExtents view in
        let zDir := getZVector view in
        let frustumZ := Vector3d.vectorTo viewOrg (frustPts LeftBottomFront) in
        let frustOrgToEye := Vector3d.scale frustumZ (1.0 / (1.0 - compression)) in
        let eyePoint := Vector3d.plus viewOrg frustOrgToEye in
        let backDistance := Vector3d.dotProduct frustOrgToEye zDir in
        let focusDistance := backDistance - z viewDelta / 2.0 in
        let focalFraction := focusDistance / backDistance in
        let viewOrg :=
          Vector3d.plus2Scaled eyePoint frustOrgToEye (- focalFraction)
                               zDir (focusDistance - backDistance) in
        let viewDelta :=
          mkXYZ (x viewDelta * focalFraction) (y viewDelta * focalFraction) (z viewDelta) in
        let view := ViewState3d.setEyePoint view eyePoint in
        let view := ViewState3d.setFocusDistance view focusDistance in
        let view := ViewState3d.setOrigin view viewOrg in
        let view := ViewState3d.setExtents view viewDelta in
        let view := ViewState3d.setLensAngle view (ViewState3d.calcLensAngle view) in
        let view := ViewState3d.enableCamera view in
        (Success, view)
  | (stat, _) => (stat, view)
  end.

Module Range3d.
(** A null range has a high corner below its low corner on some axis. *)
Definition isNull (r : Range3d) : bool :=
  if Rlt_dec (x (high r)) (x (low r)) then true
  else if Rlt_dec (y (high r)) (y (low r)) then true
  else if Rlt_dec (z (high r)) (z (low r)) then true
  else false.
End Range3d.

Section ViewStateVolume.
Context {K : Constants} {V : Type} {VS : ViewState V}.
Import Vector3d.

(** [ViewState.lookAtViewAlignedVolume].  As for [adjustAspectRatio], there
    is no result when the rotation of the view has no inverse. *)
Definition lookAtViewAlignedVolume
  (view : V) (volume : Range3d) (aspect : option R) (margin : option MarginPercent) : option V :=
  if Range3d.isNull volume then Some view
  else
    let viewRot := getRotation view in
    let newOrigin := low volume in
    let newDelta := createStartEnd (low volume) (high volume) in
    let minimumDepth := Constant.oneMillimeter in
    let '(newOrigin, newDelta) :=
      if Rlt_dec (z newDelta) minimumDepth
      then (mkXYZ (x newOrigin) (y newOrigin) (z newOrigin - (minimumDepth - z newDelta) / 2.0),
            mkXYZ (x newDelta) (y newDelta) minimumDepth)
      else (newOrigin, newDelta) in
    let origNewDelta := newDelta in
    let isCameraOn := match isCameraOn3d view with Some _ => true | None => false end in
    let '(newOrigin, newDelta, origNewDelta) :=
      if isCameraOn then (newOrigin, newDelta, origNewDelta)
      else
        match margin with
        | Some margin =>
          let wPercent := left margin + right margin in
          let hPercent := top margin + bottom margin in
          let marginHorizontal := wPercent / (1 - wPercent) * x newDelta in
          let marginVert := hPercent / (1 - hPercent) * y newDelta in
          let marginLeft := left margin / (1 - wPercent) * x newDelta in
          let marginBottom := bottom margin / (1 - hPercent) * y newDelta in
          let newOrigin := mkXYZ (x newOrigin - marginLeft) (y newOrigin - marginBottom) (z newOrigin) in
          let newDelta := mkXYZ (x newDelta + marginHorizontal) (y newDelta + marginVert) (z newDelta) in
          (newOrigin, newDelta, newDelta)
        | None => (newOrigin, scale newDelta 1.04, origNewDelta)
        end in
    let newDelta :=
      if isCameraOn then
        let diag := magnitudeXY newDelta in
        if Rlt_dec (z newDelta) diag then mkXYZ (x newDelta) (y newDelta) diag else newDelta
      else newDelta in
    let newDelta := snd (validateViewDelta view newDelta true) in
    let view := setExtents view newDelta in
    let adjusted :=
      match aspect with
      | Some a => if Req_dec_T a 0 then Some view else adjustAspectRatio view a
      | None => Some view
      end in
    match adjusted with
    | None => None
    | Some view =>
      let newDelta := getExtents view in
      let newOrigin :=
        mkXYZ (x newOrigin - (x newDelta - x origNewDelta) / 2.0)
              (y newOrigin - (y newDelta - y origNewDelta) / 2.0)
              (z newOrigin - (z newDelta - z origNewDelta) / 2.0) in
      let newOrigin := Matrix3d.multiplyTransposeVector viewRot newOrigin in
      let view := setOrigin view newOrigin in
      match is3d view with
      | None => Some view
      | Some v3 =>
        let cameraDef := Camera.validateLens (camera v3) in
        let frontDist :=
          Rmax (x newDelta) (y newDelta)
          / (2.0 * tan (radians (Camera.getLensAngle cameraDef) / 2.0)) in
        let backDist := frontDist + z newDelta in
        let cameraDef := Camera.setFocusDistance cameraDef frontDist in
        let v3 := ViewState3d.setCamera v3 cameraDef in
        let v3 := centerEyePoint v3 (Some backDist) in
        let v3 := verifyFocusPlane v3 in
        Some (update3d view v3)
      end
    end.
End ViewStateVolume.

(* ================================================================== *)
(** * 2d views *)

(** The state of a [ViewState2d], with the same additions from its base
    class as for [ViewState3d]. *)
Module ViewState2d.
Record t := mk {
  origin : XAndY;
  delta : XAndY;
  angle : Angle;
  _extentLimits : option ExtentLimits;
  defaultExtentLimits : ExtentLimits;
  aspectSkew : option R
}.

Definition getOrigin (view : t) : Point3d := mkXYZ (x2 (origin view)) (y2 (origin view)) 0.
Definition getExtents (view : t) : Vector3d := mkXYZ (x2 (delta view)) (y2 (delta view)) 0.

(** The rotation by [a] about the Z axis. *)
Definition rotationAboutZ (a : Angle) : Matrix3d :=
  createRowValues (cos (radians a)) (- sin (radians a)) 0
                  (sin (radians a)) (cos (radians a)) 0
                  0 0 1.

(** [getRotation]: [Matrix3d.createRotationAroundVector(Vector3d.unitZ(),
    this.angle)!].  The unit Z axis has a direction unless the small-distance
    epsilon exceeds 1; the rotation is then written out. *)
Definition getRotation {K : Constants} (view : t) : Matrix3d :=
  match Matrix3d.createRotationAroundVector Vector3d.unitZ (angle view) with
  | Some m => m
  | None => rotationAboutZ (angle view)
  end.

Definition setExtents (view : t) (d : Vector3d) : t :=
  mk (origin view) (mkXY (x d) (y d)) (angle view)
     (_extentLimits view) (defaultExtentLimits view) (aspectSkew view).
Definition setOrigin (view : t) (o : Point3d) : t :=
  mk (mkXY (x o) (y o)) (delta view) (angle view)
     (_extentLimits view) (defaultExtentLimits view) (aspectSkew view).
Definition setRotation (view : t) (rot : Matrix3d) : t :=
  let xColumn := Matrix3d.getColumn rot 0 in
  mk (origin view) (delta view) (createRadians (atan2 (y xColumn) (x xColumn)))
     (_extentLimits view) (defaultExtentLimits view) (aspectSkew view).

Definition extentLimits (view : t) : ExtentLimits :=
  match _extentLimits view with
  | Some l => l
  | None => defaultExtentLimits view
  end.
Definition getAspectRatioSkew (view : t) : R :=
  match aspectSkew view with
  | Some s => s
  | None => 1.0
  end.
End ViewState2d.

Definition ViewState2d := ViewState2d.t.

(** A [ViewState2d] is a [ViewState]; it is never a [ViewState3d]. *)
#[export] Instance ViewState2d_isViewState {K : Constants} : ViewState ViewState2d := {|
  is3d := fun _ => None;
  update3d := fun view _ => view;
  getOrigin := ViewState2d.getOrigin;
  getExtents := ViewState2d.getExtents;
  getRotation := ViewState2d.getRotation;
  setOrigin := ViewState2d.setOrigin;
  setExtents := ViewState2d.setExtents;
  setRotation := ViewState2d.setRotation;
  extentLimits := ViewState2d.extentLimits;
  getAspectRatioSkew := ViewState2d.getAspectRatioSkew
|}.

(* ================================================================== *)
(** * Undo states *)

(** [ViewState3dUndo]: what [saveForUndo] keeps of a 3d view, each field a
    clone of the field of the view. *)
Record ViewState3dUndo := mkViewState3dUndo {
  undoCameraOn : bool;
  undoOrigin : Point3d;
  undoExtents : Vector3d;
  undoRotation : Matrix3d;
  undoCamera : Camera
}.

(** [ViewState3d.saveForUndo]: the constructor of [ViewState3dUndo]. *)
Definition ViewState3d_saveForUndo (view : ViewState3d) : ViewState3dUndo :=
  mkViewState3dUndo (ViewState3d.isCameraOn view) (origin view) (extents view) (rotation view)
                    (camera view).

(** [ViewState3d.setFromUndo]. *)
Definition ViewState3d_setFromUndo (view : ViewState3d) (val : ViewState3dUndo) : ViewState3d :=
  let view := ViewState3d.setCameraOn view (undoCameraOn val) in
  let view := ViewState3d.setOrigin view (undoOrigin val) in
  let view := ViewState3d.setExtents view (undoExtents val) in
  let view := ViewState3d.setRotation view (undoRotation val) in
  ViewState3d.setCamera view (undoCamera val).

(** [ViewState2dUndo]. *)
Record ViewState2dUndo := mkViewState2dUndo {
  undoOrigin2d : XAndY;
  undoDelta2d : XAndY;
  undoAngle2d : Angle
}.

(** [ViewState2d.saveForUndo]. *)
Definition ViewState2d_saveForUndo (view : ViewState2d) : ViewState2dUndo :=
  mkViewState2dUndo (ViewState2d.origin view) (ViewState2d.delta view) (ViewState2d.angle view).

(** [ViewState2d.setFromUndo]. *)
Definition ViewState2d_setFromUndo (view : ViewState2d) (val : ViewState2dUndo) : ViewState2d :=
  ViewState2d.mk (undoOrigin2d val) (undoDelta2d val) (undoAngle2d val)
    (ViewState2d._extentLimits view) (ViewState2d.defaultExtentLimits view)
    (ViewState2d.aspectSkew view).

(* ================================================================== *)
(** * Rotation about a point and the fit of a world volume *)

(** [Frustum.multiply] of the common package: the transform applied to each
    of the eight corners. *)
Definition Frustum_multiply (trans : Transform) (f : Frustum) : Frustum :=
  Frustum.mapPoints (Transform.multiplyPoint3d trans) f.

(** [Frustum.fromRange] of the common package: the corners of the box, left
    and right on X, bottom and top on Y, rear and front on Z. *)
Definition Frustum_fromRange (volume : Range3d) : Frustum :=
  mkFrustum (fun n =>
    match n with
    | LeftBottomRear => mkXYZ (x (low volume)) (y (low volume)) (z (low volume))
    | RightBottomRear => mkXYZ (x (high volume)) (y (low volume)) (z (low volume))
    | LeftTopRear => mkXYZ (x (low volume)) (y (high volume)) (z (low volume))
    | RightTopRear => mkXYZ (x (high volume)) (y (high volume)) (z (low volume))
    | LeftBottomFront => mkXYZ (x (low volume)) (y (low volume)) (z (high volume))
    | RightBottomFront => mkXYZ (x (high volume)) (y (low volume)) (z (high volume))
    | LeftTopFront => mkXYZ (x (low volume)) (y (high volume)) (z (high volume))
    | RightTopFront => mkXYZ (x (high volume)) (y (high volume)) (z (high volume))
    end).

(** The corners of a frustum in the order of the [Npc] enumeration. *)
Definition Frustum_pointList (f : Frustum) : list Point3d :=
  List.map (points f)
    [ LeftBottomRear; RightBottomRear; LeftTopRear; RightTopRear;
      LeftBottomFront; RightBottomFront; LeftTopFront; RightTopFront ].

(** [Range3d.createNull] of the geometry package: the low corner at the
    largest coordinate, the high corner at the smallest. *)
Definition Range3d_createNull : Range3d :=
  mkRange3d (mkXYZ 1.0e200 1.0e200 1.0e200) (mkXYZ (-1.0e200) (-1.0e200) (-1.0e200)).

(** [Range3d.extendPoint]: each low coordinate lowered, each high coordinate
    raised, to take the point in. *)
Definition Range3d_extendPoint (r : Range3d) (p : Point3d) : Range3d :=
  mkRange3d
    (mkXYZ (if Rlt_dec (x p) (x (low r)) then x p else x (low r))
           (if Rlt_dec (y p) (y (low r)) then y p else y (low r))
           (if Rlt_dec (z p) (z (low r)) then z p else z (low r)))
    (mkXYZ (if Rlt_dec (x (high r)) (x p) then x p else x (high r))
           (if Rlt_dec (y (high r)) (y p) then y p else y (high r))
           (if Rlt_dec (z (high r)) (z p) then z p else z (high r))).

(** [Range3d.createArray]: the null range extended by every point. *)
Definition Range3d_createArray (pts : list Point3d) : Range3d :=
  fold_left Range3d_extendPoint pts Range3d_createNull.

(** A point within a range, coordinate by coordinate. *)
Definition inRange (r : Range3d) (p : Point3d) : Prop :=
  (x (low r) <= x p <= x (high r)) /\
  (y (low r) <= y p <= y (high r)) /\
  (z (low r) <= z p <= z (high r)).

Section ViewStateRotation.
Context {K : Constants} {V : Type} {VS : ViewState V}.
Import Vector3d.

(** The virtual [getTargetPoint]: that of [ViewState3d] for a 3d view, the
    center of the view otherwise. *)
Definition callGetTargetPoint (view : V) : Point3d :=
  match is3d view with
  | Some v3 => getTargetPoint v3
  | None => getCenter view
  end.

(** The virtual [setupFromFrustum]: the override of [ViewState3d] for a 3d
    view, the solver of the base class otherwise. *)
Definition callSetupFromFrustum (view : V) (frustum : Frustum) : ViewStatus * V :=
  match is3d view with
  | Some v3 =>
    let '(stat, v3) := ViewState3d_setupFromFrustum v3 frustum in
    (stat, update3d view v3)
  | None => setupFromFrustum view frustum
  end.

(** [ViewState.setRotationAboutPoint].  The status of [setupFromFrustum] is
    dropped, as in the TypeScript. *)
Definition setRotationAboutPoint (view : V) (rotation : Matrix3d) (point : option Point3d) : V :=
  let point := match point with Some p => p | None => callGetTargetPoint view end in
  match Matrix3d.inverse rotation with
  | None => view
  | Some inverse =>
    let targetMatrix := Matrix3d.multiplyMatrixMatrix inverse (getRotation view) in
    let worldTransform := Transform.createFixedPointAndMatrix point targetMatrix in
    match calculateFrustum view with
    | Some frustum => snd (callSetupFromFrustum view (Frustum_multiply worldTransform frustum))
    | None => view
    end
  end.

(** [ViewState.lookAtVolume]: the corners of the volume taken to view
    coordinates, and the fit of the box around them. *)
Definition lookAtVolume (view : V) (volume : Range3d) (aspect : option R)
  (margin : option MarginPercent) : option V :=
  let rangeBox := Frustum.mapPoints (Matrix3d.multiplyVector (getRotation view))
                    (Frustum_fromRange volume) in
  lookAtViewAlignedVolume view (Range3d_createArray (Frustum_pointList rangeBox)) aspect margin.
End ViewStateRotation.

(* ================================================================== *)
(** * Sequences of operations *)

(** A call of one of the three operations that assign the rotation of a
    3d view. *)
Inductive ViewOperation :=
| CallSetRotation (rot : Matrix3d)
| CallLookAt (eyePoint targetPoint : XYZ) (upVector : Vector3d) (newExtents : option XAndY)
             (frontDistance backDistance : option R)
| CallSetupFromFrustum (frustum : Frustum).

(** The view after the call; the status of the call is dropped. *)
Definition callOperation {K : Constants} (view : ViewState3d) (op : ViewOperation) : ViewState3d :=
  match op with
  | CallSetRotation rot => ViewState3d.setRotation view rot
  | CallLookAt e t u n f b => snd (lookAt view e t u n f b)
  | CallSetupFromFrustum f => snd (ViewState3d_setupFromFrustum view f)
  end.

(** The documented precondition of a call: [setRotation] takes an
    orthonormal matrix. *)
Definition operationAllowed (op : ViewOperation) : Prop :=
  match op with
  | CallSetRotation rot => Matrix3d.isRigid rot
  | _ => True
  end.

(** A call of one of the methods that change what a 3d view shows. *)
Inductive ViewManipulation :=
| DoSetOrigin (viewOrg : Point3d)
| DoSetExtents (viewDelta : Vector3d)
| DoSetRotation (viewRot : Matrix3d)
| DoSetEyePoint (pt : XYZ)
| DoSetLensAngle (angle : Angle)
| DoSetFocusDistance (dist : R)
| DoTurnCameraOff
| DoLookAt (eyePoint targetPoint : XYZ) (upVector : Vector3d) (newExtents : option XAndY)
           (frontDistance backDistance : option R)
| DoLookAtUsingLensAngle (eyePoint targetPoint : Point3d) (upVector : Vector3d) (fov : Angle)
                         (frontDistance backDistance : option R)
| DoMoveCameraWorld (distance : Vector3d)
| DoMoveCameraLocal (distance : Vector3d)
| DoRotateCameraWorld (angle : Angle) (axis : Vector3d) (aboutPt : option Point3d)
| DoRotateCameraLocal (angle : Angle) (axis : Vector3d) (aboutPt : option Point3d)
| DoCenterEyePoint (backDistance : option R)
| DoCenterFocusDistance
| DoVerifyFocusPlane
| DoSetupFromFrustum (frustum : Frustum)
| DoSetRotationAboutPoint (rotation : Matrix3d) (point : option Point3d)
| DoLookAtViewAlignedVolume (volume : Range3d) (aspect : option R) (margin : option MarginPercent)
| DoLookAtVolume (volume : Range3d) (aspect : option R) (margin : option MarginPercent).

(** The view after the call, when the call returns; the status is dropped. *)
Definition callManipulation {K : Constants} (view : ViewState3d) (op : ViewManipulation)
  : option ViewState3d :=
  match op with
  | DoSetOrigin o => Some (ViewState3d.setOrigin view o)
  | DoSetExtents e => Some (ViewState3d.setExtents view e)
  | DoSetRotation r => Some (ViewState3d.setRotation view r)
  | DoSetEyePoint p => Some (ViewState3d.setEyePoint view p)
  | DoSetLensAngle a => Some (ViewState3d.setLensAngle view a)
  | DoSetFocusDistance d => Some (ViewState3d.setFocusDistance view d)
  | DoTurnCameraOff => Some (ViewState3d.turnCameraOff view)
  | DoLookAt e t u n f b => Some (snd (lookAt view e t u n f b))
  | DoLookAtUsingLensAngle e t u a f b => Some (snd (lookAtUsingLensAngle view e t u a f b))
  | DoMoveCameraWorld d => Some (snd (moveCameraWorld view d))
  | DoMoveCameraLocal d => Some (snd (moveCameraLocal view d))
  | DoRotateCameraWorld a ax p => Some (snd (rotateCameraWorld view a ax p))
  | DoRotateCameraLocal a ax p => Some (snd (rotateCameraLocal view a ax p))
  | DoCenterEyePoint b => Some (centerEyePoint view b)
  | DoCenterFocusDistance => Some (centerFocusDistance view)
  | DoVerifyFocusPlane => Some (verifyFocusPlane view)
  | DoSetupFromFrustum f => Some (snd (ViewState3d_setupFromFrustum view f))
  | DoSetRotationAboutPoint r p => Some (setRotationAboutPoint view r p)
  | DoLookAtViewAlignedVolume v a m => lookAtViewAlignedVolume view v a m
  | DoLookAtVolume v a m => lookAtVolume view v a m
  end.

(** The view after a sequence of calls, when each of them returns. *)
Fixpoint callManipulations {K : Constants} (view : ViewState3d) (ops : list ViewManipulation)
  : option ViewState3d :=
  match ops with
  | [] => Some view
  | op :: rest =>
    match callManipulation view op with
    | Some view => callManipulations view rest
    | None => None
    end
  end.

(** What a 3d view holds besides the state that an undo saves. *)
Definition viewSettings (view : ViewState3d)
  : R * option ExtentLimits * ExtentLimits * option R * bool :=
  (forceMinFrontDist view, _extentLimits view, defaultExtentLimits view, aspectSkew view,
   supportsCamera view).

(** The calls of the base class that change a 2d view. *)
Inductive ViewManipulation2d :=
| Do2dSetOrigin (viewOrg : Point3d)
| Do2dSetExtents (viewDelta : Vector3d)
| Do2dSetRotation (viewRot : Matrix3d)
| Do2dSetupFromFrustum (frustum : Frustum)
| Do2dSetRotationAboutPoint (rotation : Matrix3d) (point : option Point3d)
| Do2dLookAtViewAlignedVolume (volume : Range3d) (aspect : option R)
                              (margin : option MarginPercent)
| Do2dLookAtVolume (volume : Range3d) (aspect : option R) (margin : option MarginPercent).

(** The 2d view after the call, when the call returns; the status is
    dropped. *)
Definition callManipulation2d {K : Constants} (view : ViewState2d) (op : ViewManipulation2d)
  : option ViewState2d :=
  match op with
  | Do2dSetOrigin o => Some (ViewState2d.setOrigin view o)
  | Do2dSetExtents e => Some (ViewState2d.setExtents view e)
  | Do2dSetRotation r => Some (ViewState2d.setRotation view r)
  | Do2dSetupFromFrustum f => Some (snd (setupFromFrustum view f))
  | Do2dSetRotationAboutPoint r p => Some (setRotationAboutPoint view r p)
  | Do2dLookAtViewAlignedVolume v a m => lookAtViewAlignedVolume view v a m
  | Do2dLookAtVolume v a m => lookAtVolume view v a m
  end.

(** The 2d view after a sequence of calls, when each of them returns. *)
Fixpoint callManipulations2d {K : Constants} (view : ViewState2d)
  (ops : list ViewManipulation2d) : option ViewState2d :=
  match ops with
  | [] => Some view
  | op :: rest =>
    match callManipulation2d view op with
    | Some view => callManipulations2d view rest
    | None => None
    end
  end.

(** What a 2d view holds besides the state that an undo saves. *)
Definition viewSettings2d (view : ViewState2d) : option ExtentLimits * ExtentLimits * option R :=
  (ViewState2d._extentLimits view, ViewState2d.defaultExtentLimits view,
   ViewState2d.aspectSkew view).

(* ================================================================== *)
(** * Sample data

    Concrete constants, views and frusta, on which the theorems below are
    instantiated. *)

(** Sample constants: a small-distance epsilon of a micrometer, a near/far
    ratio of 0.0003, and the axis-aligned standard views (top, bottom, left,
    right, front, back) with a snapping tolerance of 1.0e-7. *)
Definition sampleConstants : Constants := {|
  smallMetricDistance := 1.0e-6;
  nearScale24 := 0.0003;
  standardViewMatrices :=
    [ Matrix3d.createIdentity;
      createRowValues 1 0 0 0 (-1) 0 0 0 (-1);
      createRowValues 0 (-1) 0 0 0 1 (-1) 0 0;
      createRowValues 0 1 0 0 0 1 1 0 0;
      createRowValues 1 0 0 0 0 1 0 (-1) 0;
      createRowValues (-1) 0 0 0 0 1 0 1 0 ];
  standardViewTolerance := 1.0e-7
|}.

(** The default extent limits of a spatial view: a millimeter to the
    diameter of the earth. *)
Definition spatialLimits : ExtentLimits := mkExtentLimits Constant.oneMillimeter 12742000.

(** A spatial view looking down the Z axis at the box [0,10] x [0,10] x [0,1],
    camera off. *)
Definition sampleView : ViewState3d := {|
  _cameraOn := false;
  origin := mkXYZ 0 0 0;
  extents := mkXYZ 10 10 1;
  rotation := Matrix3d.createIdentity;
  camera := mkCamera (createRadians (PI / 2)) 1 (mkXYZ 0 0 1);
  forceMinFrontDist := 0;
  _extentLimits := None;
  defaultExtentLimits := spatialLimits;
  aspectSkew := None;
  supportsCamera := true
|}.

(** The frustum of the box with corner [o] whose edges run along the rows
    of [rot] and have the lengths [d]: what an orthographic view with that
    origin, rotation and extents shows. *)
Definition boxFrustum (o : Point3d) (rot : Matrix3d) (d : Vector3d) : Frustum :=
  Frustum.mapPoints
    (fun p => Vector3d.plus3Scaled o
                (Vector3d.scale (Matrix3d.rowX rot) (x d)) (x p)
                (Vector3d.scale (Matrix3d.rowY rot) (y d)) (y p)
                (Vector3d.scale (Matrix3d.rowZ rot) (z d)) (z p))
    Frustum.initNpc.

(** A cube of a tenth of a millimeter, smaller than the limits of
    [sampleView] allow. *)
Definition tinyFrustum : Frustum :=
  boxFrustum (mkXYZ 0 0 0) Matrix3d.createIdentity (mkXYZ 0.0001 0.0001 0.0001).

(** A view turned about Z by an angle of 2.0e-8 radians or so: the rotation
    is exactly orthonormal (its entries are rational) and within 1.0e-7 of the
    top view. *)
Definition snapView : ViewState3d := {|
  _cameraOn := false;
  origin := mkXYZ 0 0 0;
  extents := mkXYZ 10 10 1;
  rotation :=
    createRowValues
      (9999999999999999 / 10000000000000001) (200000000 / 10000000000000001) 0
      (- (200000000 / 10000000000000001)) (9999999999999999 / 10000000000000001) 0
      0 0 1;
  camera := mkCamera (createRadians (PI / 2)) 1 (mkXYZ 0 0 1);
  forceMinFrontDist := 0;
  _extentLimits := None;
  defaultExtentLimits := spatialLimits;
  aspectSkew := None;
  supportsCamera := true
|}.

(** A perspective view whose eye is 20 km in front of the back plane. *)
Definition farCameraView : ViewState3d := {|
  _cameraOn := true;
  origin := mkXYZ 0 0 0;
  extents := mkXYZ 10 10 19999.9;
  rotation := Matrix3d.createIdentity;
  camera := mkCamera (createRadians (PI / 2)) 100 (mkXYZ 5 5 20000);
  forceMinFrontDist := 0;
  _extentLimits := None;
  defaultExtentLimits := spatialLimits;
  aspectSkew := None;
  supportsCamera := true
|}.

(** The box of [sampleView] seen through a camera. *)
Definition cameraOnView : ViewState3d := {|
  _cameraOn := true;
  origin := mkXYZ 0 0 0;
  extents := mkXYZ 10 10 1;
  rotation := Matrix3d.createIdentity;
  camera := mkCamera (createRadians (PI / 2)) 5 (mkXYZ 5 5 5.5);
  forceMinFrontDist := 0;
  _extentLimits := None;
  defaultExtentLimits := spatialLimits;
  aspectSkew := None;
  supportsCamera := true
|}.

(** A frustum whose front face is twice as wide as its back face. *)
Definition explodingFrustum : Frustum :=
  mkFrustum (fun n =>
    match n with
    | LeftBottomRear => mkXYZ 0 0 0
    | RightBottomRear => mkXYZ 1 0 0
    | LeftTopRear => mkXYZ 0 1 0
    | RightTopRear => mkXYZ 1 1 0
    | LeftBottomFront => mkXYZ 0 0 1
    | RightBottomFront => mkXYZ 2 0 1
    | LeftTopFront => mkXYZ 0 2 1
    | RightTopFront => mkXYZ 2 2 1
    end).

(* ================================================================== *)
(** * Proof tools *)

(** Case analysis on the first comparison of reals in the goal. *)
Ltac case_R :=
  match goal with
  | |- context [Rlt_dec ?a ?b] => destruct (Rlt_dec a b)
  | |- context [Rle_dec ?a ?b] => destruct (Rle_dec a b)
  | |- context [Req_dec_T ?a ?b] => destruct (Req_dec_T a b)
  end.

(** Decide the first comparison of reals in the goal by linear arithmetic. *)
Ltac decide_R :=
  match goal with
  | |- context [Rlt_dec ?a ?b] => destruct (Rlt_dec a b); [ try (exfalso; lra) | try (exfalso; lra) ]
  | |- context [Rle_dec ?a ?b] => destruct (Rle_dec a b); [ try (exfalso; lra) | try (exfalso; lra) ]
  | |- context [Req_dec_T ?a ?b] => destruct (Req_dec_T a b); [ try (exfalso; lra) | try (exfalso; lra) ]
  end.

(** Reduce the fields of a view that was written by the setters. *)
Ltac view_fields :=
  cbn [supportsCamera ViewState3d.setLensAngle ViewState3d.setExtents ViewState3d.setOrigin
       ViewState3d.setFocusDistance ViewState3d.setRotation ViewState3d.setEyePoint
       ViewState3d.setCamera ViewState3d.setCameraOn Camera.setLensAngle Camera.setFocusDistance
       Camera.setEyePoint _cameraOn origin extents rotation camera forceMinFrontDist
       _extentLimits defaultExtentLimits aspectSkew lens focusDist eye
       ViewState3d.getEyePoint ViewState3d.getFocusDistance ViewState3d.getLensAngle
       ViewState3d.getOrigin ViewState3d.getExtents ViewState3d.getRotation
       ViewState3d.isCameraOn ViewState3d.turnCameraOff orb].

(** Decide the first maximum, minimum or absolute value of the goal whose
    arguments linear arithmetic can compare. *)
Ltac decide_Rmax :=
  match goal with
  | |- context [Rmax ?a ?b] =>
    first [rewrite (Rmax_left a b) by lra | rewrite (Rmax_right a b) by lra]
  | |- context [Rmin ?a ?b] =>
    first [rewrite (Rmin_left a b) by lra | rewrite (Rmin_right a b) by lra]
  | |- context [Rabs ?a] =>
    first [rewrite (Rabs_pos_eq a) by lra | rewrite (Rabs_left a) by lra]
  end.

(** Decide a comparison of the goal that linear arithmetic settles. *)
Ltac decide_cmp :=
  match goal with
  | |- context [Rlt_dec ?a ?b] =>
    first [ destruct (Rlt_dec a b) as [?|?]; [exfalso; lra|]
          | destruct (Rlt_dec a b) as [?|?]; [|exfalso; lra] ]
  | |- context [Rle_dec ?a ?b] =>
    first [ destruct (Rle_dec a b) as [?|?]; [exfalso; lra|]
          | destruct (Rle_dec a b) as [?|?]; [|exfalso; lra] ]
  | |- context [Req_dec_T ?a ?b] =>
    first [ destruct (Req_dec_T a b) as [?|?]; [exfalso; lra|]
          | destruct (Req_dec_T a b) as [?|?]; [|exfalso; lra] ]
  end.

(* ================================================================== *)
(** * Extent limits *)

Section ExtentClamping.
Context {V : Type} {VS : ViewState V}.

Lemma limitWindowSize_value (limit : ExtentLimits) (e : ViewStatus) (val : R) (ig : bool) :
  min limit <= max limit ->
  (val < min limit -> fst (limitWindowSize limit e val ig) = min limit) /\
  (max limit < val -> fst (limitWindowSize limit e val ig) = max limit) /\
  (min limit <= val <= max limit -> fst (limitWindowSize limit e val ig) = val).
Proof.
  intros Hlim. unfold limitWindowSize.
  repeat split; intros; repeat case_R; simpl; try reflexivity; lra.
Qed.

Lemma limitWindowSize_ignore (limit : ExtentLimits) (e : ViewStatus) (val : R) :
  snd (limitWindowSize limit e val true) = e.
Proof. unfold limitWindowSize. repeat case_R; reflexivity. Qed.

Lemma limitWindowSize_status (limit : ExtentLimits) (e : ViewStatus) (val : R) :
  min limit <= max limit ->
  (val < min limit -> snd (limitWindowSize limit e val false) = MinWindow) /\
  (max limit < val -> snd (limitWindowSize limit e val false) = MaxWindow) /\
  (min limit <= val <= max limit -> snd (limitWindowSize limit e val false) = e).
Proof.
  intros Hlim. unfold limitWindowSize.
  repeat split; intros; repeat case_R; simpl; try reflexivity; lra.
Qed.

(** The delta [validateViewDelta] leaves, component by component. *)
Lemma validateViewDelta_delta (view : V) (delta : Vector3d) (msg : bool) :
  snd (validateViewDelta view delta msg) =
  mkXYZ (fst (limitWindowSize (extentLimits view) Success (x delta) false))
        (fst (limitWindowSize (extentLimits view) Success (y delta) false))
        (fst (limitWindowSize (extentLimits view) Success (z delta) true)).
Proof.
  unfold validateViewDelta, limitWindowSize.
  repeat case_R; reflexivity.
Qed.

(** The status [validateViewDelta] returns: that of Y when Y is out of range,
    else that of X; Z never counts. *)
Lemma validateViewDelta_status (view : V) (delta : Vector3d) (msg : bool) :
  fst (validateViewDelta view delta msg) =
  snd (limitWindowSize (extentLimits view)
         (snd (limitWindowSize (extentLimits view) Success (x delta) false))
         (y delta) false).
Proof.
  unfold validateViewDelta, limitWindowSize.
  repeat case_R; reflexivity.
Qed.

(** Delta within the limits is left alone. *)
Lemma validateViewDelta_within (view : V) (delta : Vector3d) (msg : bool) :
  min (extentLimits view) <= x delta <= max (extentLimits view) ->
  min (extentLimits view) <= y delta <= max (extentLimits view) ->
  min (extentLimits view) <= z delta <= max (extentLimits view) ->
  validateViewDelta view delta msg = (Success, delta).
Proof.
  intros Hx Hy Hz. unfold validateViewDelta, limitWindowSize.
  destruct delta as [dx dy dz]; simpl in *.
  repeat case_R; try reflexivity; lra.
Qed.

(** No status but [Success], [MinWindow] and [MaxWindow] comes out of
    [validateViewDelta]. *)
Lemma validateViewDelta_statuses (view : V) (delta : Vector3d) (msg : bool) :
  fst (validateViewDelta view delta msg) = Success \/
  fst (validateViewDelta view delta msg) = MinWindow \/
  fst (validateViewDelta view delta msg) = MaxWindow.
Proof.
  unfold validateViewDelta, limitWindowSize.
  repeat case_R; simpl; auto.
Qed.

(** C4.  Extent clamping.  With limits [min <= max], [validateViewDelta]
    sets every component of the delta that is below [min] to [min] and every
    component above [max] to [max], and leaves the others; the status is
    [MinWindow] or [MaxWindow] when X or Y was out of range (Y deciding when
    both were), and [Success] when X and Y were in range, whatever Z was. *)
Theorem validateViewDelta_clamps (view : V) (delta : Vector3d) (messageNeeded : bool) :
  let limit := extentLimits view in
  let stat := fst (validateViewDelta view delta messageNeeded) in
  let out := snd (validateViewDelta view delta messageNeeded) in
  min limit <= max limit ->
  ((x delta < min limit -> x out = min limit) /\
   (max limit < x delta -> x out = max limit) /\
   (min limit <= x delta <= max limit -> x out = x delta)) /\
  ((y delta < min limit -> y out = min limit) /\
   (max limit < y delta -> y out = max limit) /\
   (min limit <= y delta <= max limit -> y out = y delta)) /\
  ((z delta < min limit -> z out = min limit) /\
   (max limit < z delta -> z out = max limit) /\
   (min limit <= z delta <= max limit -> z out = z delta)) /\
  (y delta < min limit -> stat = MinWindow) /\
  (max limit < y delta -> stat = MaxWindow) /\
  (min limit <= y delta <= max limit -> x delta < min limit -> stat = MinWindow) /\
  (min limit <= y delta <= max limit -> max limit < x delta -> stat = MaxWindow) /\
  (min limit <= x delta <= max limit -> min limit <= y delta <= max limit -> stat = Success).
Proof.
  intros limit stat out Hlim. subst stat out.
  rewrite validateViewDelta_delta, validateViewDelta_status. simpl. fold limit.
  pose proof (limitWindowSize_value limit Success (x delta) false Hlim) as Hx.
  pose proof (limitWindowSize_value limit Success (y delta) false Hlim) as Hy.
  pose proof (limitWindowSize_value limit Success (z delta) true Hlim) as Hz.
  pose proof (limitWindowSize_status limit Success (x delta) Hlim) as [Sx1 [Sx2 Sx3]].
  pose proof (fun e => limitWindowSize_status limit e (y delta) Hlim) as Sy.
  repeat split; try tauto; intros.
  - apply (Sy _); assumption.
  - apply (Sy _); assumption.
  - destruct (Sy (snd (limitWindowSize limit Success (x delta) false))) as [_ [_ S3]].
    rewrite S3 by assumption. auto.
  - destruct (Sy (snd (limitWindowSize limit Success (x delta) false))) as [_ [_ S3]].
    rewrite S3 by assumption. auto.
  - destruct (Sy (snd (limitWindowSize limit Success (x delta) false))) as [_ [_ S3]].
    rewrite S3 by assumption. auto.
Qed.
End ExtentClamping.

Lemma validateViewDelta_clamps_witness :
  min (extentLimits sampleView) <= max (extentLimits sampleView) /\
  z (snd (validateViewDelta sampleView (mkXYZ 5 5 0.00001) true)) = min (extentLimits sampleView) /\
  fst (validateViewDelta sampleView (mkXYZ 5 5 0.00001) true) = Success.
Proof.
  assert (Hlim : min (extentLimits sampleView) <= max (extentLimits sampleView))
    by (simpl; unfold Constant.oneMillimeter; lra).
  destruct (validateViewDelta_clamps sampleView (mkXYZ 5 5 0.00001) true Hlim)
    as (_ & _ & Hz & _ & _ & _ & _ & S5).
  split; [exact Hlim|]. split.
  - apply Hz. simpl. unfold Constant.oneMillimeter. lra.
  - apply S5; simpl; unfold Constant.oneMillimeter; lra.
Defined.

(* ================================================================== *)
(** * Vector and matrix algebra *)

Section VectorFacts.
Import Vector3d.

Lemma xyz_eq (a b : XYZ) : x a = x b -> y a = y b -> z a = z b -> a = b.
Proof. destruct a, b; simpl; intros; subst; reflexivity. Qed.

Lemma dotProduct_comm (u w : XYZ) : dotProduct u w = dotProduct w u.
Proof. unfold dotProduct; ring. Qed.

Lemma dotProduct_scale_l (u w : XYZ) (s : R) : dotProduct (scale u s) w = s * dotProduct u w.
Proof. unfold dotProduct, scale; simpl; ring. Qed.

Lemma dotProduct_scale_r (u w : XYZ) (s : R) : dotProduct u (scale w s) = s * dotProduct u w.
Proof. unfold dotProduct, scale; simpl; ring. Qed.

Lemma crossProduct_scale_l (u w : XYZ) (s : R) :
  crossProduct (scale u s) w = scale (crossProduct u w) s.
Proof. unfold crossProduct, scale; simpl; f_equal; ring. Qed.

Lemma crossProduct_scale_r (u w : XYZ) (s : R) :
  crossProduct u (scale w s) = scale (crossProduct u w) s.
Proof. unfold crossProduct, scale; simpl; f_equal; ring. Qed.

Lemma crossProduct_perp_l (u w : XYZ) : dotProduct u (crossProduct u w) = 0.
Proof. unfold dotProduct, crossProduct; simpl; ring. Qed.

Lemma crossProduct_perp_r (u w : XYZ) : dotProduct w (crossProduct u w) = 0.
Proof. unfold dotProduct, crossProduct; simpl; ring. Qed.

(** Lagrange's identity. *)
Lemma crossProduct_magnitudeSquared (u w : XYZ) :
  dotProduct (crossProduct u w) (crossProduct u w) =
  dotProduct u u * dotProduct w w - dotProduct u w * dotProduct u w.
Proof. unfold dotProduct, crossProduct; simpl; ring. Qed.

(** The vector triple product [(u x w) x u], for [u] of unit length
    orthogonal to [w], is [w]. *)
Lemma crossProduct_cross_unit (u w : XYZ) :
  dotProduct u u = 1 -> dotProduct u w = 0 ->
  crossProduct (crossProduct u w) u = w.
Proof.
  intros Hu Huw. unfold dotProduct in *. destruct u as [a b c], w as [d e f]; simpl in *.
  unfold crossProduct; simpl. f_equal.
  - replace ((c * d - a * f) * c - (a * e - b * d) * b)
      with (d * (a * a + b * b + c * c) - a * (a * d + b * e + c * f)) by ring.
    rewrite Hu, Huw; ring.
  - replace ((a * e - b * d) * a - (b * f - c * e) * c)
      with (e * (a * a + b * b + c * c) - b * (a * d + b * e + c * f)) by ring.
    rewrite Hu, Huw; ring.
  - replace ((b * f - c * e) * b - (c * d - a * f) * a)
      with (f * (a * a + b * b + c * c) - c * (a * d + b * e + c * f)) by ring.
    rewrite Hu, Huw; ring.
Qed.

Lemma dotProduct_self_nonneg (u : XYZ) : 0 <= dotProduct u u.
Proof. unfold dotProduct. nra. Qed.

Lemma magnitude_nonneg (u : XYZ) : 0 <= magnitude u.
Proof. unfold magnitude. apply sqrt_pos. Qed.

Lemma magnitude_squared (u : XYZ) : magnitude u * magnitude u = dotProduct u u.
Proof. unfold magnitude, magnitudeSquared. apply sqrt_sqrt, dotProduct_self_nonneg. Qed.

Lemma magnitude_unit (u : XYZ) : dotProduct u u = 1 -> magnitude u = 1.
Proof. intros H. unfold magnitude, magnitudeSquared. rewrite H. apply sqrt_1. Qed.

(** The length of a vector is [m] when [m] is not negative and its square
    is the square of the length. *)
Lemma magnitude_of_square (u : XYZ) (m : R) :
  0 <= m -> dotProduct u u = m * m -> magnitude u = m.
Proof.
  intros Hm H. unfold magnitude, magnitudeSquared. rewrite H. apply sqrt_square, Hm.
Qed.

Lemma magnitude_scale_unit (u : XYZ) (k : R) :
  0 <= k -> dotProduct u u = 1 -> magnitude (scale u k) = k.
Proof.
  intros Hk Hu. apply magnitude_of_square; [assumption|].
  rewrite dotProduct_scale_l, dotProduct_scale_r, Hu. ring.
Qed.

Lemma scale_scale_inv (u : XYZ) (k : R) : k <> 0 -> scale (scale u k) (1 / k) = u.
Proof. intros Hk. destruct u; unfold scale; simpl. f_equal; field; assumption. Qed.

Lemma scale_one (u : XYZ) : scale u (1 / 1) = u.
Proof. destruct u; unfold scale; simpl. f_equal; field. Qed.

Context {K : Constants}.

Lemma correctSmallMetricDistance_ge (d : R) :
  0 <= d -> ~ d < smallMetricDistance -> correctSmallMetricDistance d = d.
Proof.
  intros Hd Hs. unfold correctSmallMetricDistance.
  rewrite (Rabs_pos_eq d Hd). destruct (Rlt_dec d smallMetricDistance); [contradiction | reflexivity].
Qed.

(** A vector at least as long as the small-distance epsilon, and not null,
    is normalized to itself over its length. *)
Lemma normalizeWithLength_long (u : Vector3d) :
  ~ magnitude u < smallMetricDistance -> magnitude u <> 0 ->
  normalizeWithLength u = mkNormalized (Some (scale u (1 / magnitude u))) (magnitude u).
Proof.
  intros Hs Hz. unfold normalizeWithLength.
  rewrite (correctSmallMetricDistance_ge _ (magnitude_nonneg u) Hs).
  destruct (Req_dec_T (magnitude u) 0); [contradiction | reflexivity].
Qed.

(** Whatever [normalizeWithLength] answers: either nothing with length 0, or
    the vector over its length, which is then at least the epsilon. *)
Lemma normalizeWithLength_cases (u : Vector3d) :
  normalizeWithLength u = mkNormalized None 0 \/
  (~ magnitude u < smallMetricDistance /\ magnitude u <> 0 /\
   normalizeWithLength u = mkNormalized (Some (scale u (1 / magnitude u))) (magnitude u)).
Proof.
  unfold normalizeWithLength, correctSmallMetricDistance.
  rewrite (Rabs_pos_eq _ (magnitude_nonneg u)).
  destruct (Rlt_dec (magnitude u) smallMetricDistance) as [Hlt | Hge].
  - destruct (Req_dec_T 0 0); [auto | congruence].
  - destruct (Req_dec_T (magnitude u) 0); auto.
Qed.

(** A normalized vector has unit length. *)
Lemma scale_inv_magnitude_unit (u : Vector3d) :
  magnitude u <> 0 ->
  dotProduct (scale u (1 / magnitude u)) (scale u (1 / magnitude u)) = 1.
Proof.
  intros Hz. rewrite dotProduct_scale_l, dotProduct_scale_r, <- magnitude_squared.
  field. assumption.
Qed.

Lemma normalize_Some_unit (u u1 : Vector3d) :
  normalize u = Some u1 -> dotProduct u1 u1 = 1 /\ u1 = scale u (1 / magnitude u) /\
                           magnitude u <> 0 /\ ~ magnitude u < smallMetricDistance.
Proof.
  unfold normalize. destruct (normalizeWithLength_cases u) as [H | (Hs & Hz & H)]; rewrite H; simpl.
  - discriminate.
  - intros E; inversion E; subst. repeat split; auto. apply scale_inv_magnitude_unit, Hz.
Qed.

(** Normalizing a positive multiple of a unit vector gives the unit vector. *)
Lemma normalize_scale_unit (u : Vector3d) (k : R) :
  0 < k -> ~ k < smallMetricDistance -> dotProduct u u = 1 ->
  normalize (scale u k) = Some u.
Proof.
  intros Hk Hs Hu. unfold normalize.
  assert (Hm : magnitude (scale u k) = k) by (apply magnitude_scale_unit; [lra | assumption]).
  rewrite normalizeWithLength_long; rewrite ?Hm; try assumption; try lra.
  simpl. rewrite scale_scale_inv by lra. reflexivity.
Qed.
End VectorFacts.

Section RigidMatrices.
Import Vector3d.

Lemma xyz_eta (a : XYZ) : mkXYZ (x a) (y a) (z a) = a.
Proof. destruct a; reflexivity. Qed.

Lemma rowX_createRows (a b c : Vector3d) : Matrix3d.rowX (Matrix3d.createRows a b c) = a.
Proof. destruct a; reflexivity. Qed.
Lemma rowY_createRows (a b c : Vector3d) : Matrix3d.rowY (Matrix3d.createRows a b c) = b.
Proof. destruct b; reflexivity. Qed.
Lemma rowZ_createRows (a b c : Vector3d) : Matrix3d.rowZ (Matrix3d.createRows a b c) = c.
Proof. destruct c; reflexivity. Qed.

Lemma createRows_rows (m : Matrix3d) :
  Matrix3d.createRows (Matrix3d.rowX m) (Matrix3d.rowY m) (Matrix3d.rowZ m) = m.
Proof. destruct m; reflexivity. Qed.

Lemma createColumns_transpose (a b c : Vector3d) :
  Matrix3d.createColumns a b c = Matrix3d.transpose (Matrix3d.createRows a b c).
Proof. reflexivity. Qed.

Lemma transpose_transpose (m : Matrix3d) : Matrix3d.transpose (Matrix3d.transpose m) = m.
Proof. destruct m; reflexivity. Qed.

Lemma dotProduct_self_zero (u : XYZ) : dotProduct u u = 0 -> u = mkXYZ 0 0 0.
Proof.
  destruct u as [a b c]; unfold dotProduct; simpl; intros H.
  assert (a = 0) by nra. assert (b = 0) by nra. assert (c = 0) by nra.
  subst; reflexivity.
Qed.

(** Two orthogonal unit vectors and a third unit vector that makes a
    right-handed triple of volume 1 with them: the third is the cross product
    of the first two. *)
Lemma crossProduct_third (r1 r2 r3 : XYZ) :
  dotProduct r1 r1 = 1 -> dotProduct r2 r2 = 1 -> dotProduct r3 r3 = 1 ->
  dotProduct r1 r2 = 0 -> tripleProduct r1 r2 r3 = 1 ->
  crossProduct r1 r2 = r3.
Proof.
  intros H1 H2 H3 H12 Hd.
  assert (E : dotProduct (minus (crossProduct r1 r2) r3) (minus (crossProduct r1 r2) r3) =
              dotProduct r1 r1 * dotProduct r2 r2 - dotProduct r1 r2 * dotProduct r1 r2
              - 2 * tripleProduct r1 r2 r3 + dotProduct r3 r3).
  { unfold tripleProduct, dotProduct, minus, crossProduct; simpl; ring. }
  rewrite H1, H2, H3, H12, Hd in E.
  replace (1 * 1 - 0 * 0 - 2 * 1 + 1) with 0 in E by ring.
  apply dotProduct_self_zero in E.
  unfold minus in E. injection E as Ex Ey Ez.
  apply xyz_eq; simpl; lra.
Qed.

Lemma rigid_cross_XY (m : Matrix3d) :
  Matrix3d.isRigid m -> crossProduct (Matrix3d.rowX m) (Matrix3d.rowY m) = Matrix3d.rowZ m.
Proof.
  intros (H1 & H2 & H3 & H12 & H13 & H23 & Hd).
  apply crossProduct_third; auto.
Qed.

Lemma rigid_cross_YZ (m : Matrix3d) :
  Matrix3d.isRigid m -> crossProduct (Matrix3d.rowY m) (Matrix3d.rowZ m) = Matrix3d.rowX m.
Proof.
  intros (H1 & H2 & H3 & H12 & H13 & H23 & Hd).
  apply crossProduct_third; auto.
  rewrite <- Hd. unfold Matrix3d.determinant, tripleProduct, dotProduct, crossProduct; simpl; ring.
Qed.

Lemma rigid_cross_ZX (m : Matrix3d) :
  Matrix3d.isRigid m -> crossProduct (Matrix3d.rowZ m) (Matrix3d.rowX m) = Matrix3d.rowY m.
Proof.
  intros (H1 & H2 & H3 & H12 & H13 & H23 & Hd).
  apply crossProduct_third; auto.
  - rewrite dotProduct_comm; assumption.
  - rewrite <- Hd. unfold Matrix3d.determinant, tripleProduct, dotProduct, crossProduct; simpl; ring.
Qed.

(** The inverse of a rigid matrix is its transpose. *)
Lemma inverse_rigid (m : Matrix3d) :
  Matrix3d.isRigid m -> Matrix3d.inverse m = Some (Matrix3d.transpose m).
Proof.
  intros Hr. unfold Matrix3d.inverse.
  rewrite (rigid_cross_XY _ Hr), (rigid_cross_YZ _ Hr), (rigid_cross_ZX _ Hr).
  destruct Hr as (_ & _ & _ & _ & _ & _ & Hd). rewrite Hd.
  destruct (Req_dec_T 1 0); [lra|].
  rewrite !scale_one. destruct m; reflexivity.
Qed.

(** The rows [u], [w x u], [w] form a rigid matrix when [u] and [w] are
    orthogonal unit vectors. *)
Lemma rigid_createRows (u w : Vector3d) :
  dotProduct u u = 1 -> dotProduct w w = 1 -> dotProduct u w = 0 ->
  Matrix3d.isRigid (Matrix3d.createRows u (crossProduct w u) w).
Proof.
  intros Hu Hw Huw.
  assert (Hwu : dotProduct w u = 0) by (rewrite dotProduct_comm; assumption).
  unfold Matrix3d.isRigid, Matrix3d.determinant.
  rewrite rowX_createRows, rowY_createRows, rowZ_createRows.
  repeat split; auto.
  - rewrite crossProduct_magnitudeSquared, Hu, Hw, Hwu. ring.
  - apply crossProduct_perp_r.
  - rewrite dotProduct_comm. apply crossProduct_perp_l.
  - unfold tripleProduct. rewrite (crossProduct_cross_unit w u Hw Hwu). assumption.
Qed.

(** The transpose of a rigid matrix is rigid. *)
Lemma rigid_transpose (m : Matrix3d) :
  Matrix3d.isRigid m -> Matrix3d.isRigid (Matrix3d.transpose m).
Proof.
  intros Hr.
  pose proof (rigid_cross_XY _ Hr) as EZ.
  pose proof (rigid_cross_YZ _ Hr) as EX.
  pose proof (rigid_cross_ZX _ Hr) as EY.
  destruct Hr as (H1 & H2 & H3 & H12 & H13 & H23 & Hd).
  destruct m as [a b c d e f g h i].
  unfold Matrix3d.isRigid, Matrix3d.determinant, tripleProduct, dotProduct, crossProduct,
    Matrix3d.transpose, Matrix3d.rowX, Matrix3d.rowY, Matrix3d.rowZ in *; simpl in *.
  injection EZ as Z1 Z2 Z3. injection EX as X1 X2 X3. injection EY as Y1 Y2 Y3.
  repeat split.
  - transitivity (a * (e * i - f * h) + d * (h * c - i * b) + g * (b * f - c * e)).
    + rewrite X1, Y1, Z1; reflexivity.
    + rewrite <- Hd; ring.
  - transitivity (b * (f * g - d * i) + e * (i * a - g * c) + h * (c * d - a * f)).
    + rewrite X2, Y2, Z2; reflexivity.
    + rewrite <- Hd; ring.
  - transitivity (c * (d * h - e * g) + f * (g * b - h * a) + i * (a * e - b * d)).
    + rewrite X3, Y3, Z3; reflexivity.
    + rewrite <- Hd; ring.
  - transitivity ((e * i - f * h) * b + (h * c - i * b) * e + (b * f - c * e) * h).
    + rewrite X1, Y1, Z1; reflexivity.
    + ring.
  - transitivity ((e * i - f * h) * c + (h * c - i * b) * f + (b * f - c * e) * i).
    + rewrite X1, Y1, Z1; reflexivity.
    + ring.
  - transitivity ((f * g - d * i) * c + (i * a - g * c) * f + (c * d - a * f) * i).
    + rewrite X2, Y2, Z2; reflexivity.
    + ring.
  - rewrite <- Hd; ring.
Qed.

Lemma rigid_createColumns (u w : Vector3d) :
  dotProduct u u = 1 -> dotProduct w w = 1 -> dotProduct u w = 0 ->
  Matrix3d.isRigid (Matrix3d.createColumns u (crossProduct w u) w).
Proof.
  intros. rewrite createColumns_transpose. apply rigid_transpose, rigid_createRows; assumption.
Qed.

Lemma rigid_identity : Matrix3d.isRigid Matrix3d.createIdentity.
Proof.
  unfold Matrix3d.isRigid, Matrix3d.determinant, tripleProduct, dotProduct, crossProduct; simpl.
  repeat split; ring.
Qed.
End RigidMatrices.

(* ================================================================== *)
(** * The forward map: the frustum of an orthographic view *)

Section ForwardMap.
Import Vector3d.

Lemma Rmax_fraction_one : Rmax 1 1.0e-8 = 1.
Proof. apply Rmax_left. lra. Qed.

Lemma inverse_Some (m : Matrix3d) :
  Matrix3d.determinant m <> 0 -> exists mi, Matrix3d.inverse m = Some mi.
Proof.
  intros H. unfold Matrix3d.inverse.
  destruct (Req_dec_T (Matrix3d.determinant m) 0); [contradiction|].
  eexists; reflexivity.
Qed.

Lemma inverse_None (m : Matrix3d) :
  Matrix3d.determinant m = 0 -> Matrix3d.inverse m = None.
Proof.
  intros H. unfold Matrix3d.inverse.
  destruct (Req_dec_T (Matrix3d.determinant m) 0); [reflexivity|contradiction].
Qed.

(** With fraction 1 the frustum map is affine: the NPC point [p] is the
    world point [o + x p * u + y p * w + z p * t]. *)
Lemma createVectorFrustum_parallel (o : Point3d) (u w t : Vector3d) :
  Matrix3d.determinant (Matrix3d.createColumns u w t) <> 0 ->
  exists m, Map4d.createVectorFrustum o u w t 1 = Some m /\
    forall p, Matrix4d.multiplyPoint3dQuietNormalize (transform1 m) p =
              plus3Scaled o u (x p) w (y p) t (z p).
Proof.
  intros Hd. unfold Map4d.createVectorFrustum, Transform.inverse. simpl trMatrix.
  destruct (inverse_Some _ Hd) as [mi Hmi]. rewrite Hmi.
  eexists; split; [reflexivity|].
  intros p. rewrite Rmax_fraction_one.
  unfold Matrix4d.multiplyPoint3dQuietNormalize, Map4d.multiplyMapMap. simpl.
  unfold Matrix4d.dot4; simpl.
  match goal with |- context [Req_dec_T ?a 0] => replace a with 1 by field end.
  destruct (Req_dec_T 1 0); [lra|].
  unfold plus3Scaled. f_equal; field.
Qed.

(** There is no frustum map for degenerate edge vectors. *)
Lemma createVectorFrustum_degenerate (o : Point3d) (u w t : Vector3d) (f : R) :
  Matrix3d.determinant (Matrix3d.createColumns u w t) = 0 ->
  Map4d.createVectorFrustum o u w t f = None.
Proof.
  intros Hd. unfold Map4d.createVectorFrustum, Transform.inverse. simpl trMatrix.
  rewrite (inverse_None _ Hd). reflexivity.
Qed.

Lemma determinant_scaled_columns (rot : Matrix3d) (d : Vector3d) :
  Matrix3d.determinant
    (Matrix3d.createColumns (scale (Matrix3d.rowX rot) (x d)) (scale (Matrix3d.rowY rot) (y d))
                            (scale (Matrix3d.rowZ rot) (z d)))
  = x d * y d * z d * Matrix3d.determinant rot.
Proof.
  destruct rot, d as [dx dy dz].
  unfold Matrix3d.determinant, tripleProduct, dotProduct, crossProduct; simpl. ring.
Qed.

(** The frustum of a 3d view whose camera is off is the box of its origin,
    rotation and extents. *)
Lemma calculateFrustum_cameraOff {K : Constants} (view : ViewState3d) :
  _cameraOn view = false ->
  Matrix3d.determinant (rotation view) <> 0 ->
  x (extents view) <> 0 -> y (extents view) <> 0 -> z (extents view) <> 0 ->
  calculateFrustum view = Some (boxFrustum (origin view) (rotation view) (extents view)).
Proof.
  intros Hc Hd Hx Hy Hz.
  unfold calculateFrustum, computeWorldToNpc, computeFrustumVectors, isCameraOn3d.
  simpl. rewrite Hc. simpl.
  destruct (createVectorFrustum_parallel (ViewState3d.getOrigin view)
              (scale (Matrix3d.rowX (rotation view)) (x (extents view)))
              (scale (Matrix3d.rowY (rotation view)) (y (extents view)))
              (scale (Matrix3d.rowZ (rotation view)) (z (extents view)))) as [m [Hm Hp]].
  { rewrite determinant_scaled_columns.
    repeat apply Rmult_integral_contrapositive_currified; assumption. }
  unfold ViewState3d.getRotation, ViewState3d.getExtents in *. rewrite Hm.
  f_equal. unfold boxFrustum, Frustum.mapPoints. f_equal.
  apply functional_extensionality; intros n. apply Hp.
Qed.

(** X7.  A 2d view has no depth (the Z component of its extents is 0), so
    its edge vectors are degenerate and [calculateFrustum] has no result. *)
Theorem calculateFrustum_2d {K : Constants} (view : ViewState2d) :
  calculateFrustum view = None.
Proof.
  unfold calculateFrustum, computeWorldToNpc, computeFrustumVectors, isCameraOn3d. simpl.
  rewrite createVectorFrustum_degenerate; [reflexivity|].
  unfold Matrix3d.determinant, tripleProduct, dotProduct, crossProduct; simpl. ring.
Qed.
End ForwardMap.

(* ================================================================== *)
(** * The inverse map on the frustum of a box *)

Section BoxFrustum.
Context {K : Constants}.
Import Vector3d.

Lemma dotProduct_lincomb (r u w t : XYZ) (a b c : R) :
  dotProduct r (plusScaled (plus2Scaled createZero u a w b) t c) =
  a * dotProduct r u + b * dotProduct r w + c * dotProduct r t.
Proof. unfold dotProduct, plusScaled, plus2Scaled, createZero; simpl; ring. Qed.

(** Orthogonal vectors along the unit vectors [u] and [w] give the frame
    [u], [w], [u x w]. *)
Lemma createRigidFromColumns_orthogonal (u w : Vector3d) (dx dy : R) :
  dotProduct u u = 1 -> dotProduct w w = 1 -> dotProduct u w = 0 ->
  0 < dx -> ~ dx < smallMetricDistance -> 0 < dy -> ~ dy < smallMetricDistance ->
  Matrix3d.createRigidFromColumns (scale u dx) (scale w dy) AxisOrder_XYZ =
  Some (Matrix3d.createColumns u w (crossProduct u w)).
Proof.
  intros Hu Hw Huw Hdx Hsx Hdy Hsy.
  assert (Hc : dotProduct (crossProduct u w) (crossProduct u w) = 1).
  { rewrite crossProduct_magnitudeSquared, Hu, Hw, Huw. ring. }
  unfold Matrix3d.createRigidFromColumns, unitCrossProduct.
  rewrite (normalize_scale_unit u dx Hdx Hsx Hu).
  rewrite crossProduct_scale_r, (normalize_scale_unit _ dy Hdy Hsy Hc).
  rewrite crossProduct_scale_r, (crossProduct_cross_unit u w Hu Huw).
  rewrite (normalize_scale_unit w dx Hdx Hsx Hw).
  reflexivity.
Qed.

Lemma fixPointOrder_box (o : Point3d) (rot : Matrix3d) (d : Vector3d) :
  Matrix3d.determinant rot = 1 -> 0 < x d -> 0 < y d -> 0 < z d ->
  Frustum.fixPointOrder (boxFrustum o rot d) = boxFrustum o rot d.
Proof.
  intros Hd Hx Hy Hz. unfold Frustum.fixPointOrder, Frustum.hasMirror.
  match goal with |- context [Rlt_dec 0 ?t] =>
    replace t with (- (x d * y d * z d * Matrix3d.determinant rot)) end.
  - rewrite Hd. destruct (Rlt_dec 0 (- (x d * y d * z d * 1))); [|reflexivity].
    exfalso. assert (0 < x d * y d * z d) by (repeat apply Rmult_lt_0_compat; assumption). lra.
  - destruct rot, d as [dx dy dz], o as [ox oy oz].
    unfold Matrix3d.determinant, tripleProduct, dotProduct, crossProduct, vectorTo,
      createStartEnd; simpl. ring.
Qed.

Lemma box_edgeX (o : Point3d) (rot : Matrix3d) (d : Vector3d) :
  minus (points (boxFrustum o rot d) RightBottomRear) (points (boxFrustum o rot d) LeftBottomRear)
  = scale (Matrix3d.rowX rot) (x d).
Proof. destruct rot, d as [dx dy dz], o as [ox oy oz]; unfold minus, scale; simpl. f_equal; ring. Qed.

Lemma box_edgeY (o : Point3d) (rot : Matrix3d) (d : Vector3d) :
  minus (points (boxFrustum o rot d) LeftTopRear) (points (boxFrustum o rot d) LeftBottomRear)
  = scale (Matrix3d.rowY rot) (y d).
Proof. destruct rot, d as [dx dy dz], o as [ox oy oz]; unfold minus, scale; simpl. f_equal; ring. Qed.

Lemma box_edgeZ (o : Point3d) (rot : Matrix3d) (d : Vector3d) :
  minus (points (boxFrustum o rot d) LeftBottomFront) (points (boxFrustum o rot d) LeftBottomRear)
  = scale (Matrix3d.rowZ rot) (z d).
Proof. destruct rot, d as [dx dy dz], o as [ox oy oz]; unfold minus, scale; simpl. f_equal; ring. Qed.

(** The rigid frame of the box of a rigid rotation is the transposed
    rotation. *)
Lemma createRigidFromColumns_box (rot : Matrix3d) (d : Vector3d) :
  Matrix3d.isRigid rot ->
  0 < x d -> ~ x d < smallMetricDistance -> 0 < y d -> ~ y d < smallMetricDistance ->
  Matrix3d.createRigidFromColumns (scale (Matrix3d.rowX rot) (x d)) (scale (Matrix3d.rowY rot) (y d))
                                  AxisOrder_XYZ
  = Some (Matrix3d.transpose rot).
Proof.
  intros Hr Hx Hsx Hy Hsy.
  pose proof (rigid_cross_XY _ Hr) as EZ.
  destruct Hr as (H1 & H2 & H3 & H12 & H13 & H23 & Hd).
  rewrite (createRigidFromColumns_orthogonal _ _ _ _ H1 H2 H12 Hx Hsx Hy Hsy), EZ.
  destruct rot; reflexivity.
Qed.

Context {V : Type} {VS : ViewState V}.

(** The solver on the frustum of a box, when the rotation is not snapped:
    the origin and rotation of the box, and its extents as the limits allow
    them. *)
Lemma setupFromFrustum_box (view : V) (o : Point3d) (rot : Matrix3d) (d : Vector3d) :
  Matrix3d.isRigid rot ->
  0 < x d -> ~ x d < smallMetricDistance ->
  0 < y d -> ~ y d < smallMetricDistance ->
  0 < z d ->
  StandardView.adjustToStandardRotation (Matrix3d.transpose rot) = Matrix3d.transpose rot ->
  setupFromFrustum view (boxFrustum o rot d) =
  (Success, setRotation (setExtents (setOrigin view o) (snd (validateViewDelta view d false))) rot).
Proof.
  intros Hr Hx Hsx Hy Hsy Hz Hsnap.
  pose proof (inverse_rigid _ (rigid_transpose _ Hr)) as Hinv. rewrite transpose_transpose in Hinv.
  pose proof (createRigidFromColumns_box rot d Hr Hx Hsx Hy Hsy) as Hrig.
  destruct Hr as (H1 & H2 & H3 & H12 & H13 & H23 & Hd).
  unfold setupFromFrustum.
  rewrite (fixPointOrder_box o rot d Hd Hx Hy Hz).
  rewrite box_edgeX, box_edgeY, box_edgeZ, Hrig, Hsnap, Hinv.
  change (Matrix3d.getColumn (Matrix3d.transpose rot) 0) with (Matrix3d.rowX rot).
  change (Matrix3d.getColumn (Matrix3d.transpose rot) 1) with (Matrix3d.rowY rot).
  change (Matrix3d.getColumn (Matrix3d.transpose rot) 2) with (Matrix3d.rowZ rot).
  rewrite !dotProduct_scale_r, H1, H2, H3.
  destruct (Rlt_dec (z d * 1) 0); [lra|].
  assert (Ediag : Matrix3d.multiplyVector rot
            (plusScaled (plus2Scaled createZero (Matrix3d.rowX rot) (x d * 1)
                           (Matrix3d.rowY rot) (y d * 1))
               (Matrix3d.rowZ rot) (z d * 1)) = d).
  { unfold Matrix3d.multiplyVector. rewrite !dotProduct_lincomb.
    rewrite (dotProduct_comm (Matrix3d.rowY rot) (Matrix3d.rowX rot)).
    rewrite (dotProduct_comm (Matrix3d.rowZ rot) (Matrix3d.rowX rot)).
    rewrite (dotProduct_comm (Matrix3d.rowZ rot) (Matrix3d.rowY rot)).
    rewrite H1, H2, H3, H12, H13, H23. destruct d as [dx dy dz]; simpl. f_equal; ring. }
  rewrite Ediag.
  f_equal. f_equal. f_equal. f_equal.
  destruct rot, d as [dx dy dz], o as [ox oy oz].
  unfold plusScaled, plus2Scaled, Frustum.getCenter, interpolate, Frustum.getCorner; simpl.
  f_equal; lra.
Qed.
End BoxFrustum.

(* ================================================================== *)
(** * The frustum solver of the base class *)

Lemma maxDiff_self (m : Matrix3d) : Matrix3d.maxDiff m m = 0.
Proof.
  unfold Matrix3d.maxDiff. rewrite !Rminus_diag, Rabs_R0.
  assert (E : Rmax 0 0 = 0) by (apply Rmax_left; lra).
  rewrite !E. reflexivity.
Qed.

Lemma adjustToStandardRotation_identity_sample :
  @StandardView.adjustToStandardRotation sampleConstants Matrix3d.createIdentity
  = Matrix3d.createIdentity.
Proof.
  unfold StandardView.adjustToStandardRotation. simpl.
  rewrite maxDiff_self. destruct (Rlt_dec 1.0e-7 0); [lra | reflexivity].
Qed.

Section Solver.
Context {K : Constants} {V : Type} {VS : ViewState V}.
Import Vector3d.

(** C9.  Clamp suppression in the frustum solver.  When the base
    [setupFromFrustum] gets past its three [InvalidWindow] checks (the rigid
    frame exists, the snapped frame has an inverse, the frustum is not
    left-handed) it returns [Success], and the extents it stores are the
    view delta as [validateViewDelta] clamped it: the status of
    [validateViewDelta] is dropped. *)
Theorem setupFromFrustum_suppresses_limit_status
  (view : V) (inFrustum : Frustum) (frustMatrix viewRot : Matrix3d) :
  let frustum := Frustum.fixPointOrder inFrustum in
  let viewOrg := points frustum LeftBottomRear in
  let frustumX := minus (points frustum RightBottomRear) viewOrg in
  let frustumY := minus (points frustum LeftTopRear) viewOrg in
  let frustumZ := minus (points frustum LeftBottomFront) viewOrg in
  let snapped := StandardView.adjustToStandardRotation frustMatrix in
  let xDir := Matrix3d.getColumn snapped 0 in
  let yDir := Matrix3d.getColumn snapped 1 in
  let zDir := Matrix3d.getColumn snapped 2 in
  let zSize := dotProduct zDir frustumZ in
  let viewDiagRoot :=
    plusScaled (plus2Scaled createZero xDir (dotProduct xDir frustumX) yDir (dotProduct yDir frustumY))
               zDir zSize in
  let viewDelta := Matrix3d.multiplyVector viewRot viewDiagRoot in
  Matrix3d.createRigidFromColumns frustumX frustumY AxisOrder_XYZ = Some frustMatrix ->
  Matrix3d.inverse snapped = Some viewRot ->
  ~ zSize < 0 ->
  fst (setupFromFrustum view inFrustum) = Success /\
  snd (setupFromFrustum view inFrustum) =
    setRotation
      (setExtents (setOrigin view (plusScaled (Frustum.getCenter frustum) viewDiagRoot (-0.5)))
                  (snd (validateViewDelta view viewDelta false)))
      viewRot.
Proof.
  intros frustum viewOrg frustumX frustumY frustumZ snapped xDir yDir zDir zSize viewDiagRoot
    viewDelta Hrigid Hinv Hz.
  unfold setupFromFrustum.
  fold frustum. fold viewOrg. fold frustumX. fold frustumY. fold frustumZ.
  rewrite Hrigid. fold snapped. rewrite Hinv. fold zDir. fold zSize.
  destruct (Rlt_dec zSize 0); [contradiction|].
  split; reflexivity.
Qed.

(** The base solver answers [Success], or [InvalidWindow] with the view
    untouched. *)
Lemma setupFromFrustum_statuses (view : V) (inFrustum : Frustum) :
  fst (setupFromFrustum view inFrustum) = Success \/
  (fst (setupFromFrustum view inFrustum) = InvalidWindow /\
   snd (setupFromFrustum view inFrustum) = view).
Proof.
  unfold setupFromFrustum.
  destruct (Matrix3d.createRigidFromColumns _ _ _); [|auto].
  destruct (Matrix3d.inverse _); [|auto].
  destruct (Rlt_dec _ 0); auto.
Qed.
End Solver.

Section SolverSample.
Import Vector3d.

Lemma setupFromFrustum_suppresses_limit_status_witness :
  fst (validateViewDelta sampleView (mkXYZ 0.0001 0.0001 0.0001) false) = MinWindow /\
  fst (@setupFromFrustum sampleConstants _ _ sampleView tinyFrustum) = Success /\
  extents (snd (@setupFromFrustum sampleConstants _ _ sampleView tinyFrustum))
  = mkXYZ Constant.oneMillimeter Constant.oneMillimeter Constant.oneMillimeter.
Proof.
  assert (Hfix : Frustum.fixPointOrder tinyFrustum = tinyFrustum).
  { apply fixPointOrder_box; simpl; try lra.
    unfold Matrix3d.determinant, tripleProduct, dotProduct, crossProduct; simpl; ring. }
  pose proof (@setupFromFrustum_suppresses_limit_status sampleConstants _ _ sampleView tinyFrustum
           Matrix3d.createIdentity Matrix3d.createIdentity) as H.
  cbv zeta in H. rewrite Hfix in H. unfold tinyFrustum in H.
  rewrite box_edgeX, box_edgeY, box_edgeZ, adjustToStandardRotation_identity_sample in H.
  destruct H as [H1 H2].
  - apply (@createRigidFromColumns_box sampleConstants Matrix3d.createIdentity
             (mkXYZ 0.0001 0.0001 0.0001) rigid_identity); simpl; lra.
  - rewrite (inverse_rigid _ rigid_identity). reflexivity.
  - unfold dotProduct; simpl. lra.
  - split; [|split].
    + unfold validateViewDelta, limitWindowSize; simpl. unfold Constant.oneMillimeter.
      repeat decide_R. reflexivity.
    + exact H1.
    + unfold tinyFrustum. rewrite H2. simpl.
      unfold validateViewDelta, limitWindowSize, Matrix3d.multiplyVector, dotProduct; simpl.
      unfold Constant.oneMillimeter.
      repeat decide_R. reflexivity.
Defined.
End SolverSample.

(* ================================================================== *)
(** * Round trip: the frustum of an orthographic view, solved *)

Section RoundTrip.
Context {K : Constants}.
Import Vector3d.

Lemma box_distance_rear (o : Point3d) (rot : Matrix3d) (d : Vector3d) :
  dotProduct (Matrix3d.rowX rot) (Matrix3d.rowX rot) = 1 -> 0 <= x d ->
  distance (points (boxFrustum o rot d) LeftBottomRear) (points (boxFrustum o rot d) RightBottomRear)
  = x d.
Proof.
  intros H1 Hx. unfold distance.
  replace (createStartEnd _ _) with (scale (Matrix3d.rowX rot) (x d)).
  - apply magnitude_scale_unit; assumption.
  - destruct rot, d as [dx dy dz], o as [ox oy oz]; unfold createStartEnd, scale; simpl. f_equal; ring.
Qed.

Lemma box_distance_front (o : Point3d) (rot : Matrix3d) (d : Vector3d) :
  dotProduct (Matrix3d.rowX rot) (Matrix3d.rowX rot) = 1 -> 0 <= x d ->
  distance (points (boxFrustum o rot d) LeftBottomFront) (points (boxFrustum o rot d) RightBottomFront)
  = x d.
Proof.
  intros H1 Hx. unfold distance.
  replace (createStartEnd _ _) with (scale (Matrix3d.rowX rot) (x d)).
  - apply magnitude_scale_unit; assumption.
  - destruct rot, d as [dx dy dz], o as [ox oy oz]; unfold createStartEnd, scale; simpl. f_equal; ring.
Qed.

(** The 3d solver after the base solver succeeded on the frustum of a box:
    the frustum is flat, the camera stays off. *)
Lemma ViewState3d_setupFromFrustum_flat (view view' : ViewState3d) (o : Point3d) (rot : Matrix3d) (d : Vector3d) :
  dotProduct (Matrix3d.rowX rot) (Matrix3d.rowX rot) = 1 -> 0 < x d ->
  setupFromFrustum view (boxFrustum o rot d) = (Success, view') ->
  ViewState3d_setupFromFrustum view (boxFrustum o rot d) = (Success, ViewState3d.turnCameraOff view').
Proof.
  intros H1 Hx Hbase. unfold ViewState3d_setupFromFrustum. rewrite Hbase.
  rewrite box_distance_rear, box_distance_front by (assumption || lra).
  destruct (Rlt_dec (x d * (1.0 + 1.0e-6)) (x d)); [lra|].
  replace (x d / x d) with 1 by (field; lra).
  destruct (Rle_dec (1.0 - 1.0e-6) 1); [reflexivity | lra].
Qed.

End RoundTrip.

Section RoundTripSample.
Import Vector3d.


Lemma snapView_rigid : Matrix3d.isRigid (rotation snapView).
Proof.
  unfold Matrix3d.isRigid, Matrix3d.determinant, tripleProduct, dotProduct, crossProduct; simpl.
  repeat split; field.
Qed.

Lemma Rabs_le_bound (a b : R) : - b <= a <= b -> Rabs a <= b.
Proof. intros H. apply Rabs_le. exact H. Qed.

Lemma snapView_adjust :
  @StandardView.adjustToStandardRotation sampleConstants (Matrix3d.transpose (rotation snapView))
  = Matrix3d.createIdentity.
Proof.
  unfold StandardView.adjustToStandardRotation. simpl.
  match goal with |- context [Rlt_dec ?a ?b] => destruct (Rlt_dec a b) as [Hlt|]; [|reflexivity] end.
  exfalso. apply (Rlt_not_le _ _ Hlt). unfold Matrix3d.maxDiff; simpl.
  repeat apply Rmax_lub; apply Rabs_le_bound; lra.
Qed.

End RoundTripSample.

(* ================================================================== *)
(** * The frustum solver of 3d views *)

Section Solver3d.
Context {K : Constants}.
Import Vector3d.

(** X9.  The status half of the degenerate rejection: the 3d solver
    returns [InvalidWindow] for every frustum whose front X-span exceeds its
    back X-span by more than the 1.0e-6 fraction. *)
Theorem ViewState3d_setupFromFrustum_exploding (view : ViewState3d) (frustum : Frustum) :
  let xBack := distance (points frustum LeftBottomRear) (points frustum RightBottomRear) in
  let xFront := distance (points frustum LeftBottomFront) (points frustum RightBottomFront) in
  xBack * (1.0 + 1.0e-6) < xFront ->
  fst (ViewState3d_setupFromFrustum view frustum) = InvalidWindow.
Proof.
  intros xBack xFront H. unfold ViewState3d_setupFromFrustum.
  destruct (setupFromFrustum_statuses view frustum) as [E | [E _]];
    destruct (setupFromFrustum view frustum) as [st v1]; simpl in E; subst st.
  - fold xBack. fold xFront.
    destruct (Rlt_dec (xBack * (1.0 + 1.0e-6)) xFront); [reflexivity | contradiction].
  - reflexivity.
Qed.

(** X10.  When the solver of the base class rejects the frustum, the 3d
    solver returns [InvalidWindow] and the view is as it was. *)
Theorem ViewState3d_setupFromFrustum_base_rejects (view : ViewState3d) (frustum : Frustum) :
  fst (setupFromFrustum view frustum) <> Success ->
  ViewState3d_setupFromFrustum view frustum = (InvalidWindow, view).
Proof.
  intros H. unfold ViewState3d_setupFromFrustum.
  destruct (setupFromFrustum_statuses view frustum) as [E | [E _]]; [contradiction|].
  destruct (setupFromFrustum view frustum) as [st v1]; simpl in E; subst st. reflexivity.
Qed.
End Solver3d.

Section Solver3dSample.
Import Vector3d.

Lemma explodingFrustum_base :
  @setupFromFrustum sampleConstants _ _ cameraOnView explodingFrustum
  = (Success,
     ViewState3d.setRotation
       (ViewState3d.setExtents (ViewState3d.setOrigin cameraOnView (mkXYZ 0.5 0.5 0)) (mkXYZ 1 1 1))
       Matrix3d.createIdentity).
Proof.
  assert (Hfix : Frustum.fixPointOrder explodingFrustum = explodingFrustum).
  { unfold Frustum.fixPointOrder, Frustum.hasMirror.
    unfold tripleProduct, dotProduct, crossProduct, vectorTo, createStartEnd; simpl.
    match goal with |- context [Rlt_dec 0 ?t] => destruct (Rlt_dec 0 t) as [H|]; [lra | reflexivity] end. }
  unfold setupFromFrustum. rewrite Hfix.
  assert (EX : minus (points explodingFrustum RightBottomRear) (points explodingFrustum LeftBottomRear)
               = scale (mkXYZ 1 0 0) 1).
  { unfold minus, scale; simpl. f_equal; ring. }
  assert (EY : minus (points explodingFrustum LeftTopRear) (points explodingFrustum LeftBottomRear)
               = scale (mkXYZ 0 1 0) 1).
  { unfold minus, scale; simpl. f_equal; ring. }
  rewrite EX, EY.
  rewrite (@createRigidFromColumns_orthogonal sampleConstants (mkXYZ 1 0 0) (mkXYZ 0 1 0) 1 1);
    try (unfold dotProduct; simpl; lra).
  replace (Matrix3d.createColumns (mkXYZ 1 0 0) (mkXYZ 0 1 0) (crossProduct (mkXYZ 1 0 0) (mkXYZ 0 1 0)))
    with Matrix3d.createIdentity
    by (unfold Matrix3d.createIdentity, Matrix3d.createColumns, crossProduct; simpl; f_equal; ring).
  rewrite adjustToStandardRotation_identity_sample, (inverse_rigid _ rigid_identity).
  unfold dotProduct, minus; simpl.
  match goal with |- context [Rlt_dec ?t 0] => destruct (Rlt_dec t 0) as [H|]; [lra|] end.
  rewrite validateViewDelta_within.
  - cbn [snd]. f_equal.
    unfold plusScaled, plus2Scaled, Frustum.getCenter, Frustum.getCorner, interpolate,
      Matrix3d.multiplyVector, dotProduct; simpl.
    unfold ViewState3d.setRotation, ViewState3d.setExtents, ViewState3d.setOrigin; simpl.
    f_equal; try reflexivity; f_equal; lra.
  - unfold Matrix3d.multiplyVector, dotProduct; simpl. unfold Constant.oneMillimeter. lra.
  - unfold Matrix3d.multiplyVector, dotProduct; simpl. unfold Constant.oneMillimeter. lra.
  - unfold Matrix3d.multiplyVector, dotProduct; simpl. unfold Constant.oneMillimeter. lra.
Qed.

(** C2 (failing input).  On a frustum whose front face is twice as wide as
    its back face the 3d solver answers [InvalidWindow], but only after the
    solver of the base class has stored a new origin, new extents and a new
    rotation and after the camera was turned off: the view that was at the
    origin with extents (10, 10, 1) and its camera on is left at
    (0.5, 0.5, 0) with extents (1, 1, 1) and its camera off. *)
Theorem ViewState3d_setupFromFrustum_rejects_after_commit :
  let result := @ViewState3d_setupFromFrustum sampleConstants cameraOnView explodingFrustum in
  fst result = InvalidWindow /\
  origin (snd result) = mkXYZ 0.5 0.5 0 /\
  extents (snd result) = mkXYZ 1 1 1 /\
  _cameraOn (snd result) = false /\
  origin cameraOnView = mkXYZ 0 0 0 /\
  extents cameraOnView = mkXYZ 10 10 1 /\
  _cameraOn cameraOnView = true.
Proof.
  cbv zeta. unfold ViewState3d_setupFromFrustum. rewrite explodingFrustum_base.
  assert (Eb : distance (points explodingFrustum LeftBottomRear) (points explodingFrustum RightBottomRear) = 1).
  { apply magnitude_of_square; [lra | unfold dotProduct, createStartEnd; simpl; ring]. }
  assert (Ef : distance (points explodingFrustum LeftBottomFront) (points explodingFrustum RightBottomFront) = 2).
  { apply magnitude_of_square; [lra | unfold dotProduct, createStartEnd; simpl; ring]. }
  rewrite Eb, Ef.
  destruct (Rlt_dec (1 * (1.0 + 1.0e-6)) 2); [|lra].
  simpl. repeat split; reflexivity.
Qed.
End Solver3dSample.

(* ================================================================== *)
(** * The rotation stays rigid *)

Section Rigidity.
Context {K : Constants}.
Import Vector3d.

Lemma createRigidFromColumns_rigid (a b : Vector3d) (m : Matrix3d) :
  Matrix3d.createRigidFromColumns a b AxisOrder_XYZ = Some m -> Matrix3d.isRigid m.
Proof.
  unfold Matrix3d.createRigidFromColumns, unitCrossProduct.
  destruct (normalize a) as [a1|] eqn:Ha; [|discriminate].
  destruct (normalize (crossProduct a1 b)) as [c1|] eqn:Hc; [|discriminate].
  destruct (normalize (crossProduct c1 a)) as [b1|] eqn:Hb; [|discriminate].
  intros E; injection E as <-.
  apply normalize_Some_unit in Ha. destruct Ha as (Ua & Ea & Na & _).
  apply normalize_Some_unit in Hc. destruct Hc as (Uc & Ec & Nc & _).
  apply normalize_Some_unit in Hb. destruct Hb as (Ub & Eb & Nb & _).
  assert (Hperp : dotProduct a1 c1 = 0).
  { rewrite Ec, dotProduct_scale_r, crossProduct_perp_l. ring. }
  assert (Hperp' : dotProduct c1 a1 = 0) by (rewrite dotProduct_comm; assumption).
  assert (Ea' : a = scale a1 (magnitude a)).
  { rewrite Ea. destruct a as [ax ay az]; unfold scale; simpl. f_equal; field; assumption. }
  assert (Hu : dotProduct (crossProduct c1 a1) (crossProduct c1 a1) = 1).
  { rewrite crossProduct_magnitudeSquared, Ua, Uc, Hperp'. ring. }
  assert (Hma : 0 < magnitude a).
  { destruct (magnitude_nonneg a) as [H|H]; [assumption | congruence]. }
  assert (Eb1 : b1 = crossProduct c1 a1).
  { rewrite Eb. rewrite Ea' at 1 2. rewrite crossProduct_scale_r.
    rewrite (magnitude_scale_unit _ _ (Rlt_le _ _ Hma) Hu).
    apply scale_scale_inv. lra. }
  rewrite Eb1. apply rigid_createColumns; assumption.
Qed.

Lemma snapTo_rigid (tests : list Matrix3d) (m : Matrix3d) :
  Forall Matrix3d.isRigid tests -> Matrix3d.isRigid m ->
  Matrix3d.isRigid (StandardView.snapTo tests m).
Proof.
  intros Ht Hm. induction Ht as [|test rest Htest _ IH]; simpl; [assumption|].
  destruct (Rlt_dec _ _); assumption.
Qed.

Lemma setupFromFrustum_rotation_rigid (view : ViewState3d) (frustum : Frustum) :
  Forall Matrix3d.isRigid standardViewMatrices ->
  Matrix3d.isRigid (rotation view) ->
  Matrix3d.isRigid (rotation (snd (setupFromFrustum view frustum))).
Proof.
  intros Hstd Hv. unfold setupFromFrustum.
  destruct (Matrix3d.createRigidFromColumns _ _ _) as [m|] eqn:Hm; [|assumption].
  apply createRigidFromColumns_rigid in Hm.
  pose proof (snapTo_rigid standardViewMatrices m Hstd Hm) as Hs.
  fold (StandardView.adjustToStandardRotation m) in Hs.
  rewrite (inverse_rigid _ Hs).
  destruct (Rlt_dec _ 0); [assumption|].
  simpl. apply rigid_transpose, Hs.
Qed.

Lemma ViewState3d_setupFromFrustum_rotation (view : ViewState3d) (frustum : Frustum) :
  rotation (snd (ViewState3d_setupFromFrustum view frustum))
  = rotation (snd (setupFromFrustum view frustum)).
Proof.
  unfold ViewState3d_setupFromFrustum.
  destruct (setupFromFrustum_statuses view frustum) as [H | [H1 H2]].
  - destruct (setupFromFrustum view frustum) as [st v1]; simpl in *; subst st.
    repeat case_R; simpl; try reflexivity.
    unfold ViewState3d.enableCamera. destruct (supportsCamera _); reflexivity.
  - destruct (setupFromFrustum view frustum) as [st v1]; simpl in *; subst. reflexivity.
Qed.

Lemma lookAt_rotation_rigid
  (view : ViewState3d) (eyePoint targetPoint : XYZ) (upVector : Vector3d)
  (newExtents : option XAndY) (frontDistance backDistance : option R) :
  0 < smallMetricDistance ->
  Matrix3d.isRigid (rotation view) ->
  Matrix3d.isRigid (rotation (snd (lookAt view eyePoint targetPoint upVector newExtents
                                     frontDistance backDistance))).
Proof.
  intros Hsmd Hv. unfold lookAt.
  destruct (normalize upVector) as [yVec|]; [|assumption].
  set (zVec0 := createStartEnd targetPoint (mkXYZ (x eyePoint) (y eyePoint) (z eyePoint))).
  destruct (normalizeWithLength_cases zVec0) as [Hz | (Sz & Nz & Hz)]; rewrite Hz; simpl.
  { (* no direction from the target to the eye: the focus distance is 0 *)
    destruct (Rle_dec 0 (ViewState3d.minimumFrontDistance view)) as [|Hn]; [assumption|].
    exfalso. apply Hn. unfold ViewState3d.minimumFrontDistance, Constant.oneCentimeter.
    eapply Rle_trans; [|apply Rmax_l]. lra. }
  destruct (Rle_dec _ _); [assumption|].
  set (zVec := scale zVec0 (1 / magnitude zVec0)).
  assert (Uz : dotProduct zVec zVec = 1) by (apply scale_inv_magnitude_unit; assumption).
  destruct (normalizeWithLength_cases (crossProduct yVec zVec)) as [Hx | (Sx & Nx & Hx)];
    rewrite Hx; simpl.
  { destruct (Rlt_dec 0 smallMetricDistance); [assumption | contradiction]. }
  destruct (Rlt_dec _ _); [assumption|].
  set (xVec := scale (crossProduct yVec zVec) (1 / magnitude (crossProduct yVec zVec))).
  assert (Ux : dotProduct xVec xVec = 1) by (apply scale_inv_magnitude_unit; assumption).
  assert (Pxz : dotProduct xVec zVec = 0).
  { unfold xVec. rewrite dotProduct_scale_l, dotProduct_comm, crossProduct_perp_r. ring. }
  assert (Uy : dotProduct (crossProduct zVec xVec) (crossProduct zVec xVec) = 1).
  { rewrite crossProduct_magnitudeSquared, Ux, Uz, (dotProduct_comm zVec xVec), Pxz. ring. }
  destruct (normalizeWithLength_cases (crossProduct zVec xVec)) as [Hy | (Sy & Ny & Hy)];
    rewrite Hy; simpl.
  { destruct (Rlt_dec 0 smallMetricDistance); [assumption | contradiction]. }
  destruct (Rlt_dec _ _); [assumption|].
  rewrite (magnitude_unit _ Uy), scale_one.
  match goal with |- context [fst (validateViewDelta ?a ?b ?c)] =>
    destruct (fst (validateViewDelta a b c)) end; try assumption.
  destruct (Rlt_dec _ _); [assumption|].
  simpl. unfold ViewState3d.enableCamera. simpl.
  destruct (supportsCamera view); simpl; apply rigid_createRows; assumption.
Qed.

End Rigidity.

Section RigiditySample.
Import Vector3d.

Lemma sampleConstants_standard_rigid :
  Forall Matrix3d.isRigid (@standardViewMatrices sampleConstants).
Proof.
  simpl. repeat constructor;
    unfold Matrix3d.determinant, tripleProduct, dotProduct, crossProduct; simpl; ring.
Qed.

End RigiditySample.

(* ================================================================== *)
(** * Bounds on the trigonometric functions

    The angle of the scenario below is a value of [atan]; its decimal
    approximation follows from the polynomial bounds of [sin] and [cos]. *)

Lemma PI_gt_3 : 3 < PI.
Proof. pose proof PI2_3_2. lra. Qed.

Lemma INR_fact (n : nat) (k : Z) : Z.of_nat (fact n) = k -> INR (fact n) = IZR k.
Proof. intros <-. apply INR_IZR_INZ. Qed.

Lemma sin_cos_bounds (a : R) :
  0 <= a <= 1 ->
  a - a * a * a / 6 <= sin a <= a - a * a * a / 6 + a * a * a * a * a / 120 /\
  1 - a * a / 2 <= cos a <= 1 - a * a / 2 + a * a * a * a / 24.
Proof.
  intros [H0 H1]. pose proof PI_gt_3.
  destruct (sin_bound a 0 H0 ltac:(lra)) as [S1 S2].
  destruct (cos_bound a 0 ltac:(lra) ltac:(lra)) as [C1 C2].
  unfold sin_approx, sin_term, cos_approx, cos_term in *.
  cbn [sum_f_R0 pow Nat.mul Nat.add] in S1, S2, C1, C2.
  rewrite (INR_fact 1 1 eq_refl), (INR_fact 3 6 eq_refl) in S1.
  rewrite (INR_fact 1 1 eq_refl), (INR_fact 3 6 eq_refl), (INR_fact 5 120 eq_refl) in S2.
  rewrite (INR_fact 0 1 eq_refl), (INR_fact 2 2 eq_refl) in C1.
  rewrite (INR_fact 0 1 eq_refl), (INR_fact 2 2 eq_refl), (INR_fact 4 24 eq_refl) in C2.
  repeat split; lra.
Qed.

Lemma tan_bounds (a : R) :
  0 < a <= 1/10 -> a < tan a < a + 34 / 100 * (a * a * a).
Proof.
  intros [H0 H1].
  destruct (sin_cos_bounds a ltac:(lra)) as [[S1 S2] [C1 C2]].
  assert (P2 : 0 < a * a) by (apply Rmult_lt_0_compat; lra).
  assert (Q2 : a * a <= 1/100) by nra.
  assert (P3 : 0 < a * a * a) by (apply Rmult_lt_0_compat; lra).
  assert (P4 : 0 < a * a * a * a) by (apply Rmult_lt_0_compat; lra).
  assert (P5 : 0 < a * a * a * a * a) by (apply Rmult_lt_0_compat; lra).
  assert (Q5 : a * a * a * a * a <= 1/100 * (a * a * a)).
  { replace (a * a * a * a * a) with ((a * a) * (a * a * a)) by ring.
    apply Rmult_le_compat_r; lra. }
  assert (Hc : 0 < cos a) by lra.
  unfold tan. split.
  - apply (Rmult_lt_reg_r (cos a)); [assumption|].
    unfold Rdiv. rewrite Rmult_assoc, Rinv_l by lra.
    apply Rle_lt_trans with (a * (1 - a * a / 2 + a * a * a * a / 24)).
    + apply Rmult_le_compat_l; lra.
    + replace (a * (1 - a * a / 2 + a * a * a * a / 24))
        with (a - a * a * a / 2 + a * a * a * a * a / 24) by field.
      lra.
  - apply (Rmult_lt_reg_r (cos a)); [assumption|].
    unfold Rdiv at 1. rewrite Rmult_assoc, Rinv_l by lra.
    apply Rlt_le_trans with ((a + 34 / 100 * (a * a * a)) * (1 - a * a / 2)).
    + replace ((a + 34 / 100 * (a * a * a)) * (1 - a * a / 2))
        with (a - 16 / 100 * (a * a * a) - 17 / 100 * (a * a * a * a * a)) by field.
      lra.
    + apply Rmult_le_compat_l; lra.
Qed.

Lemma atan_5_100 : 0.04995 < atan (5 / 100) < 0.05.
Proof.
  pose proof PI_gt_3.
  split.
  - rewrite <- (atan_tan 0.04995) by lra.
    apply atan_increasing.
    destruct (tan_bounds 0.04995 ltac:(lra)) as [_ Hu]. lra.
  - rewrite <- (atan_tan 0.05) by lra.
    apply atan_increasing.
    destruct (tan_bounds 0.05 ltac:(lra)) as [Hl _]. lra.
Qed.

(* ================================================================== *)
(** * Camera positioning *)

Section CameraPositioning.
Context {K : Constants}.
Import Vector3d.

(** C10.  When no rotation can be made from the axis, [rotateCameraWorld]
    returns [InvalidUpVector] and the view is the one it was given. *)
Theorem rotateCameraWorld_invalid_axis
  (view : ViewState3d) (angle : Angle) (axis : Vector3d) (aboutPt : option Point3d) :
  Matrix3d.createRotationAroundVector axis angle = None ->
  rotateCameraWorld view angle axis aboutPt = (InvalidUpVector, view).
Proof. intros H. unfold rotateCameraWorld. rewrite H. reflexivity. Qed.

Lemma createRotationAroundVector_None (axis : Vector3d) (angle : Angle) :
  Matrix3d.createRotationAroundVector axis angle = None <-> normalize axis = None.
Proof.
  unfold Matrix3d.createRotationAroundVector. destruct (normalize axis); split; congruence.
Qed.

Lemma normalize_short (u : Vector3d) :
  magnitude u < smallMetricDistance -> normalize u = None.
Proof.
  intros H. unfold normalize, normalizeWithLength, correctSmallMetricDistance.
  rewrite (Rabs_pos_eq _ (magnitude_nonneg u)).
  destruct (Rlt_dec (magnitude u) smallMetricDistance); [|contradiction].
  destruct (Req_dec_T 0 0); [reflexivity | congruence].
Qed.

Lemma lookAt_never_InvalidLens
  (view : ViewState3d) (eyePoint targetPoint : XYZ) (upVector : Vector3d)
  (newExtents : option XAndY) (frontDistance backDistance : option R) :
  fst (lookAt view eyePoint targetPoint upVector newExtents frontDistance backDistance)
  <> InvalidLens.
Proof.
  unfold lookAt.
  destruct (normalize upVector); [|simpl; discriminate].
  repeat (match goal with |- fst (if ?c then _ else _) <> _ => destruct c end;
          [simpl; discriminate|]).
  match goal with |- context [fst (validateViewDelta ?a ?b ?c)] =>
    destruct (validateViewDelta_statuses a b c) as [E | [E | E]]; rewrite E end;
    try (simpl; discriminate).
  match goal with |- fst (if ?c then _ else _) <> _ => destruct c end; simpl; discriminate.
Qed.

(** C5 (amended).  Lens-angle bounds.  With the eye more than a millimeter
    from the target, [lookAtUsingLensAngle] returns [InvalidLens], and leaves
    the view alone, for a field of view below 0.0001 radians (every angle that
    is zero or negative among them) or above pi; for a field of view from
    0.0001 radians on and below pi it never returns [InvalidLens]. *)
Theorem lookAtUsingLensAngle_lens_bounds
  (view : ViewState3d) (eyePoint targetPoint : Point3d) (upVector : Vector3d) (fov : Angle)
  (frontDistance backDistance : option R) :
  Constant.oneMillimeter < magnitude (vectorTo eyePoint targetPoint) ->
  ((radians fov < 0.0001 \/ PI < radians fov) ->
   lookAtUsingLensAngle view eyePoint targetPoint upVector fov frontDistance backDistance
   = (InvalidLens, view)) /\
  (0.0001 <= radians fov < PI ->
   fst (lookAtUsingLensAngle view eyePoint targetPoint upVector fov frontDistance backDistance)
   <> InvalidLens).
Proof.
  intros Hd. unfold lookAtUsingLensAngle.
  destruct (Rle_dec _ _) as [Hle|_]; [lra|].
  split.
  - intros [H | H].
    + destruct (Rlt_dec (radians fov) 0.0001); [reflexivity | contradiction].
    + destruct (Rlt_dec (radians fov) 0.0001); [reflexivity|].
      destruct (Rlt_dec PI (radians fov)); [reflexivity | contradiction].
  - intros [H1 H2].
    destruct (Rlt_dec (radians fov) 0.0001); [lra|].
    destruct (Rlt_dec PI (radians fov)); [lra|].
    apply lookAt_never_InvalidLens.
Qed.

End CameraPositioning.

Section CameraPositioningSample.
Import Vector3d.

Lemma magnitude_zero : magnitude (mkXYZ 0 0 0) = 0.
Proof. apply magnitude_of_square; [lra | unfold dotProduct; simpl; ring]. Qed.

Lemma magnitude_eye_target : magnitude (vectorTo (mkXYZ 0 0 100) (mkXYZ 0 0 0)) = 100.
Proof. apply magnitude_of_square; [lra | unfold dotProduct, vectorTo, createStartEnd; simpl; ring]. Qed.

Lemma rotateCameraWorld_invalid_axis_witness :
  @Matrix3d.createRotationAroundVector sampleConstants (mkXYZ 0 0 0) (createRadians 1) = None /\
  @rotateCameraWorld sampleConstants sampleView (createRadians 1) (mkXYZ 0 0 0) None
  = (InvalidUpVector, sampleView).
Proof.
  assert (H : @Matrix3d.createRotationAroundVector sampleConstants (mkXYZ 0 0 0) (createRadians 1)
              = None).
  { apply createRotationAroundVector_None, normalize_short. rewrite magnitude_zero. simpl. lra. }
  split; [exact H|].
  exact (@rotateCameraWorld_invalid_axis sampleConstants sampleView (createRadians 1)
           (mkXYZ 0 0 0) None H).
Defined.

Lemma lookAtUsingLensAngle_lens_bounds_witness :
  Constant.oneMillimeter < magnitude (vectorTo (mkXYZ 0 0 100) (mkXYZ 0 0 0)) /\
  @lookAtUsingLensAngle sampleConstants sampleView (mkXYZ 0 0 100) (mkXYZ 0 0 0) (mkXYZ 0 1 0)
    (createRadians 0) None None = (InvalidLens, sampleView) /\
  fst (@lookAtUsingLensAngle sampleConstants sampleView (mkXYZ 0 0 100) (mkXYZ 0 0 0) (mkXYZ 0 1 0)
         (createRadians 0.0001) None None) <> InvalidLens.
Proof.
  assert (Hd : Constant.oneMillimeter < magnitude (vectorTo (mkXYZ 0 0 100) (mkXYZ 0 0 0))).
  { rewrite magnitude_eye_target. unfold Constant.oneMillimeter. lra. }
  split; [exact Hd|]. split.
  - apply (@lookAtUsingLensAngle_lens_bounds sampleConstants sampleView (mkXYZ 0 0 100)
             (mkXYZ 0 0 0) (mkXYZ 0 1 0) (createRadians 0) None None Hd).
    left. simpl. lra.
  - apply (@lookAtUsingLensAngle_lens_bounds sampleConstants sampleView (mkXYZ 0 0 100)
             (mkXYZ 0 0 0) (mkXYZ 0 1 0) (createRadians 0.0001) None None Hd).
    simpl. pose proof PI_gt_3. lra.
Defined.

(** C5 as stated fails at pi: a field of view of exactly pi radians is at
    least pi, and the status is not [InvalidLens]. *)
Lemma lookAtUsingLensAngle_accepts_pi :
  Constant.oneMillimeter < magnitude (vectorTo (mkXYZ 0 0 100) (mkXYZ 0 0 0)) /\
  PI <= radians (createRadians PI) /\
  fst (@lookAtUsingLensAngle sampleConstants sampleView (mkXYZ 0 0 100) (mkXYZ 0 0 0) (mkXYZ 0 1 0)
         (createRadians PI) None None) <> InvalidLens.
Proof.
  split; [rewrite magnitude_eye_target; unfold Constant.oneMillimeter; lra|].
  split; [simpl; lra|].
  unfold lookAtUsingLensAngle. rewrite magnitude_eye_target. simpl radians.
  pose proof PI_gt_3.
  destruct (Rle_dec 100 Constant.oneMillimeter) as [Hle|_];
    [unfold Constant.oneMillimeter in Hle; lra|].
  destruct (Rlt_dec PI 0.0001); [lra|].
  destruct (Rlt_dec PI PI); [lra|].
  apply lookAt_never_InvalidLens.
Qed.

End CameraPositioningSample.

(* ================================================================== *)
(** * The lookAt scenario *)

Section LookAtScenario.
Context {K : Constants}.
Import Vector3d.

Lemma normalizeWithLength_value (u u1 : Vector3d) (m : R) :
  0 < m -> ~ m < smallMetricDistance -> dotProduct u u = m * m ->
  x u = x u1 * m -> y u = y u1 * m -> z u = z u1 * m ->
  normalizeWithLength u = mkNormalized (Some u1) m.
Proof.
  intros Hm Hs Hu Hx Hy Hz.
  assert (E : magnitude u = m) by (apply magnitude_of_square; [lra | assumption]).
  rewrite normalizeWithLength_long; rewrite E; try assumption; try lra.
  f_equal. f_equal. apply xyz_eq; simpl; [rewrite Hx | rewrite Hy | rewrite Hz]; field; lra.
Qed.

Lemma validateViewDelta_xy_within {V : Type} {VS : ViewState V}
  (view : V) (delta : Vector3d) (msg : bool) :
  min (extentLimits view) <= x delta <= max (extentLimits view) ->
  min (extentLimits view) <= y delta <= max (extentLimits view) ->
  fst (validateViewDelta view delta msg) = Success.
Proof.
  intros Hx Hy. unfold validateViewDelta, limitWindowSize.
  repeat case_R; simpl; try reflexivity; lra.
Qed.

Lemma minimumFrontDistance_bounds (view : ViewState3d) (b : R) :
  forceMinFrontDist view < b -> 0.152 < b ->
  0.152 <= ViewState3d.minimumFrontDistance view < b.
Proof.
  intros Hf Hb. unfold ViewState3d.minimumFrontDistance, Constant.oneCentimeter.
  split.
  - eapply Rle_trans; [|apply Rmax_l]. lra.
  - apply Rmax_lub_lt; lra.
Qed.

(** The scenario of [lookAt] evaluated: every check passes, and the view
    that is stored has the focus distance, the camera flag and the lens angle
    below. *)
Lemma lookAt_scenario_eval (view : ViewState3d) :
  let result := lookAt view (mkXYZ 0 0 100) (mkXYZ 0 0 0) (mkXYZ 0 1 0) None None None in
  extents view = mkXYZ 10 10 1 ->
  supportsCamera view = true ->
  forceMinFrontDist view < 100 ->
  min (extentLimits view) <= 0.0152 ->
  10 <= max (extentLimits view) ->
  ViewState3d.getBackDistance view <= 1.0e9 ->
  ~ 1 < smallMetricDistance ->
  fst result = Success /\
  ViewState3d.getFocusDistance (snd result) = 100 /\
  ViewState3d.isCameraOn (snd result) = true /\
  ViewState3d.getLensAngle (snd result) = createRadians (2 * atan (5 / 100)) /\
  ViewState3d.getLensAngle (snd result) = ViewState3d.calcLensAngle (snd result).
Proof.
  intros result Hext Hsup Hforce Hmin Hmax Hback Hsmd. subst result.
  destruct (minimumFrontDistance_bounds view 100 Hforce ltac:(lra)) as [Hm1 Hm2].
  assert (Hy : normalize (mkXYZ 0 1 0) = Some (mkXYZ 0 1 0)).
  { unfold normalize.
    rewrite (normalizeWithLength_value (mkXYZ 0 1 0) (mkXYZ 0 1 0) 1);
      unfold dotProduct; simpl; try lra; reflexivity. }
  assert (Hz : normalizeWithLength (createStartEnd (mkXYZ 0 0 0) (mkXYZ 0 0 100))
               = mkNormalized (Some (mkXYZ 0 0 1)) 100).
  { apply normalizeWithLength_value; unfold dotProduct; simpl; lra. }
  assert (Hx : normalizeWithLength (crossProduct (mkXYZ 0 1 0) (mkXYZ 0 0 1))
               = mkNormalized (Some (mkXYZ 1 0 0)) 1).
  { apply normalizeWithLength_value; unfold dotProduct; simpl; lra. }
  assert (Hy2 : normalizeWithLength (crossProduct (mkXYZ 0 0 1) (mkXYZ 1 0 0))
               = mkNormalized (Some (mkXYZ 0 1 0)) 1).
  { apply normalizeWithLength_value; unfold dotProduct; simpl; lra. }
  unfold lookAt. cbn [x y z]. rewrite Hy, Hz. cbn [v mag]. rewrite Hx. cbn [v mag].
  rewrite Hy2. cbn [v mag orElse].
  set (mfd := ViewState3d.minimumFrontDistance view) in *.
  set (back0 := ViewState3d.getBackDistance view) in *.
  set (front0 := ViewState3d.getFrontDistance view) in *.
  destruct (Rle_dec 100 mfd); [lra|].
  destruct (Rlt_dec 1 smallMetricDistance); [contradiction|].
  rewrite Hext. cbn [x y z].
  unfold Constant.oneMeter, Constant.oneMillimeter.
  set (back1 := Rmax back0 (100 + 0.5 * 1)).
  set (front1 := Rmax front0 (0.5 * 1)).
  assert (Hb1 : 100.5 <= back1 <= 1.0e9).
  { unfold back1. split; [eapply Rle_trans; [|apply Rmax_r]; lra | apply Rmax_lub; lra]. }
  assert (Hf1 : 0.5 <= front1).
  { unfold front1. eapply Rle_trans; [|apply Rmax_r]; lra. }
  destruct (Rlt_dec back1 100); [lra|].
  set (front2 := if Rlt_dec 100 front1 then 100 - mfd else front1).
  assert (Hf2 : 0 < front2 <= 100).
  { unfold front2. destruct (Rlt_dec 100 front1); lra. }
  set (front3 := if Rlt_dec front2 mfd then mfd else front2).
  assert (Hf3 : 0.152 <= front3 <= 100).
  { unfold front3. destruct (Rlt_dec front2 mfd); lra. }
  rewrite validateViewDelta_xy_within; cbn [scale x y z]; try lra.
  unfold ViewState3d.calculateMaxDepth. cbn [x y z].
  rewrite Rabs_R0. rewrite (Rmin_left 0 0) by lra.
  destruct (Req_dec_T 0 0); [|congruence].
  rewrite (Rmax_left 10 10) by lra.
  destruct (Rlt_dec (10 * 1.0e8) (back1 - front3)); [lra|].
  unfold ViewState3d.enableCamera. cbn. rewrite Hsup. cbn.
  assert (EL : 2.0 * atan2 (Rmax 10 10 * 0.5) 100 = 2 * atan (5 / 100)).
  { rewrite (Rmax_left 10 10) by lra.
    unfold atan2. destruct (Rlt_dec 0 100); [|lra].
    replace (10 * 0.5 / 100) with (5 / 100) by lra. lra. }
  unfold ViewState3d.getLensAngle, ViewState3d.calcLensAngle. cbn.
  rewrite EL. repeat split.
Qed.

(** C7.  The [lookAt] scenario.  A 3d view with extents (10, 10, 1) looks
    from (0, 0, 100) at the origin with up vector (0, 1, 0), front and back
    distances left to their defaults.  The view can have a camera, its minimum
    front distance is below the focus distance, its extent limits admit window
    sizes from 0.0152 to 10, and its back plane is within the depth limit.
    Then [lookAt] returns [Success], the focus distance is 100, the camera is
    on, and the lens angle is [2 * atan (5 / 100)], the angle [calcLensAngle]
    computes, which lies between 0.0999 and 0.1 radians. *)
Theorem lookAt_scenario (view : ViewState3d) :
  let result := lookAt view (mkXYZ 0 0 100) (mkXYZ 0 0 0) (mkXYZ 0 1 0) None None None in
  extents view = mkXYZ 10 10 1 ->
  supportsCamera view = true ->
  forceMinFrontDist view < 100 ->
  min (extentLimits view) <= 0.0152 ->
  10 <= max (extentLimits view) ->
  ViewState3d.getBackDistance view <= 1.0e9 ->
  ~ 1 < smallMetricDistance ->
  fst result = Success /\
  ViewState3d.getFocusDistance (snd result) = 100 /\
  ViewState3d.isCameraOn (snd result) = true /\
  ViewState3d.getLensAngle (snd result) = createRadians (2 * atan (5 / 100)) /\
  ViewState3d.getLensAngle (snd result) = ViewState3d.calcLensAngle (snd result) /\
  0.0999 < radians (ViewState3d.getLensAngle (snd result)) < 0.1.
Proof.
  intros result Hext Hsup Hforce Hmin Hmax Hback Hsmd.
  destruct (lookAt_scenario_eval view Hext Hsup Hforce Hmin Hmax Hback Hsmd)
    as (H1 & H2 & H3 & H4 & H5).
  fold result in H1, H2, H3, H4, H5.
  repeat split; try assumption; rewrite H4; cbn [radians]; pose proof atan_5_100; lra.
Qed.
End LookAtScenario.

Section LookAtScenarioSample.
Import Vector3d.

Lemma lookAt_scenario_witness :
  fst (@lookAt sampleConstants sampleView (mkXYZ 0 0 100) (mkXYZ 0 0 0) (mkXYZ 0 1 0)
         None None None) = Success /\
  ViewState3d.getFocusDistance
    (snd (@lookAt sampleConstants sampleView (mkXYZ 0 0 100) (mkXYZ 0 0 0) (mkXYZ 0 1 0)
            None None None)) = 100 /\
  ViewState3d.isCameraOn
    (snd (@lookAt sampleConstants sampleView (mkXYZ 0 0 100) (mkXYZ 0 0 0) (mkXYZ 0 1 0)
            None None None)) = true /\
  ViewState3d.getLensAngle
    (snd (@lookAt sampleConstants sampleView (mkXYZ 0 0 100) (mkXYZ 0 0 0) (mkXYZ 0 1 0)
            None None None)) = createRadians (2 * atan (5 / 100)).
Proof.
  destruct (@lookAt_scenario sampleConstants sampleView) as (H1 & H2 & H3 & H4 & _ & _).
  - reflexivity.
  - reflexivity.
  - simpl. lra.
  - simpl. unfold Constant.oneMillimeter. lra.
  - simpl. lra.
  - unfold ViewState3d.getBackDistance, Matrix3d.multiplyVector, dotProduct; simpl. lra.
  - simpl. lra.
  - repeat split; assumption.
Defined.
End LookAtScenarioSample.

(* ================================================================== *)
(** * The volume fit scenario *)

Section FitScenario.
Import Vector3d.

Lemma multiplyTransposeVector_plusScaled (m : Matrix3d) (a b : XYZ) (s : R) :
  plusScaled (Matrix3d.multiplyTransposeVector m a)
             (Matrix3d.multiplyVector (Matrix3d.transpose m) b) s
  = Matrix3d.multiplyTransposeVector m (plusScaled a b s).
Proof.
  destruct m, a as [ax ay az], b as [bx b_y bz].
  unfold plusScaled, Matrix3d.multiplyTransposeVector, Matrix3d.multiplyVector, dotProduct; simpl.
  f_equal; ring.
Qed.

(** C8.  The orthographic fit scenario.  A 3d view with its camera off, no
    aspect-ratio skew and limits that admit the sizes, fitted to the
    view-aligned volume from (0, 0, 0) to (100, 50, 10) with aspect 2.0 and no
    margin, has extents (104, 52, 10.4); its origin is the view-aligned point
    (-2, -1, -0.2), so that its center is the center (50, 25, 5) of the
    volume. *)
Theorem lookAtViewAlignedVolume_scenario (view : ViewState3d) :
  let volume := mkRange3d (mkXYZ 0 0 0) (mkXYZ 100 50 10) in
  _cameraOn view = false ->
  getAspectRatioSkew view = 1 ->
  min (extentLimits view) <= 10.4 ->
  104 <= max (extentLimits view) ->
  exists view',
    lookAtViewAlignedVolume view volume (Some 2.0) None = Some view' /\
    getExtents view' = mkXYZ 104 52 10.4 /\
    getOrigin view' = Matrix3d.multiplyTransposeVector (getRotation view) (mkXYZ (-2) (-1) (-0.2)) /\
    getCenter view' = Matrix3d.multiplyTransposeVector (getRotation view) (mkXYZ 50 25 5) /\
    getRotation view' = getRotation view /\
    ViewState3d.isCameraOn view' = false.
Proof.
  intros volume Hoff Hskew Hmin Hmax.
  assert (E : scale (createStartEnd (mkXYZ 0 0 0) (mkXYZ 100 50 10)) 1.04 = mkXYZ 104 52 10.4).
  { unfold scale, createStartEnd; simpl. f_equal; lra. }
  unfold lookAtViewAlignedVolume, volume, Range3d.isNull. cbn [low high x y z createStartEnd].
  destruct (Rlt_dec 100 0); [lra|].
  destruct (Rlt_dec 50 0); [lra|].
  destruct (Rlt_dec 10 0); [lra|].
  destruct (Rlt_dec (10 - 0) Constant.oneMillimeter) as [H|_];
    [unfold Constant.oneMillimeter in H; lra|].
  unfold isCameraOn3d. cbn [is3d ViewState3d_isViewState]. rewrite Hoff.
  rewrite E.
  rewrite validateViewDelta_within by (cbn [x y z]; lra).
  cbn [snd].
  destruct (Req_dec_T 2.0 0); [lra|].
  unfold adjustAspectRatio.
  change (getAspectRatioSkew (setExtents view (mkXYZ 104 52 10.4))) with (getAspectRatioSkew view).
  rewrite Hskew.
  change (getExtents (setExtents view (mkXYZ 104 52 10.4))) with (mkXYZ 104 52 10.4).
  cbn [x y z].
  replace (1 - 104 / 52 / (2.0 * 1)) with 0 by lra.
  rewrite Rabs_R0.
  destruct (Rlt_dec 0 1.0e-9); [|lra].
  change (getExtents (setExtents view (mkXYZ 104 52 10.4))) with (mkXYZ 104 52 10.4).
  cbn [x y z].
  change (is3d (setOrigin (setExtents view (mkXYZ 104 52 10.4)) ?o))
    with (Some (setOrigin (setExtents view (mkXYZ 104 52 10.4)) o)).
  cbn [update3d ViewState3d_isViewState].
  unfold verifyFocusPlane.
  change (_cameraOn (centerEyePoint ?v ?b)) with (_cameraOn view).
  rewrite Hoff. cbn [negb].
  eexists. split; [reflexivity|].
  assert (EO : mkXYZ (0 - (104 - x (createStartEnd (mkXYZ 0 0 0) (mkXYZ 100 50 10))) / 2.0)
                     (0 - (52 - y (createStartEnd (mkXYZ 0 0 0) (mkXYZ 100 50 10))) / 2.0)
                     (0 - (10.4 - z (createStartEnd (mkXYZ 0 0 0) (mkXYZ 100 50 10))) / 2.0)
               = mkXYZ (-2) (-1) (-0.2)).
  { unfold createStartEnd; simpl. f_equal; lra. }
  rewrite EO.
  split; [reflexivity|]. split; [reflexivity|]. split; [|split; [reflexivity | exact Hoff]].
  unfold getCenter.
  match goal with |- plusScaled (getOrigin ?v) (Matrix3d.multiplyVector (Matrix3d.transpose (getRotation ?v)) (getExtents ?v)) _ = _ =>
    change (getOrigin v) with (Matrix3d.multiplyTransposeVector (getRotation view) (mkXYZ (-2) (-1) (-0.2)));
    change (getRotation v) with (getRotation view);
    change (getExtents v) with (mkXYZ 104 52 10.4)
  end.
  rewrite multiplyTransposeVector_plusScaled.
  f_equal. unfold plusScaled; simpl. f_equal; lra.
Qed.
End FitScenario.

Section FitScenarioSample.
Import Vector3d.

Lemma lookAtViewAlignedVolume_scenario_witness :
  exists view',
    lookAtViewAlignedVolume sampleView
      (mkRange3d (mkXYZ 0 0 0) (mkXYZ 100 50 10)) (Some 2.0) None = Some view' /\
    getExtents view' = mkXYZ 104 52 10.4 /\
    getCenter view' = mkXYZ 50 25 5.
Proof.
  destruct (lookAtViewAlignedVolume_scenario sampleView)
    as (view' & H1 & H2 & _ & H4 & _).
  - reflexivity.
  - unfold getAspectRatioSkew; simpl. unfold ViewState3d.getAspectRatioSkew; simpl. lra.
  - simpl. unfold Constant.oneMillimeter. lra.
  - simpl. lra.
  - exists view'. split; [exact H1|]. split; [exact H2|].
    rewrite H4. unfold Matrix3d.multiplyTransposeVector, dotProduct; simpl. f_equal; ring.
Defined.
End FitScenarioSample.

(* ================================================================== *)
(** * What [lookAt] does *)

Section LookAtFacts.
Context {K : Constants}.
Import Vector3d.

(** X1.  [lookAt] is all or nothing: it returns [Success], or it leaves the
    view as it was. *)
Theorem lookAt_all_or_nothing
  (view : ViewState3d) (eyePoint targetPoint : XYZ) (upVector : Vector3d)
  (newExtents : option XAndY) (frontDistance backDistance : option R) :
  fst (lookAt view eyePoint targetPoint upVector newExtents frontDistance backDistance) = Success \/
  snd (lookAt view eyePoint targetPoint upVector newExtents frontDistance backDistance) = view.
Proof.
  unfold lookAt.
  destruct (normalize upVector); [|right; reflexivity].
  repeat (match goal with |- fst (if ?c then _ else _) = _ \/ _ => destruct c end;
          [right; reflexivity|]).
  match goal with |- context [fst (validateViewDelta ?a ?b ?c)] =>
    destruct (fst (validateViewDelta a b c)) end;
    try (right; reflexivity).
  match goal with |- fst (if ?c then _ else _) = _ \/ _ => destruct c end;
    [right | left]; reflexivity.
Qed.

(** The focus distance [lookAt] measures is never more than the distance
    from the eye to the target. *)
Lemma normalizeWithLength_mag_le (u : Vector3d) : mag (normalizeWithLength u) <= magnitude u.
Proof.
  destruct (normalizeWithLength_cases u) as [H | (_ & _ & H)]; rewrite H; simpl.
  - apply magnitude_nonneg.
  - lra.
Qed.

(** X2.  With an up vector that has a direction, an eye that is no farther
    from the target than the minimum front distance makes [lookAt] return
    [InvalidTargetPoint], the view left as it was. *)
Theorem lookAt_close_target
  (view : ViewState3d) (eyePoint targetPoint : XYZ) (upVector yVec : Vector3d)
  (newExtents : option XAndY) (frontDistance backDistance : option R) :
  normalize upVector = Some yVec ->
  distance targetPoint eyePoint <= ViewState3d.minimumFrontDistance view ->
  lookAt view eyePoint targetPoint upVector newExtents frontDistance backDistance
  = (InvalidTargetPoint, view).
Proof.
  intros Hup Hd. unfold lookAt. rewrite Hup.
  rewrite xyz_eta.
  pose proof (normalizeWithLength_mag_le (createStartEnd targetPoint eyePoint)) as Hle.
  unfold distance in Hd.
  destruct (Rle_dec _ _) as [_|Hn]; [reflexivity|].
  exfalso. apply Hn. lra.
Qed.

Lemma minimumFrontDistance_pos (view : ViewState3d) : 0 < ViewState3d.minimumFrontDistance view.
Proof.
  unfold ViewState3d.minimumFrontDistance, Constant.oneCentimeter.
  eapply Rlt_le_trans; [|apply Rmax_l]. lra.
Qed.

(** From the eye, back along the unit vector from the target to the eye by
    their distance: the target. *)
Lemma plusScaled_to_target (e t : XYZ) (m : R) :
  m <> 0 -> plusScaled e (scale (createStartEnd t e) (1 / m)) (-1.0 * m) = t.
Proof.
  intros Hm. destruct e as [ex ey ez], t as [tx ty tz].
  replace (-1.0) with (-1) by lra.
  unfold plusScaled, scale, createStartEnd; simpl. f_equal; field; assumption.
Qed.

Lemma getTargetPoint_cameraOn (view : ViewState3d) :
  _cameraOn view = true ->
  getTargetPoint view =
  plusScaled (eye (camera view)) (Matrix3d.rowZ (rotation view)) (-1.0 * focusDist (camera view)).
Proof. intros H. unfold getTargetPoint. rewrite H. reflexivity. Qed.

(** X3.  After a successful [lookAt] the eye is where it was asked to be,
    the focus distance is the distance from the target to the eye and exceeds
    the minimum front distance, the lens angle is the one [calcLensAngle]
    computes from the new extents and focus distance, the camera is on if the
    view supports one (it stays as it was otherwise), and with the camera on
    the target point of the view is the target that was given. *)
Theorem lookAt_success_state
  (view : ViewState3d) (eyePoint targetPoint : XYZ) (upVector : Vector3d)
  (newExtents : option XAndY) (frontDistance backDistance : option R) :
  let result := lookAt view eyePoint targetPoint upVector newExtents frontDistance backDistance in
  fst result = Success ->
  ViewState3d.getEyePoint (snd result) = eyePoint /\
  ViewState3d.getFocusDistance (snd result) = distance targetPoint eyePoint /\
  ViewState3d.minimumFrontDistance view < ViewState3d.getFocusDistance (snd result) /\
  ViewState3d.getLensAngle (snd result) = ViewState3d.calcLensAngle (snd result) /\
  ViewState3d.isCameraOn (snd result) = (supportsCamera view || ViewState3d.isCameraOn view)%bool /\
  (ViewState3d.isCameraOn (snd result) = true -> getTargetPoint (snd result) = targetPoint).
Proof.
  intros result.
  remember (lookAt view eyePoint targetPoint upVector newExtents frontDistance backDistance)
    as r eqn:Er.
  subst result. unfold lookAt in Er. rewrite xyz_eta in Er.
  pose proof (minimumFrontDistance_pos view) as Hmin.
  assert (Hdist : distance targetPoint eyePoint = magnitude (createStartEnd targetPoint eyePoint))
    by reflexivity.
  pose proof (plusScaled_to_target eyePoint targetPoint
                (magnitude (createStartEnd targetPoint eyePoint))) as Htarget.
  rewrite Hdist.
  destruct (normalize upVector) as [yVec|]; [|subst r; simpl; discriminate].
  destruct (normalizeWithLength_cases (createStartEnd targetPoint eyePoint))
    as [Hz | (Sz & Nz & Hz)]; rewrite Hz in Er; cbn [v mag] in Er.
  { destruct (Rle_dec 0 (ViewState3d.minimumFrontDistance view)); [subst r; simpl; discriminate | lra]. }
  specialize (Htarget Nz).
  remember (magnitude (createStartEnd targetPoint eyePoint)) as m eqn:Em.
  remember (scale (createStartEnd targetPoint eyePoint) (1 / m)) as zVec eqn:Ez.
  clear Em Ez Hz Hdist.
  destruct (Rle_dec _ _) as [|Hfocus] in Er; [subst r; simpl; discriminate|].
  destruct (Rlt_dec _ _) in Er; [subst r; simpl; discriminate|].
  destruct (Rlt_dec _ _) in Er; [subst r; simpl; discriminate|].
  match type of Er with context [fst (validateViewDelta ?a ?b ?c)] =>
    destruct (fst (validateViewDelta a b c)) end; try (subst r; simpl; discriminate).
  destruct (Rlt_dec _ _) in Er; [subst r; simpl; discriminate|].
  intros _. subst r. cbn [snd].
  unfold ViewState3d.enableCamera.
  destruct view as [on o e r c fm lim dlim skew sup].
  destruct sup; view_fields;
    (split; [reflexivity|]); (split; [reflexivity|]); (split; [lra|]);
    (split; [reflexivity|]); (split; [reflexivity|]);
    intros Hon; rewrite getTargetPoint_cameraOn by exact Hon;
    view_fields; rewrite rowZ_createRows; exact Htarget.
Qed.
End LookAtFacts.

Section LookAtFactsSample.
Import Vector3d.

Lemma normalize_unitY_sample : @normalize sampleConstants (mkXYZ 0 1 0) = Some (mkXYZ 0 1 0).
Proof.
  unfold normalize.
  rewrite (@normalizeWithLength_value sampleConstants (mkXYZ 0 1 0) (mkXYZ 0 1 0) 1);
    unfold dotProduct; simpl; try lra; reflexivity.
Qed.

Lemma lookAt_close_target_witness :
  @lookAt sampleConstants sampleView (mkXYZ 0 0 0.1) (mkXYZ 0 0 0) (mkXYZ 0 1 0) None None None
  = (InvalidTargetPoint, sampleView).
Proof.
  apply (@lookAt_close_target sampleConstants sampleView (mkXYZ 0 0 0.1) (mkXYZ 0 0 0)
           (mkXYZ 0 1 0) (mkXYZ 0 1 0) None None None normalize_unitY_sample).
  unfold distance.
  rewrite (magnitude_of_square (createStartEnd (mkXYZ 0 0 0) (mkXYZ 0 0 0.1)) 0.1);
    [| lra | unfold dotProduct, createStartEnd; simpl; lra].
  unfold ViewState3d.minimumFrontDistance, Constant.oneCentimeter.
  eapply Rle_trans; [|apply Rmax_l]. lra.
Defined.

Lemma lookAt_success_state_witness :
  fst (@lookAt sampleConstants sampleView (mkXYZ 0 0 100) (mkXYZ 0 0 0) (mkXYZ 0 1 0)
         None None None) = Success /\
  getTargetPoint
    (snd (@lookAt sampleConstants sampleView (mkXYZ 0 0 100) (mkXYZ 0 0 0) (mkXYZ 0 1 0)
            None None None)) = mkXYZ 0 0 0.
Proof.
  assert (Hs : fst (@lookAt sampleConstants sampleView (mkXYZ 0 0 100) (mkXYZ 0 0 0) (mkXYZ 0 1 0)
                      None None None) = Success).
  { apply (@lookAt_scenario_eval sampleConstants sampleView); simpl;
      unfold Constant.oneMillimeter; try lra; try reflexivity.
    unfold ViewState3d.getBackDistance, Matrix3d.multiplyVector, dotProduct; simpl. lra. }
  split; [exact Hs|].
  destruct (@lookAt_success_state sampleConstants sampleView (mkXYZ 0 0 100) (mkXYZ 0 0 0)
              (mkXYZ 0 1 0) None None None Hs) as (_ & _ & _ & _ & Hon & Ht).
  apply Ht. rewrite Hon. reflexivity.
Defined.
End LookAtFactsSample.

(* ================================================================== *)
(** * Aspect ratio *)

Section AspectRatio.
Import Vector3d.

(** A rigid matrix followed by its transpose maps every vector to itself. *)
Lemma rigid_transpose_multiply (m : Matrix3d) (u : XYZ) :
  Matrix3d.isRigid m ->
  Matrix3d.multiplyVector (Matrix3d.transpose m) (Matrix3d.multiplyVector m u) = u.
Proof.
  intros Hr. apply rigid_transpose in Hr.
  destruct Hr as (H1 & H2 & H3 & H12 & H13 & H23 & _).
  destruct m as [a b c d e f g h i], u as [ux uy uz].
  unfold Matrix3d.multiplyVector, Matrix3d.transpose, dotProduct,
    Matrix3d.rowX, Matrix3d.rowY, Matrix3d.rowZ in *; simpl in *.
  f_equal.
  - replace (a * (a * ux + b * uy + c * uz) + d * (d * ux + e * uy + f * uz) + g * (g * ux + h * uy + i * uz))
      with ((a * a + d * d + g * g) * ux + (a * b + d * e + g * h) * uy + (a * c + d * f + g * i) * uz)
      by ring.
    rewrite H1, H12, H13. ring.
  - replace (b * (a * ux + b * uy + c * uz) + e * (d * ux + e * uy + f * uz) + h * (g * ux + h * uy + i * uz))
      with ((a * b + d * e + g * h) * ux + (b * b + e * e + h * h) * uy + (b * c + e * f + h * i) * uz)
      by ring.
    rewrite H2, H12, H23. ring.
  - replace (c * (a * ux + b * uy + c * uz) + f * (d * ux + e * uy + f * uz) + i * (g * ux + h * uy + i * uz))
      with ((a * c + d * f + g * i) * ux + (b * c + e * f + h * i) * uy + (c * c + f * f + i * i) * uz)
      by ring.
    rewrite H3, H13, H23. ring.
Qed.

Lemma multiplyVector_plus (m : Matrix3d) (u w : XYZ) :
  Matrix3d.multiplyVector m (plus u w) = plus (Matrix3d.multiplyVector m u) (Matrix3d.multiplyVector m w).
Proof.
  destruct m, u as [ux uy uz], w as [wx wy wz].
  unfold Matrix3d.multiplyVector, plus, dotProduct; simpl. f_equal; ring.
Qed.

Lemma multiplyVector_zero (m : Matrix3d) : Matrix3d.multiplyVector m createZero = createZero.
Proof. destruct m. unfold Matrix3d.multiplyVector, createZero, dotProduct; simpl. f_equal; ring. Qed.

(** The center of a 3d view after its origin and extents were replaced. *)
Lemma getCenter_moved (view : ViewState3d) (d e : XYZ) :
  Matrix3d.isRigid (rotation view) ->
  getCenter
    (setExtents
       (setOrigin view
          (Transform.multiplyPoint3d
             (createOriginAndMatrix
                (scale (Matrix3d.multiplyVector (Matrix3d.transpose (rotation view)) createZero) (-1))
                (Matrix3d.transpose (rotation view)))
             (plus (Matrix3d.multiplyVector (rotation view) (origin view)) d))) e)
  = plus (origin view)
      (Matrix3d.multiplyVector (Matrix3d.transpose (rotation view)) (plusScaled d e 0.5)).
Proof.
  intros Hr. unfold getCenter, Transform.multiplyPoint3d. simpl.
  rewrite multiplyVector_zero, multiplyVector_plus, (rigid_transpose_multiply _ _ Hr).
  destruct (rotation view), (origin view) as [ox oy oz], d as [dx dy dz], e as [ex ey ez].
  unfold Matrix3d.multiplyVector, Matrix3d.transpose, plus, plusScaled, scale, createZero, dotProduct;
    simpl. f_equal; ring.
Qed.

(** X4.  [adjustAspectRatio] on a 3d view with a rigid rotation, positive
    X and Y extents and a positive window aspect: the center of the view, its
    rotation and its Z extent stay, neither X nor Y shrinks, at most one of
    them changes, and the aspect of the new extents is the window aspect
    (times the skew) within 1.0e-9. *)
Theorem adjustAspectRatio_keeps_center (view : ViewState3d) (windowAspect : R) :
  Matrix3d.isRigid (rotation view) ->
  0 < x (extents view) -> 0 < y (extents view) ->
  0 < windowAspect * getAspectRatioSkew view ->
  exists view',
    adjustAspectRatio view windowAspect = Some view' /\
    getCenter view' = getCenter view /\
    rotation view' = rotation view /\
    z (extents view') = z (extents view) /\
    x (extents view) <= x (extents view') /\
    y (extents view) <= y (extents view') /\
    (x (extents view') = x (extents view) \/ y (extents view') = y (extents view)) /\
    Rabs (1 - x (extents view') / y (extents view') / (windowAspect * getAspectRatioSkew view))
      < 1.0e-9.
Proof.
  intros Hr Hx Hy Ha.
  set (a := windowAspect * getAspectRatioSkew view) in *.
  unfold adjustAspectRatio. fold a.
  change (getExtents view) with (extents view).
  change (getOrigin view) with (origin view).
  change (getRotation view) with (rotation view).
  destruct (Rlt_dec (Rabs (1 - x (extents view) / y (extents view) / a)) 1.0e-9) as [Hnear | Hfar].
  { exists view. repeat split; try reflexivity; try lra. }
  unfold Transform.inverse. cbn [trMatrix trOrigin].
  rewrite (inverse_rigid _ Hr).
  assert (E0 : Transform.multiplyPoint3d (createOriginAndMatrix createZero (rotation view))
                 (origin view)
               = Matrix3d.multiplyVector (rotation view) (origin view)).
  { unfold Transform.multiplyPoint3d. cbn [trMatrix trOrigin].
    destruct (Matrix3d.multiplyVector _ _); unfold plus, createZero; simpl. f_equal; ring. }
  rewrite !E0.
  assert (Hc : getCenter view =
               plus (origin view)
                 (Matrix3d.multiplyVector (Matrix3d.transpose (rotation view))
                    (plusScaled createZero (extents view) 0.5))).
  { unfold getCenter. change (getExtents view) with (extents view).
    change (getOrigin view) with (origin view). change (getRotation view) with (rotation view).
    destruct (rotation view), (origin view) as [ox oy oz], (extents view) as [ex ey ez].
    unfold Matrix3d.multiplyVector, Matrix3d.transpose, plus, plusScaled, scale, createZero, dotProduct;
      simpl. f_equal; ring. }
  destruct (Rlt_dec a (x (extents view) / y (extents view))) as [Hwide | Htall].
  - (* the view is wider than the window: Y grows *)
    eexists. split; [reflexivity|].
    split.
    { cbn [x y z].
      set (M := Matrix3d.multiplyVector (rotation view) (origin view)).
      replace (mkXYZ (x M + (x (extents view) - x (extents view)) / 2)
                     (y M + (y (extents view) - x (extents view) / a) / 2) (z M))
        with (plus M (mkXYZ 0 ((y (extents view) - x (extents view) / a) / 2) 0)).
      2:{ unfold plus; simpl. f_equal; lra. }
      subst M. rewrite (getCenter_moved view _ _ Hr), Hc. f_equal. f_equal.
      unfold plusScaled, createZero; simpl. destruct (extents view) as [ex ey ez]; simpl.
      f_equal; lra. }
    cbn.
    assert (Hgrow : y (extents view) < x (extents view) / a).
    { apply (Rmult_lt_reg_r a); [assumption|].
      replace (x (extents view) / a * a) with (x (extents view)) by (field; lra).
      apply (Rmult_lt_compat_r (y (extents view))) in Hwide; [|assumption].
      replace (x (extents view) / y (extents view) * y (extents view)) with (x (extents view))
        in Hwide by (field; lra).
      lra. }
    repeat split; try reflexivity; try lra.
    replace (1 - x (extents view) / (x (extents view) / a) / a) with 0 by (field; lra).
    rewrite Rabs_R0. lra.
  - (* the window is wider than the view: X grows *)
    eexists. split; [reflexivity|].
    split.
    { cbn [x y z].
      set (M := Matrix3d.multiplyVector (rotation view) (origin view)).
      replace (mkXYZ (x M + (x (extents view) - y (extents view) * a) / 2)
                     (y M + (y (extents view) - y (extents view)) / 2) (z M))
        with (plus M (mkXYZ ((x (extents view) - y (extents view) * a) / 2) 0 0)).
      2:{ unfold plus; simpl. f_equal; lra. }
      subst M. rewrite (getCenter_moved view _ _ Hr), Hc. f_equal. f_equal.
      unfold plusScaled, createZero; simpl. destruct (extents view) as [ex ey ez]; simpl.
      f_equal; lra. }
    cbn.
    assert (Hgrow : x (extents view) <= y (extents view) * a).
    { apply Rnot_lt_le in Htall.
      apply (Rmult_le_compat_r (y (extents view))) in Htall; [|lra].
      replace (x (extents view) / y (extents view) * y (extents view)) with (x (extents view))
        in Htall by (field; lra).
      lra. }
    repeat split; try reflexivity; try lra.
    replace (1 - y (extents view) * a / y (extents view) / a) with 0 by (field; lra).
    rewrite Rabs_R0. lra.
Qed.
End AspectRatio.

Section AspectRatioSample.
Import Vector3d.

Lemma adjustAspectRatio_keeps_center_witness :
  exists view',
    adjustAspectRatio sampleView 2 = Some view' /\
    getCenter view' = getCenter sampleView /\
    z (extents view') = 1.
Proof.
  destruct (adjustAspectRatio_keeps_center sampleView 2) as (view' & H1 & H2 & _ & H4 & _).
  - exact rigid_identity.
  - simpl. lra.
  - simpl. lra.
  - unfold getAspectRatioSkew; simpl. unfold ViewState3d.getAspectRatioSkew; simpl. lra.
  - exists view'. split; [exact H1|]. split; [exact H2|]. rewrite H4. reflexivity.
Defined.
End AspectRatioSample.

(* ================================================================== *)
(** * Further properties of the limits, the solvers and the camera moves *)

Section MoreClamping.
Context {V : Type} {VS : ViewState V}.

(** X5.  With limits [min <= max], a delta that [validateViewDelta] has
    clamped passes a second validation unchanged, with [Success]. *)
Theorem validateViewDelta_idempotent (view : V) (delta : Vector3d) (m1 m2 : bool) :
  min (extentLimits view) <= max (extentLimits view) ->
  validateViewDelta view (snd (validateViewDelta view delta m1)) m2
  = (Success, snd (validateViewDelta view delta m1)).
Proof.
  intros Hlim. apply validateViewDelta_within;
    rewrite validateViewDelta_delta; cbn [x y z];
    unfold limitWindowSize; repeat case_R; cbn [fst]; lra.
Qed.
End MoreClamping.

Lemma validateViewDelta_idempotent_witness :
  snd (validateViewDelta sampleView (mkXYZ 0.0001 20000000 5) true)
    = mkXYZ Constant.oneMillimeter 12742000 5 /\
  validateViewDelta sampleView (mkXYZ Constant.oneMillimeter 12742000 5) false
    = (Success, mkXYZ Constant.oneMillimeter 12742000 5).
Proof.
  assert (E : snd (validateViewDelta sampleView (mkXYZ 0.0001 20000000 5) true)
              = mkXYZ Constant.oneMillimeter 12742000 5).
  { rewrite validateViewDelta_delta. unfold limitWindowSize. simpl.
    unfold Constant.oneMillimeter. repeat decide_R. reflexivity. }
  split; [exact E|].
  rewrite <- E.
  apply (validateViewDelta_idempotent sampleView (mkXYZ 0.0001 20000000 5) true false).
  simpl. unfold Constant.oneMillimeter. lra.
Defined.


Section MoreSolver.
Context {K : Constants}.
Import Vector3d.

(** X6.  The solver of the base class is all or nothing, for every kind of
    view: it returns [Success], or [InvalidWindow] with the view as it was. *)
Theorem setupFromFrustum_all_or_nothing {V : Type} {VS : ViewState V} (view : V) (inFrustum : Frustum) :
  fst (setupFromFrustum view inFrustum) = Success \/
  setupFromFrustum view inFrustum = (InvalidWindow, view).
Proof.
  destruct (setupFromFrustum_statuses view inFrustum) as [H | [H1 H2]]; [left; exact H|].
  right. destruct (setupFromFrustum view inFrustum); simpl in *; subst; reflexivity.
Qed.

(** X8.  The camera moves keep a rigid rotation rigid, whatever status
    they return. *)
Theorem rotateCameraWorld_rotation_rigid
  (view : ViewState3d) (angle : Angle) (axis : Vector3d) (aboutPt : option Point3d) :
  0 < smallMetricDistance ->
  Matrix3d.isRigid (rotation view) ->
  Matrix3d.isRigid (rotation (snd (rotateCameraWorld view angle axis aboutPt))) /\
  Matrix3d.isRigid (rotation (snd (rotateCameraLocal view angle axis aboutPt))) /\
  Matrix3d.isRigid (rotation (snd (moveCameraWorld view axis))) /\
  Matrix3d.isRigid (rotation (snd (moveCameraLocal view axis))).
Proof.
  intros Hs Hr.
  assert (Hrot : forall ax, Matrix3d.isRigid (rotation (snd (rotateCameraWorld view angle ax aboutPt)))).
  { intros ax. unfold rotateCameraWorld.
    destruct (Matrix3d.createRotationAroundVector ax angle); [|exact Hr].
    apply lookAt_rotation_rigid; assumption. }
  assert (Hmove : forall d, Matrix3d.isRigid (rotation (snd (moveCameraWorld view d)))).
  { intros d. unfold moveCameraWorld.
    destruct (negb (_cameraOn view)); [exact Hr|].
    apply lookAt_rotation_rigid; assumption. }
  repeat split; try apply Hrot; try apply Hmove.
Qed.
End MoreSolver.

Section MoreSolverSample.
Import Vector3d.

Lemma rotateCameraWorld_rotation_rigid_witness :
  Matrix3d.isRigid
    (rotation (snd (@rotateCameraWorld sampleConstants sampleView (createRadians 1)
                      (mkXYZ 0 0 1) None))) /\
  Matrix3d.isRigid
    (rotation (snd (@moveCameraWorld sampleConstants sampleView (mkXYZ 0 0 1)))).
Proof.
  destruct (@rotateCameraWorld_rotation_rigid sampleConstants sampleView (createRadians 1)
              (mkXYZ 0 0 1) None) as (H1 & _ & H3 & _).
  - simpl. lra.
  - exact rigid_identity.
  - split; assumption.
Defined.

Lemma explodingFrustum_spans :
  distance (points explodingFrustum LeftBottomRear) (points explodingFrustum RightBottomRear) = 1 /\
  distance (points explodingFrustum LeftBottomFront) (points explodingFrustum RightBottomFront) = 2.
Proof.
  split; apply magnitude_of_square; try lra; unfold dotProduct, createStartEnd; simpl; ring.
Qed.

Lemma ViewState3d_setupFromFrustum_exploding_witness :
  fst (@ViewState3d_setupFromFrustum sampleConstants cameraOnView explodingFrustum) = InvalidWindow.
Proof.
  apply (@ViewState3d_setupFromFrustum_exploding sampleConstants cameraOnView explodingFrustum).
  destruct explodingFrustum_spans as [Eb Ef]. rewrite Eb, Ef. lra.
Defined.

(** The frustum whose eight corners are all at the origin. *)
Lemma pointFrustum_base :
  fst (@setupFromFrustum sampleConstants _ _ sampleView
         (Frustum.mapPoints (fun _ => mkXYZ 0 0 0) Frustum.initNpc)) = InvalidWindow.
Proof.
  unfold setupFromFrustum, Frustum.fixPointOrder, Frustum.hasMirror.
  unfold tripleProduct, dotProduct, crossProduct, vectorTo, createStartEnd; simpl.
  match goal with |- context [Rlt_dec 0 ?t] => destruct (Rlt_dec 0 t) as [H|]; [exfalso; lra|] end.
  simpl. unfold Matrix3d.createRigidFromColumns.
  rewrite (@normalize_short sampleConstants); [reflexivity|].
  unfold minus; simpl.
  rewrite (magnitude_of_square _ 0); [simpl; lra | lra | unfold dotProduct; simpl; ring].
Qed.

Lemma ViewState3d_setupFromFrustum_base_rejects_witness :
  @ViewState3d_setupFromFrustum sampleConstants sampleView
    (Frustum.mapPoints (fun _ => mkXYZ 0 0 0) Frustum.initNpc) = (InvalidWindow, sampleView).
Proof.
  apply (@ViewState3d_setupFromFrustum_base_rejects sampleConstants).
  rewrite pointFrustum_base. discriminate.
Defined.
End MoreSolverSample.

(* ================================================================== *)
(** * The fraction of a perspective view *)

Section FractionFloor.
Context {K : Constants}.
Import Vector3d.

End FractionFloor.


(* ================================================================== *)
(** * Undo *)

Section Undo.
Context {K : Constants}.
Import Vector3d.

Lemma lookAt_settings
  (view : ViewState3d) (eyePoint targetPoint : XYZ) (upVector : Vector3d)
  (newExtents : option XAndY) (frontDistance backDistance : option R) :
  viewSettings (snd (lookAt view eyePoint targetPoint upVector newExtents frontDistance
                       backDistance)) = viewSettings view.
Proof.
  unfold lookAt.
  destruct (normalize upVector); [|reflexivity].
  repeat (match goal with |- viewSettings (snd (if ?c then _ else _)) = _ => destruct c end;
          [reflexivity|]).
  match goal with |- context [fst (validateViewDelta ?a ?b ?c)] =>
    destruct (fst (validateViewDelta a b c)) end; try reflexivity.
  match goal with |- viewSettings (snd (if ?c then _ else _)) = _ => destruct c end;
    [reflexivity|].
  cbn [snd]. unfold ViewState3d.enableCamera, viewSettings.
  destruct view as [on o e r c fm lim dlim skew sup]. destruct sup; reflexivity.
Qed.

Lemma lookAtUsingLensAngle_settings
  (view : ViewState3d) (eyePoint targetPoint : Point3d) (upVector : Vector3d) (fov : Angle)
  (frontDistance backDistance : option R) :
  viewSettings (snd (lookAtUsingLensAngle view eyePoint targetPoint upVector fov frontDistance
                       backDistance)) = viewSettings view.
Proof.
  unfold lookAtUsingLensAngle.
  repeat (match goal with |- viewSettings (snd (if ?c then _ else _)) = _ => destruct c end;
          [reflexivity|]).
  apply lookAt_settings.
Qed.

Lemma moveCameraWorld_settings (view : ViewState3d) (distance : Vector3d) :
  viewSettings (snd (moveCameraWorld view distance)) = viewSettings view.
Proof.
  unfold moveCameraWorld. destruct (negb (_cameraOn view)); [reflexivity|].
  apply lookAt_settings.
Qed.

Lemma rotateCameraWorld_settings
  (view : ViewState3d) (angle : Angle) (axis : Vector3d) (aboutPt : option Point3d) :
  viewSettings (snd (rotateCameraWorld view angle axis aboutPt)) = viewSettings view.
Proof.
  unfold rotateCameraWorld.
  destruct (Matrix3d.createRotationAroundVector axis angle); [|reflexivity].
  apply lookAt_settings.
Qed.

Lemma verifyFocusPlane_settings (view : ViewState3d) :
  viewSettings (verifyFocusPlane view) = viewSettings view.
Proof.
  unfold verifyFocusPlane.
  destruct (negb (_cameraOn view)); [reflexivity|].
  repeat (match goal with |- viewSettings (if ?c then _ else _) = _ => destruct c end;
          try reflexivity).
Qed.

Lemma ViewState3d_setupFromFrustum_settings (view : ViewState3d) (frustum : Frustum) :
  viewSettings (snd (ViewState3d_setupFromFrustum view frustum)) = viewSettings view.
Proof.
  assert (Hbase : viewSettings (snd (setupFromFrustum view frustum)) = viewSettings view).
  { unfold setupFromFrustum.
    destruct (Matrix3d.createRigidFromColumns _ _ _); [|reflexivity].
    destruct (Matrix3d.inverse _); [|reflexivity].
    destruct (Rlt_dec _ 0); reflexivity. }
  unfold ViewState3d_setupFromFrustum.
  destruct (setupFromFrustum view frustum) as [st v1]. cbn [snd] in Hbase.
  destruct st; try reflexivity.
  repeat (match goal with |- viewSettings (snd (if ?c then _ else _)) = _ => destruct c end;
          [exact Hbase|]).
  cbn [snd]. rewrite <- Hbase. unfold ViewState3d.enableCamera, viewSettings.
  destruct v1 as [on o e r c fm lim dlim skew sup]. destruct sup; reflexivity.
Qed.

Lemma setRotationAboutPoint_settings
  (view : ViewState3d) (rotation : Matrix3d) (point : option Point3d) :
  viewSettings (setRotationAboutPoint view rotation point) = viewSettings view.
Proof.
  unfold setRotationAboutPoint.
  destruct (Matrix3d.inverse rotation); [|reflexivity].
  destruct (calculateFrustum view) as [frustum|]; [|reflexivity].
  unfold callSetupFromFrustum. cbn [is3d update3d ViewState3d_isViewState].
  match goal with |- context [ViewState3d_setupFromFrustum ?v ?f] =>
    pose proof (ViewState3d_setupFromFrustum_settings v f) as H;
    destruct (ViewState3d_setupFromFrustum v f) end.
  exact H.
Qed.

Lemma adjustAspectRatio_settings (view view' : ViewState3d) (windowAspect : R) :
  adjustAspectRatio view windowAspect = Some view' -> viewSettings view' = viewSettings view.
Proof.
  unfold adjustAspectRatio.
  destruct (Rlt_dec _ _); [intros E; injection E as <-; reflexivity|].
  destruct (Transform.inverse _); [|discriminate].
  intros E; injection E as <-. reflexivity.
Qed.

Lemma lookAtViewAlignedVolume_settings
  (view view' : ViewState3d) (volume : Range3d) (aspect : option R)
  (margin : option MarginPercent) :
  lookAtViewAlignedVolume view volume aspect margin = Some view' ->
  viewSettings view' = viewSettings view.
Proof.
  unfold lookAtViewAlignedVolume.
  destruct (Range3d.isNull volume); [intros E; injection E as <-; reflexivity|].
  repeat match goal with
         | |- context [let '(_, _) := ?c in _] => destruct c
         end.
  match goal with
  | |- match ?adj with Some _ => _ | None => _ end = _ -> _ =>
    destruct adj as [v1|] eqn:Hadj; [|discriminate]
  end.
  assert (H1 : viewSettings v1 = viewSettings view).
  { destruct aspect as [a|].
    - destruct (Req_dec_T a 0).
      + injection Hadj as <-. reflexivity.
      + apply adjustAspectRatio_settings in Hadj. rewrite Hadj. reflexivity.
    - injection Hadj as <-. reflexivity. }
  cbn [is3d update3d ViewState3d_isViewState].
  intros E; injection E as <-.
  rewrite verifyFocusPlane_settings. exact H1.
Qed.

Lemma callManipulation_settings (view view' : ViewState3d) (op : ViewManipulation) :
  callManipulation view op = Some view' -> viewSettings view' = viewSettings view.
Proof.
  destruct op; cbn [callManipulation]; try (intros E; injection E as <-).
  - reflexivity.
  - reflexivity.
  - reflexivity.
  - reflexivity.
  - reflexivity.
  - reflexivity.
  - reflexivity.
  - apply lookAt_settings.
  - apply lookAtUsingLensAngle_settings.
  - apply moveCameraWorld_settings.
  - apply moveCameraWorld_settings.
  - apply rotateCameraWorld_settings.
  - apply rotateCameraWorld_settings.
  - reflexivity.
  - apply lookAtUsingLensAngle_settings.
  - apply verifyFocusPlane_settings.
  - apply ViewState3d_setupFromFrustum_settings.
  - apply setRotationAboutPoint_settings.
  - apply lookAtViewAlignedVolume_settings.
  - apply lookAtViewAlignedVolume_settings.
Qed.

Lemma callManipulations_settings (ops : list ViewManipulation) (view view' : ViewState3d) :
  callManipulations view ops = Some view' -> viewSettings view' = viewSettings view.
Proof.
  revert view. induction ops as [|op rest IH]; intros view; cbn [callManipulations].
  - intros E; injection E as <-. reflexivity.
  - destruct (callManipulation view op) as [v1|] eqn:Hop; [|discriminate].
    intros Hrest. rewrite (IH _ Hrest). exact (callManipulation_settings _ _ _ Hop).
Qed.

End Undo.

Section UndoSample.
Import Vector3d.

End UndoSample.

(* ================================================================== *)
(** * The camera after [lookAt] *)

Section LookAtResult.
Context {K : Constants}.
Import Vector3d.

Lemma magnitude_reverse (a b : XYZ) :
  magnitude (createStartEnd a b) = magnitude (createStartEnd b a).
Proof.
  unfold magnitude, magnitudeSquared. f_equal.
  unfold dotProduct, createStartEnd; simpl. ring.
Qed.

(** What a successful [lookAt] went through, and what it stored. *)
Lemma lookAt_success_inv
  (view : ViewState3d) (eyePoint targetPoint : XYZ) (upVector : Vector3d)
  (newExtents : option XAndY) (frontDistance backDistance : option R) :
  let result := lookAt view eyePoint targetPoint upVector newExtents frontDistance backDistance in
  let m := magnitude (createStartEnd targetPoint eyePoint) in
  let zVec := scale (createStartEnd targetPoint eyePoint) (1 / m) in
  fst result = Success ->
  exists yVec0 xVec yVec,
    normalize upVector = Some yVec0 /\
    m <> 0 /\ ~ m < smallMetricDistance /\ ViewState3d.minimumFrontDistance view < m /\
    xVec = match v (normalizeWithLength (crossProduct yVec0 zVec)) with
           | Some u => u
           | None => createZero
           end /\
    ~ mag (normalizeWithLength (crossProduct yVec0 zVec)) < smallMetricDistance /\
    yVec = match v (normalizeWithLength (crossProduct zVec xVec)) with
           | Some u => u
           | None => yVec0
           end /\
    ~ mag (normalizeWithLength (crossProduct zVec xVec)) < smallMetricDistance /\
    rotation (snd result) = Matrix3d.createRows xVec yVec zVec /\
    eye (camera (snd result)) = eyePoint /\
    focusDist (camera (snd result)) = m /\
    x (extents (snd result)) = match newExtents with
                               | Some e => Rabs (x2 e)
                               | None => x (extents view)
                               end /\
    y (extents (snd result)) = match newExtents with
                               | Some e => Rabs (y2 e)
                               | None => y (extents view)
                               end /\
    lens (camera (snd result)) = ViewState3d.calcLensAngle (snd result) /\
    _cameraOn (snd result) = (supportsCamera view || _cameraOn view)%bool.
Proof.
  intros result m zVec.
  remember (lookAt view eyePoint targetPoint upVector newExtents frontDistance backDistance)
    as r eqn:Er.
  subst result. unfold lookAt in Er. rewrite xyz_eta in Er.
  pose proof (minimumFrontDistance_pos view) as Hmin.
  destruct (normalize upVector) as [yVec0|]; [|subst r; simpl; discriminate].
  destruct (normalizeWithLength_cases (createStartEnd targetPoint eyePoint))
    as [Hz | (Sz & Nz & Hz)]; rewrite Hz in Er; cbn [v mag] in Er.
  { destruct (Rle_dec 0 (ViewState3d.minimumFrontDistance view)); [subst r; simpl; discriminate | lra]. }
  fold m in Er, Sz, Nz. fold zVec in Er.
  clearbody zVec. clearbody m. clear Hz.
  destruct (Rle_dec _ _) as [|Hfocus] in Er; [subst r; simpl; discriminate|].
  destruct (Rlt_dec _ _) as [|Hx] in Er; [subst r; simpl; discriminate|].
  destruct (Rlt_dec _ _) as [|Hy] in Er; [subst r; simpl; discriminate|].
  match type of Er with context [fst (validateViewDelta ?a ?b ?c)] =>
    destruct (fst (validateViewDelta a b c)) end; try (subst r; simpl; discriminate).
  destruct (Rlt_dec _ _) in Er; [subst r; simpl; discriminate|].
  intros _. subst r. cbn [snd].
  eexists; eexists; eexists.
  split; [reflexivity|]. split; [exact Nz|]. split; [exact Sz|]. split; [lra|].
  split; [reflexivity|]. split; [exact Hx|]. split; [reflexivity|]. split; [exact Hy|].
  unfold ViewState3d.enableCamera.
  destruct view as [on o e r c fm lim dlim skew sup].
  destruct sup; view_fields; destruct newExtents; repeat split; reflexivity.
Qed.
End LookAtResult.

Section LensAngle.
Context {K : Constants}.
Import Vector3d.

Lemma Rmax_scale (a b k : R) : 0 <= k -> Rmax (a * k) (b * k) = Rmax a b * k.
Proof.
  intros Hk. unfold Rmax.
  destruct (Rle_dec a b) as [Hab | Hab]; destruct (Rle_dec (a * k) (b * k)) as [H | H];
    try reflexivity.
  - exfalso. apply H. apply Rmult_le_compat_r; assumption.
  - apply Rle_antisym; [apply Rmult_le_compat_r; lra | exact H].
Qed.

(** X13.  The lens of [lookAtUsingLensAngle].  For a view with extents that
    are not negative and not both zero and a field of view other than pi,
    a successful [lookAtUsingLensAngle] stores the field of view it was given
    as the lens angle, the distance from the eye to the target as the focus
    distance, and X and Y extents in the proportion they had. *)
Theorem lookAtUsingLensAngle_sets_lens
  (view : ViewState3d) (eyePoint targetPoint : Point3d) (upVector : Vector3d) (fov : Angle)
  (frontDistance backDistance : option R) :
  let result :=
    lookAtUsingLensAngle view eyePoint targetPoint upVector fov frontDistance backDistance in
  0 <= x (extents view) -> 0 <= y (extents view) ->
  0 < Rmax (x (extents view)) (y (extents view)) ->
  radians fov <> PI ->
  fst result = Success ->
  ViewState3d.getLensAngle (snd result) = fov /\
  ViewState3d.getFocusDistance (snd result) = distance eyePoint targetPoint /\
  Rmax (x (extents (snd result))) (y (extents (snd result)))
    = 2 * tan (radians fov / 2) * distance eyePoint targetPoint /\
  x (extents (snd result)) * y (extents view) = y (extents (snd result)) * x (extents view).
Proof.
  intros result Hx Hy Hmax Hpi. subst result. unfold lookAtUsingLensAngle.
  destruct (Rle_dec _ _) as [|Hfar]; [simpl; discriminate|].
  destruct (Rlt_dec (radians fov) 0.0001) as [|Hlo]; [simpl; discriminate|].
  destruct (Rlt_dec PI (radians fov)) as [|Hhi]; [simpl; discriminate|].
  set (focus := magnitude (vectorTo eyePoint targetPoint)) in *.
  set (L := Rmax (x (extents view)) (y (extents view))) in *.
  set (extent := 2.0 * tan (radians fov / 2.0) * focus).
  cbn [x2 y2]. fold L. fold extent.
  intros Hs.
  destruct (lookAt_success_inv _ _ _ _ _ _ _ Hs)
    as (yVec0 & xVec & yVec & _ & Nz & _ & Hmin & _ & _ & _ & _ & _ & _ & Hf & Ex & Ey & Hl & _).
  cbn [x2 y2] in Ex, Ey.
  pose proof (minimumFrontDistance_pos view) as Hmfd.
  assert (Efocus : magnitude (createStartEnd targetPoint eyePoint) = focus).
  { unfold focus, vectorTo. apply magnitude_reverse. }
  rewrite Efocus in *.
  assert (Hhalf : - (PI / 2) < radians fov / 2 < PI / 2) by (split; lra).
  assert (Htan : 0 < tan (radians fov / 2)) by (apply tan_gt_0; lra).
  assert (Hext : 0 < extent).
  { unfold extent. replace (radians fov / 2.0) with (radians fov / 2) by lra.
    apply Rmult_lt_0_compat; [|lra]. lra. }
  assert (Hk : 0 < extent / L) by (apply Rdiv_lt_0_compat; assumption).
  rewrite (Rabs_pos_eq (x (extents view) * _)) in Ex by (apply Rmult_le_pos; lra).
  rewrite (Rabs_pos_eq (y (extents view) * _)) in Ey by (apply Rmult_le_pos; lra).
  assert (Emax : Rmax (x (extents view) * (extent / L)) (y (extents view) * (extent / L)) = extent).
  { rewrite Rmax_scale by lra. fold L. field. lra. }
  unfold ViewState3d.getLensAngle, ViewState3d.getFocusDistance.
  rewrite Hl, Hf. unfold ViewState3d.calcLensAngle, Camera.getFocusDistance.
  rewrite Hf, Ex, Ey, Emax.
  split; [|split; [|split]].
  - unfold atan2. destruct (Rlt_dec 0 focus) as [_|Hn]; [|lra].
    replace (extent * 0.5 / focus) with (tan (radians fov / 2)).
    + rewrite atan_tan by exact Hhalf. destruct fov as [a]; cbn [radians]. f_equal. lra.
    + unfold extent. replace (radians fov / 2.0) with (radians fov / 2) by lra.
      replace (2.0 * tan (radians fov / 2) * focus * 0.5) with (tan (radians fov / 2) * focus)
        by lra.
      field. lra.
  - unfold distance, focus, vectorTo. reflexivity.
  - unfold extent, distance, focus, vectorTo.
    replace (radians fov / 2.0) with (radians fov / 2) by lra. lra.
  - ring.
Qed.
End LensAngle.

Section LensAngleSample.
Import Vector3d.

Lemma normalizeWithLength_unit_sample (u : Vector3d) :
  dotProduct u u = 1 -> @normalizeWithLength sampleConstants u = mkNormalized (Some u) 1.
Proof.
  intros Hu. apply normalizeWithLength_value; simpl; lra.
Qed.

(** [lookAtUsingLensAngle] on the sample view, from (0, 0, 100) at the
    origin, with a right angle as the field of view. *)
Lemma lookAtUsingLensAngle_sample_status :
  fst (@lookAtUsingLensAngle sampleConstants sampleView (mkXYZ 0 0 100) (mkXYZ 0 0 0) (mkXYZ 0 1 0)
         (createRadians (PI / 2)) None None) = Success.
Proof.
  pose proof PI_gt_3 as Hpi3. pose proof PI_4 as Hpi4.
  unfold lookAtUsingLensAngle. rewrite magnitude_eye_target. cbn [radians].
  unfold Constant.oneMillimeter.
  repeat decide_cmp.
  replace (PI / 2 / 2.0) with (PI / 4) by lra. rewrite tan_PI4.
  cbn [x y z extents sampleView x2 y2].
  repeat decide_Rmax.
  unfold lookAt. cbn [x y z].
  rewrite normalize_unitY_sample.
  rewrite (@normalizeWithLength_value sampleConstants
             (createStartEnd (mkXYZ 0 0 0) (mkXYZ 0 0 100)) (mkXYZ 0 0 1) 100);
    [| lra | simpl; lra | unfold dotProduct; simpl; lra | simpl; lra | simpl; lra | simpl; lra].
  cbn [v mag].
  rewrite (normalizeWithLength_unit_sample (crossProduct (mkXYZ 0 1 0) (mkXYZ 0 0 1)));
    [| unfold dotProduct, crossProduct; simpl; ring].
  cbn [v mag].
  rewrite (normalizeWithLength_unit_sample
             (crossProduct (mkXYZ 0 0 1) (crossProduct (mkXYZ 0 1 0) (mkXYZ 0 0 1))));
    [| unfold dotProduct, crossProduct; simpl; ring].
  cbn [v mag orElse smallMetricDistance sampleConstants].
  unfold ViewState3d.minimumFrontDistance, ViewState3d.getBackDistance,
    ViewState3d.getFrontDistance, ViewState3d.getBackDistance, ViewState3d.getEyePoint,
    ViewState3d.getRotation, Matrix3d.multiplyVector, dotProduct, vectorTo, createStartEnd,
    Constant.oneCentimeter, Constant.oneMeter, Constant.oneMillimeter.
  cbn [x y z extents origin rotation camera eye forceMinFrontDist sampleView
       Matrix3d.rowX Matrix3d.rowY Matrix3d.rowZ Matrix3d.createIdentity
       xx xy xz yx yy yz zx zy zz x2 y2].
  repeat decide_Rmax. repeat decide_cmp.
  rewrite validateViewDelta_xy_within;
    [| cbn [scale x y z]; simpl; unfold Constant.oneMillimeter; repeat decide_Rmax; lra
     | cbn [scale x y z]; simpl; unfold Constant.oneMillimeter; repeat decide_Rmax; lra].
  unfold ViewState3d.calculateMaxDepth. cbn [x y z].
  repeat decide_Rmax. repeat decide_cmp. reflexivity.
Qed.

Lemma lookAtUsingLensAngle_sets_lens_witness :
  fst (@lookAtUsingLensAngle sampleConstants sampleView (mkXYZ 0 0 100) (mkXYZ 0 0 0) (mkXYZ 0 1 0)
         (createRadians (PI / 2)) None None) = Success /\
  ViewState3d.getLensAngle
    (snd (@lookAtUsingLensAngle sampleConstants sampleView (mkXYZ 0 0 100) (mkXYZ 0 0 0)
            (mkXYZ 0 1 0) (createRadians (PI / 2)) None None)) = createRadians (PI / 2).
Proof.
  split; [exact lookAtUsingLensAngle_sample_status|].
  apply (@lookAtUsingLensAngle_sets_lens sampleConstants sampleView (mkXYZ 0 0 100) (mkXYZ 0 0 0)
           (mkXYZ 0 1 0) (createRadians (PI / 2)) None None).
  - simpl. lra.
  - simpl. lra.
  - simpl. rewrite Rmax_left; lra.
  - simpl. pose proof PI_gt_3. lra.
  - exact lookAtUsingLensAngle_sample_status.
Defined.
End LensAngleSample.

Section CameraMoves.
Context {K : Constants}.
Import Vector3d.

(** With the camera on, the target point is where [lookAt] was told. *)
Lemma lookAt_success_target
  (view : ViewState3d) (eyePoint targetPoint : XYZ) (upVector : Vector3d)
  (newExtents : option XAndY) (frontDistance backDistance : option R) :
  let result := lookAt view eyePoint targetPoint upVector newExtents frontDistance backDistance in
  fst result = Success -> _cameraOn (snd result) = true ->
  getTargetPoint (snd result) = targetPoint.
Proof.
  intros result Hs Hon.
  destruct (lookAt_success_inv _ _ _ _ _ _ _ Hs)
    as (yVec0 & xVec & yVec & _ & Nz & _ & _ & _ & _ & _ & _ & Hrot & He & Hf & _).
  fold result in Hrot, He, Hf.
  rewrite (getTargetPoint_cameraOn _ Hon), Hrot, He, Hf, rowZ_createRows.
  apply plusScaled_to_target. exact Nz.
Qed.

(** X14.  A successful [rotateCameraWorld] or [rotateCameraLocal] leaves
    the eye where it was, whatever point the rotation is about: it is the
    target that is taken around that point, and the camera is pointed at it
    from the old eye point. *)
Theorem rotateCameraWorld_keeps_eye
  (view : ViewState3d) (angle : Angle) (axis : Vector3d) (aboutPt : option Point3d)
  (rotation : Matrix3d) :
  let result := rotateCameraWorld view angle axis aboutPt in
  let about := match aboutPt with Some p => p | None => ViewState3d.getEyePoint view end in
  Matrix3d.createRotationAroundVector axis angle = Some rotation ->
  fst result = Success ->
  ViewState3d.getEyePoint (snd result) = ViewState3d.getEyePoint view /\
  (ViewState3d.isCameraOn (snd result) = true ->
   getTargetPoint (snd result) =
   Transform.multiplyPoint3d (Transform.createFixedPointAndMatrix about rotation)
     (getTargetPoint view)).
Proof.
  intros result about Hrot. subst result about. unfold rotateCameraWorld. rewrite Hrot.
  intros Hs. split.
  - destruct (lookAt_success_inv _ _ _ _ _ _ _ Hs)
      as (yVec0 & xVec & yVec & _ & _ & _ & _ & _ & _ & _ & _ & _ & He & _).
    exact He.
  - intros Hon. apply (lookAt_success_target _ _ _ _ _ _ _ Hs Hon).
Qed.

(** The unit vector along a unit vector. *)
Lemma normalizeWithLength_unit (u : Vector3d) :
  dotProduct u u = 1 -> ~ 1 < smallMetricDistance ->
  normalizeWithLength u = mkNormalized (Some u) 1.
Proof.
  intros Hu Hs. apply normalizeWithLength_value; lra.
Qed.

(** X15.  A successful [moveCameraWorld] on a view with its camera on, a
    rigid rotation and a positive focus distance moves the eye and the target
    by the distance and keeps the rotation, the focus distance and the X and Y
    extents. *)
Theorem moveCameraWorld_keeps_orientation (view : ViewState3d) (distance : Vector3d) :
  let result := moveCameraWorld view distance in
  _cameraOn view = true ->
  Matrix3d.isRigid (rotation view) ->
  0 < focusDist (camera view) ->
  fst result = Success ->
  rotation (snd result) = rotation view /\
  ViewState3d.getEyePoint (snd result) = plus (ViewState3d.getEyePoint view) distance /\
  ViewState3d.getFocusDistance (snd result) = ViewState3d.getFocusDistance view /\
  x (extents (snd result)) = x (extents view) /\
  y (extents (snd result)) = y (extents view) /\
  (ViewState3d.isCameraOn (snd result) = true ->
   getTargetPoint (snd result) = plus (getTargetPoint view) distance).
Proof.
  intros result Hon Hr Hf. subst result. unfold moveCameraWorld. rewrite Hon. cbn [negb].
  intros Hs.
  pose proof (lookAt_success_target _ _ _ _ _ _ _ Hs) as Htarget.
  destruct (lookAt_success_inv _ _ _ _ _ _ _ Hs)
    as (yVec0 & xVec & yVec & Hup & Nz & Sz & _ & Ex & _ & Ey & _ & Hrot & He & Hfd & Hx & Hy & _).
  pose proof (rigid_cross_YZ _ Hr) as EX. pose proof (rigid_cross_ZX _ Hr) as EY.
  destruct Hr as (H1 & H2 & H3 & H12 & H13 & H23 & Hd).
  (* the vector from the new target to the new eye *)
  assert (Ez : createStartEnd (plus (getTargetPoint view) distance)
                              (plus (ViewState3d.getEyePoint view) distance)
               = scale (Matrix3d.rowZ (rotation view)) (focusDist (camera view))).
  { rewrite (getTargetPoint_cameraOn _ Hon).
    unfold ViewState3d.getEyePoint, createStartEnd, plus, plusScaled, scale.
    destruct (eye (camera view)) as [ex ey ez], distance as [dx dy dz],
      (Matrix3d.rowZ (rotation view)) as [zx0 zy0 zz0]; cbn [x y z].
    f_equal; lra. }
  rewrite Ez in *.
  assert (Em : magnitude (scale (Matrix3d.rowZ (rotation view)) (focusDist (camera view)))
               = focusDist (camera view)).
  { apply magnitude_scale_unit; [lra | exact H3]. }
  rewrite Em in *.
  rewrite scale_scale_inv in * by lra.
  (* the up vector is the Y row *)
  change (getYVector view) with (Matrix3d.rowY (rotation view)) in Hup.
  apply normalize_Some_unit in Hup. destruct Hup as (_ & Ey0 & _ & Sy).
  rewrite (magnitude_unit _ H2) in Ey0, Sy. rewrite scale_one in Ey0. subst yVec0.
  rewrite EX in Ex. rewrite (normalizeWithLength_unit _ H1 Sy) in Ex. cbn [v] in Ex. subst xVec.
  rewrite EY in Ey. rewrite (normalizeWithLength_unit _ H2 Sy) in Ey. cbn [v] in Ey. subst yVec.
  rewrite createRows_rows in Hrot.
  unfold ViewState3d.getEyePoint, ViewState3d.getFocusDistance.
  repeat split; try assumption.
Qed.
End CameraMoves.

Section CameraMovesSample.
Import Vector3d.

(** Arithmetic on the coordinates of concrete vectors. *)
Ltac vec_arith :=
  unfold getTargetPoint, getYVector, Transform.multiplyPoint3d,
    Transform.createFixedPointAndMatrix, Matrix3d.multiplyVector, dotProduct, crossProduct,
    plus, minus, plusScaled, scale, createStartEnd, ViewState3d.getFocusDistance,
    ViewState3d.getEyePoint, ViewState3d.getRotation;
  simpl; lra.

(** Evaluate [lookAt] on [cameraOnView] once the frame is known. *)
Ltac lookAt_cameraOnView :=
  cbn [v mag orElse smallMetricDistance sampleConstants];
  unfold ViewState3d.minimumFrontDistance, ViewState3d.getBackDistance,
    ViewState3d.getFrontDistance, ViewState3d.getBackDistance, ViewState3d.getEyePoint,
    ViewState3d.getRotation, Matrix3d.multiplyVector, dotProduct, vectorTo, createStartEnd,
    Constant.oneCentimeter, Constant.oneMeter, Constant.oneMillimeter;
  cbn [x y z extents origin rotation camera eye forceMinFrontDist cameraOnView
       Matrix3d.rowX Matrix3d.rowY Matrix3d.rowZ Matrix3d.createIdentity
       xx xy xz yx yy yz zx zy zz x2 y2];
  repeat decide_Rmax; repeat decide_cmp;
  rewrite validateViewDelta_xy_within;
    [| cbn [scale x y z]; simpl; unfold Constant.oneMillimeter; repeat decide_Rmax; lra
     | cbn [scale x y z]; simpl; unfold Constant.oneMillimeter; repeat decide_Rmax; lra];
  unfold ViewState3d.calculateMaxDepth; cbn [x y z];
  repeat decide_Rmax; repeat decide_cmp; reflexivity.


Lemma moveCameraWorld_sample_status :
  fst (@moveCameraWorld sampleConstants cameraOnView (mkXYZ 1 0 0)) = Success.
Proof.
  unfold moveCameraWorld. cbn [negb _cameraOn cameraOnView].
  unfold lookAt. cbn [x y z].
  change (getYVector cameraOnView) with (mkXYZ 0 1 0).
  rewrite normalize_unitY_sample.
  rewrite (@normalizeWithLength_value sampleConstants _ (mkXYZ 0 0 1) 5);
    [| lra | simpl; lra | vec_arith | vec_arith | vec_arith | vec_arith].
  cbn [v mag].
  rewrite (normalizeWithLength_unit_sample (crossProduct (mkXYZ 0 1 0) (mkXYZ 0 0 1)));
    [| unfold dotProduct, crossProduct; simpl; ring].
  cbn [v mag].
  rewrite (normalizeWithLength_unit_sample
             (crossProduct (mkXYZ 0 0 1) (crossProduct (mkXYZ 0 1 0) (mkXYZ 0 0 1))));
    [| unfold dotProduct, crossProduct; simpl; ring].
  lookAt_cameraOnView.
Qed.

Lemma moveCameraWorld_keeps_orientation_witness :
  fst (@moveCameraWorld sampleConstants cameraOnView (mkXYZ 1 0 0)) = Success /\
  rotation (snd (@moveCameraWorld sampleConstants cameraOnView (mkXYZ 1 0 0)))
    = Matrix3d.createIdentity /\
  ViewState3d.getEyePoint (snd (@moveCameraWorld sampleConstants cameraOnView (mkXYZ 1 0 0)))
    = mkXYZ (5 + 1) (5 + 0) (5.5 + 0).
Proof.
  split; [exact moveCameraWorld_sample_status|].
  destruct (@moveCameraWorld_keeps_orientation sampleConstants cameraOnView (mkXYZ 1 0 0))
    as (H1 & H2 & _).
  - reflexivity.
  - exact rigid_identity.
  - simpl. lra.
  - exact moveCameraWorld_sample_status.
  - split; [exact H1 | exact H2].
Defined.

(** The half turn about the Z axis. *)
Lemma createRotationAroundVector_half_turn :
  @Matrix3d.createRotationAroundVector sampleConstants (mkXYZ 0 0 1) (createRadians PI)
  = Some (createRowValues (-1) 0 0 0 (-1) 0 0 0 1).
Proof.
  unfold Matrix3d.createRotationAroundVector, normalize.
  rewrite (normalizeWithLength_unit_sample (mkXYZ 0 0 1));
    [| unfold dotProduct; simpl; ring].
  cbn [v radians x y z]. rewrite cos_PI, sin_PI. f_equal. f_equal; ring.
Qed.

(** A half roll of the camera of [cameraOnView] about its own axis. *)
Lemma rotateCameraWorld_sample_status :
  fst (@rotateCameraWorld sampleConstants cameraOnView (createRadians PI) (mkXYZ 0 0 1) None)
  = Success.
Proof.
  unfold rotateCameraWorld. rewrite createRotationAroundVector_half_turn.
  unfold lookAt. cbn [x y z].
  change (getYVector cameraOnView) with (mkXYZ 0 1 0).
  assert (Eup : @normalize sampleConstants
                  (Matrix3d.multiplyVector (createRowValues (-1) 0 0 0 (-1) 0 0 0 1) (mkXYZ 0 1 0))
                = Some (mkXYZ 0 (-1) 0)).
  { unfold normalize.
    rewrite (@normalizeWithLength_value sampleConstants _ (mkXYZ 0 (-1) 0) 1);
      [reflexivity | lra | simpl; lra | vec_arith | vec_arith | vec_arith | vec_arith]. }
  rewrite Eup.
  rewrite (@normalizeWithLength_value sampleConstants _ (mkXYZ 0 0 1) 5);
    [| lra | simpl; lra | vec_arith | vec_arith | vec_arith | vec_arith].
  cbn [v mag].
  rewrite (normalizeWithLength_unit_sample (crossProduct (mkXYZ 0 (-1) 0) (mkXYZ 0 0 1)));
    [| unfold dotProduct, crossProduct; simpl; ring].
  cbn [v mag].
  rewrite (normalizeWithLength_unit_sample
             (crossProduct (mkXYZ 0 0 1) (crossProduct (mkXYZ 0 (-1) 0) (mkXYZ 0 0 1))));
    [| unfold dotProduct, crossProduct; simpl; ring].
  lookAt_cameraOnView.
Qed.

Lemma rotateCameraWorld_keeps_eye_witness :
  fst (@rotateCameraWorld sampleConstants cameraOnView (createRadians PI) (mkXYZ 0 0 1) None)
    = Success /\
  ViewState3d.getEyePoint
    (snd (@rotateCameraWorld sampleConstants cameraOnView (createRadians PI) (mkXYZ 0 0 1) None))
    = mkXYZ 5 5 5.5.
Proof.
  split; [exact rotateCameraWorld_sample_status|].
  apply (@rotateCameraWorld_keeps_eye sampleConstants cameraOnView (createRadians PI)
           (mkXYZ 0 0 1) None _ createRotationAroundVector_half_turn
           rotateCameraWorld_sample_status).
Defined.
End CameraMovesSample.

(* ================================================================== *)
(** * The fit of a volume *)

Section VolumeFit.
Import Vector3d.

(** [adjustAspectRatio] has a result when the rotation is rigid; it keeps
    the rotation and the camera. *)
Lemma adjustAspectRatio_rigid (view : ViewState3d) (windowAspect : R) :
  Matrix3d.isRigid (rotation view) ->
  exists view',
    adjustAspectRatio view windowAspect = Some view' /\
    rotation view' = rotation view /\ _cameraOn view' = _cameraOn view.
Proof.
  intros Hr. unfold adjustAspectRatio.
  destruct (Rlt_dec _ _); [exists view; repeat split|].
  unfold Transform.inverse. cbn [trMatrix].
  change (getRotation view) with (rotation view). rewrite (inverse_rigid _ Hr).
  eexists. split; [reflexivity|]. repeat split.
Qed.

(** The fit of a volume in a 3d view whose camera is off, given the origin
    [o1], the delta [d1] and the reference delta [orig] that the margins
    leave, and the view [v1] that the adjustment of the aspect ratio
    leaves. *)
Lemma lookAtViewAlignedVolume_cameraOff
  (view v1 : ViewState3d) (volume : Range3d) (aspect : option R) (margin : option MarginPercent)
  (o1 : Point3d) (d1 orig : Vector3d) :
  let d := createStartEnd (low volume) (high volume) in
  let depth := if Rlt_dec (z d) Constant.oneMillimeter then Constant.oneMillimeter else z d in
  let o0 := mkXYZ (x (low volume)) (y (low volume)) (z (low volume) - (depth - z d) / 2.0) in
  let d0 := mkXYZ (x d) (y d) depth in
  _cameraOn view = false -> Range3d.isNull volume = false ->
  match margin with
  | Some margin =>
    let wPercent := left margin + right margin in
    let hPercent := top margin + bottom margin in
    let marginHorizontal := wPercent / (1 - wPercent) * x d0 in
    let marginVert := hPercent / (1 - hPercent) * y d0 in
    let marginLeft := left margin / (1 - wPercent) * x d0 in
    let marginBottom := bottom margin / (1 - hPercent) * y d0 in
    let newOrigin := mkXYZ (x o0 - marginLeft) (y o0 - marginBottom) (z o0) in
    let newDelta := mkXYZ (x d0 + marginHorizontal) (y d0 + marginVert) (z d0) in
    (newOrigin, newDelta, newDelta)
  | None => (o0, scale d0 1.04, d0)
  end = (o1, d1, orig) ->
  match aspect with
  | Some a =>
    if Req_dec_T a 0
    then Some (ViewState3d.setExtents view (snd (validateViewDelta view d1 true)))
    else adjustAspectRatio (ViewState3d.setExtents view (snd (validateViewDelta view d1 true))) a
  | None => Some (ViewState3d.setExtents view (snd (validateViewDelta view d1 true)))
  end = Some v1 ->
  _cameraOn v1 = false ->
  exists view',
    lookAtViewAlignedVolume view volume aspect margin = Some view' /\
    origin view' =
      Matrix3d.multiplyTransposeVector (rotation view)
        (mkXYZ (x o1 - (x (extents v1) - x orig) / 2.0)
               (y o1 - (y (extents v1) - y orig) / 2.0)
               (z o1 - (z (extents v1) - z orig) / 2.0)) /\
    extents view' = extents v1 /\
    rotation view' = rotation v1 /\
    _cameraOn view' = false.
Proof.
  intros d depth o0 d0 Hoff Hnull Hmargin Hfit Hoff1.
  unfold lookAtViewAlignedVolume. rewrite Hnull.
  unfold isCameraOn3d. cbn [is3d ViewState3d_isViewState]. rewrite Hoff.
  fold d.
  assert (Epad : (if Rlt_dec (z d) Constant.oneMillimeter
                  then (mkXYZ (x (low volume)) (y (low volume))
                              (z (low volume) - (Constant.oneMillimeter - z d) / 2.0),
                        mkXYZ (x d) (y d) Constant.oneMillimeter)
                  else (low volume, d)) = (o0, d0)).
  { subst o0 d0 depth. destruct (Rlt_dec (z d) Constant.oneMillimeter).
    - reflexivity.
    - rewrite <- (xyz_eta (low volume)) at 1. rewrite <- (xyz_eta d) at 1.
      replace (z (low volume) - (z d - z d) / 2.0) with (z (low volume)) by lra.
      reflexivity. }
  rewrite Epad. cbv zeta in Hmargin. cbv zeta.
  rewrite Hmargin.
  change (setExtents view ?e) with (ViewState3d.setExtents view e).
  rewrite Hfit.
  cbn [is3d ViewState3d_isViewState update3d].
  unfold verifyFocusPlane.
  change (_cameraOn (centerEyePoint ?v ?b)) with (_cameraOn v1).
  rewrite Hoff1. cbn [negb].
  eexists. split; [reflexivity|].
  repeat split; try reflexivity. exact Hoff1.
Qed.

(** X16.  The fit is centered.  In a 3d view with its camera off, a rigid
    rotation, limits [0 < min <= max] and an aspect ratio skew other than
    zero (so that no quotient of the fit has a zero divisor),
    [lookAtViewAlignedVolume] without margin, whatever the aspect it is given
    and whatever the extent limits do to the extents, ends with the center of
    the view at the center of the volume (taken from view coordinates to the
    world), the rotation as it was and the camera off. *)
Theorem lookAtViewAlignedVolume_centered
  (view : ViewState3d) (volume : Range3d) (aspect : option R) :
  _cameraOn view = false ->
  Matrix3d.isRigid (rotation view) ->
  Range3d.isNull volume = false ->
  0 < min (extentLimits view) <= max (extentLimits view) ->
  ViewState3d.getAspectRatioSkew view <> 0 ->
  exists view',
    lookAtViewAlignedVolume view volume aspect None = Some view' /\
    getCenter view' =
      Matrix3d.multiplyTransposeVector (rotation view) (interpolate (low volume) 0.5 (high volume)) /\
    rotation view' = rotation view /\
    ViewState3d.isCameraOn view' = false.
Proof.
  intros Hoff Hr Hnull _ _.
  set (d := createStartEnd (low volume) (high volume)).
  set (depth := if Rlt_dec (z d) Constant.oneMillimeter then Constant.oneMillimeter else z d).
  set (d0 := mkXYZ (x d) (y d) depth).
  set (view1 := ViewState3d.setExtents view (snd (validateViewDelta view (scale d0 1.04) true))).
  assert (Hfit : exists v1,
    match aspect with
    | Some a => if Req_dec_T a 0 then Some view1 else adjustAspectRatio view1 a
    | None => Some view1
    end = Some v1 /\ rotation v1 = rotation view /\ _cameraOn v1 = false).
  { destruct aspect as [a|].
    - destruct (Req_dec_T a 0); [exists view1; repeat split; assumption|].
      destruct (adjustAspectRatio_rigid view1 a Hr) as (v1 & E & Er & Ec).
      exists v1. split; [exact E|]. split; [exact Er|]. rewrite Ec. exact Hoff.
    - exists view1; repeat split; assumption. }
  destruct Hfit as (v1 & Hfit & Hrot1 & Hoff1).
  destruct (lookAtViewAlignedVolume_cameraOff view v1 volume aspect None _ _ _ Hoff Hnull
              eq_refl Hfit Hoff1) as (view' & E & Ho & He & Hrot & Hc).
  exists view'. split; [exact E|]. split; [|split; [rewrite Hrot; exact Hrot1 | exact Hc]].
  unfold getCenter.
  change (getOrigin view') with (origin view').
  change (getRotation view') with (rotation view').
  change (getExtents view') with (extents view').
  rewrite Ho, He, Hrot, Hrot1, multiplyTransposeVector_plusScaled.
  f_equal. fold d. fold depth.
  unfold plusScaled, interpolate, d, createStartEnd. cbn [x y z].
  destruct (extents v1) as [e1 e2 e3]; cbn [x y z]. f_equal; lra.
Qed.
End VolumeFit.

Section VolumeFitSample.
Import Vector3d.

Lemma lookAtViewAlignedVolume_centered_witness :
  exists view',
    lookAtViewAlignedVolume sampleView (mkRange3d (mkXYZ 0 0 0) (mkXYZ 100 50 0)) (Some 3) None
      = Some view' /\
    getCenter view' = mkXYZ 50 25 0.
Proof.
  destruct (lookAtViewAlignedVolume_centered sampleView
              (mkRange3d (mkXYZ 0 0 0) (mkXYZ 100 50 0)) (Some 3))
    as (view' & H1 & H2 & _).
  - reflexivity.
  - exact rigid_identity.
  - unfold Range3d.isNull. cbn [low high x y z]. repeat decide_cmp. reflexivity.
  - simpl. unfold Constant.oneMillimeter. lra.
  - unfold ViewState3d.getAspectRatioSkew; simpl. lra.
  - exists view'. split; [exact H1|]. rewrite H2.
    unfold Matrix3d.multiplyTransposeVector, dotProduct, interpolate; simpl. f_equal; lra.
Defined.
End VolumeFitSample.

Section Margins.
Import Vector3d.

Lemma limitMargin_bounds (val : R) : 0 <= MarginPercent.limitMargin val <= 0.25.
Proof.
  unfold MarginPercent.limitMargin, clamp. split.
  - apply Rmax_l.
  - apply Rmax_lub; [lra | apply Rmin_l].
Qed.

(** X17.  Margins are fractions of the view.  A [MarginPercent] holds four
    values from 0 to 0.25, whatever it was made from.  When a 3d view with its
    camera off is fitted to a volume with such margins and no aspect, and the
    extent limits admit the result, the volume takes the share of the view
    width that the left and right margins leave, and the share of the view
    height that the top and bottom margins leave; the left and bottom margins
    are those fractions of the width and height of the view. *)
Theorem lookAtViewAlignedVolume_margins
  (view : ViewState3d) (volume : Range3d) (l t r b : R) :
  let margin := MarginPercent.create l t r b in
  let d := createStartEnd (low volume) (high volume) in
  let wPercent := left margin + right margin in
  let hPercent := top margin + bottom margin in
  _cameraOn view = false ->
  Range3d.isNull volume = false ->
  Constant.oneMillimeter <= z d ->
  min (extentLimits view) <= x d / (1 - wPercent) <= max (extentLimits view) ->
  min (extentLimits view) <= y d / (1 - hPercent) <= max (extentLimits view) ->
  min (extentLimits view) <= z d <= max (extentLimits view) ->
  exists view',
    lookAtViewAlignedVolume view volume None (Some margin) = Some view' /\
    (0 <= left margin <= 0.25 /\ 0 <= top margin <= 0.25 /\
     0 <= right margin <= 0.25 /\ 0 <= bottom margin <= 0.25) /\
    x (extents view') * (1 - wPercent) = x d /\
    y (extents view') * (1 - hPercent) = y d /\
    z (extents view') = z d /\
    origin view' =
      Matrix3d.multiplyTransposeVector (rotation view)
        (mkXYZ (x (low volume) - left margin * x (extents view'))
               (y (low volume) - bottom margin * y (extents view'))
               (z (low volume))).
Proof.
  intros margin d wPercent hPercent Hoff Hnull Hdepth Lx Ly Lz.
  assert (Hl : 0 <= left margin <= 0.25) by apply limitMargin_bounds.
  assert (Ht : 0 <= top margin <= 0.25) by apply limitMargin_bounds.
  assert (Hr : 0 <= right margin <= 0.25) by apply limitMargin_bounds.
  assert (Hb : 0 <= bottom margin <= 0.25) by apply limitMargin_bounds.
  assert (Hw : 1 - wPercent <> 0) by (unfold wPercent; lra).
  assert (Hh : 1 - hPercent <> 0) by (unfold hPercent; lra).
  set (W := x d / (1 - wPercent)) in *.
  set (H := y d / (1 - hPercent)) in *.
  assert (Edepth : (if Rlt_dec (z d) Constant.oneMillimeter then Constant.oneMillimeter else z d)
                   = z d).
  { destruct (Rlt_dec (z d) Constant.oneMillimeter); [lra | reflexivity]. }
  assert (EW : x d + wPercent / (1 - wPercent) * x d = W) by (unfold W; field; exact Hw).
  assert (EH : y d + hPercent / (1 - hPercent) * y d = H) by (unfold H; field; exact Hh).
  destruct (lookAtViewAlignedVolume_cameraOff view
              (ViewState3d.setExtents view (mkXYZ W H (z d))) volume None (Some margin)
              (mkXYZ (x (low volume) - left margin / (1 - wPercent) * x d)
                     (y (low volume) - bottom margin / (1 - hPercent) * y d)
                     (z (low volume)))
              (mkXYZ W H (z d)) (mkXYZ W H (z d)) Hoff Hnull)
    as (view' & E & Ho & He & _ & _).
  - fold d. rewrite Edepth. cbn [x y z]. fold wPercent. fold hPercent. rewrite EW, EH.
    replace (z (low volume) - (z d - z d) / 2.0) with (z (low volume)) by lra.
    reflexivity.
  - rewrite validateViewDelta_within; [reflexivity | | | ]; cbn [x y z]; assumption.
  - exact Hoff.
  - exists view'. split; [exact E|]. split; [tauto|].
    rewrite Ho, He. cbn [x y z extents ViewState3d.setExtents].
    split; [unfold W; field; exact Hw|].
    split; [unfold H; field; exact Hh|].
    split; [reflexivity|].
    f_equal. f_equal.
    + unfold W. field. split; [exact Hw | lra].
    + unfold H. field. split; [exact Hh | lra].
    + lra.
Qed.
End Margins.

Section MarginsSample.
Import Vector3d.

Lemma lookAtViewAlignedVolume_margins_witness :
  exists view',
    lookAtViewAlignedVolume sampleView (mkRange3d (mkXYZ 0 0 0) (mkXYZ 60 30 10)) None
      (Some (MarginPercent.create 0.25 0.5 0.25 (-1))) = Some view' /\
    x (extents view') * (1 - (0.25 + 0.25)) = 60 - 0 /\
    y (extents view') * (1 - (0.25 + 0)) = 30 - 0.
Proof.
  assert (E1 : MarginPercent.limitMargin 0.25 = 0.25).
  { unfold MarginPercent.limitMargin, clamp. repeat decide_Rmax. reflexivity. }
  assert (E2 : MarginPercent.limitMargin 0.5 = 0.25).
  { unfold MarginPercent.limitMargin, clamp. repeat decide_Rmax. reflexivity. }
  assert (E3 : MarginPercent.limitMargin (-1) = 0).
  { unfold MarginPercent.limitMargin, clamp. repeat decide_Rmax. reflexivity. }
  destruct (lookAtViewAlignedVolume_margins sampleView
              (mkRange3d (mkXYZ 0 0 0) (mkXYZ 60 30 10)) 0.25 0.5 0.25 (-1))
    as (view' & H1 & _ & H3 & H4 & _).
  - reflexivity.
  - unfold Range3d.isNull. cbn [low high x y z]. repeat decide_cmp. reflexivity.
  - simpl. unfold Constant.oneMillimeter. lra.
  - cbn [left right top bottom MarginPercent.create low high x y z createStartEnd].
    rewrite E1. simpl. unfold Constant.oneMillimeter. lra.
  - cbn [left right top bottom MarginPercent.create low high x y z createStartEnd].
    rewrite E2, E3. simpl. unfold Constant.oneMillimeter. lra.
  - simpl. unfold Constant.oneMillimeter. lra.
  - exists view'. split; [exact H1|].
    cbn [left right top bottom MarginPercent.create low high x y z createStartEnd] in H3, H4.
    rewrite E1 in H3. rewrite E2, E3 in H4. split; assumption.
Defined.
End MarginsSample.

Section WorldVolume.
Import Vector3d.

Lemma extendPoint_grows (r : Range3d) (p q : Point3d) :
  inRange r q -> inRange (Range3d_extendPoint r p) q.
Proof.
  unfold inRange, Range3d_extendPoint. cbn [low high x y z].
  intros (Hx & Hy & Hz). repeat case_R; lra.
Qed.

Lemma extendPoint_takes (r : Range3d) (p : Point3d) : inRange (Range3d_extendPoint r p) p.
Proof.
  unfold inRange, Range3d_extendPoint. cbn [low high x y z].
  repeat case_R; lra.
Qed.

Lemma fold_extendPoint_grows (pts : list Point3d) (r : Range3d) (q : Point3d) :
  inRange r q -> inRange (fold_left Range3d_extendPoint pts r) q.
Proof.
  revert r. induction pts as [|p rest IH]; intros r H; cbn [fold_left]; [exact H|].
  apply IH, extendPoint_grows, H.
Qed.

(** The range of an array of points holds each of them. *)
Lemma createArray_inRange (pts : list Point3d) (q : Point3d) :
  In q pts -> inRange (Range3d_createArray pts) q.
Proof.
  unfold Range3d_createArray. generalize Range3d_createNull.
  induction pts as [|p rest IH]; intros r Hin; [contradiction|].
  cbn [fold_left]. destruct Hin as [<- | Hin].
  - apply fold_extendPoint_grows, extendPoint_takes.
  - apply IH, Hin.
Qed.

(** The range of an array of points lies within every range that holds the
    points and does not lie beyond the null markers. *)
Lemma createArray_within (pts : list Point3d) (r : Range3d) :
  x (low r) <= 1.0e200 -> y (low r) <= 1.0e200 -> z (low r) <= 1.0e200 ->
  -1.0e200 <= x (high r) -> -1.0e200 <= y (high r) -> -1.0e200 <= z (high r) ->
  (forall p, In p pts -> inRange r p) ->
  let box := Range3d_createArray pts in
  (x (low r) <= x (low box) /\ x (high box) <= x (high r)) /\
  (y (low r) <= y (low box) /\ y (high box) <= y (high r)) /\
  (z (low r) <= z (low box) /\ z (high box) <= z (high r)).
Proof.
  intros Lx Ly Lz Hx Hy Hz Hall box. subst box. unfold Range3d_createArray.
  assert (H0 : (x (low r) <= x (low Range3d_createNull)
                /\ x (high Range3d_createNull) <= x (high r)) /\
               (y (low r) <= y (low Range3d_createNull)
                /\ y (high Range3d_createNull) <= y (high r)) /\
               (z (low r) <= z (low Range3d_createNull)
                /\ z (high Range3d_createNull) <= z (high r))).
  { unfold Range3d_createNull; cbn [low high x y z]. lra. }
  revert H0. generalize Range3d_createNull.
  induction pts as [|p rest IH]; intros acc H0; cbn [fold_left]; [exact H0|].
  apply IH.
  - intros q Hq. apply Hall. right. exact Hq.
  - destruct (Hall p (or_introl eq_refl)) as (Px & Py & Pz).
    unfold Range3d_extendPoint; cbn [low high x y z].
    repeat case_R; lra.
Qed.

Lemma pointList_In (f : Frustum) (n : Npc) : In (points f n) (Frustum_pointList f).
Proof. unfold Frustum_pointList. destruct n; simpl; tauto. Qed.

Lemma multiplyVector_createStartEnd (m : Matrix3d) (a b : XYZ) :
  Matrix3d.multiplyVector m (createStartEnd a b)
  = createStartEnd (Matrix3d.multiplyVector m a) (Matrix3d.multiplyVector m b).
Proof.
  destruct m, a as [ax ay az], b as [bx b_y bz].
  unfold Matrix3d.multiplyVector, createStartEnd, dotProduct; simpl. f_equal; ring.
Qed.

(** A rigid matrix after its transpose maps every vector to itself. *)
Lemma rigid_multiply_transpose (m : Matrix3d) (u : XYZ) :
  Matrix3d.isRigid m ->
  Matrix3d.multiplyVector m (Matrix3d.multiplyTransposeVector m u) = u.
Proof.
  intros Hr.
  pose proof (rigid_transpose_multiply (Matrix3d.transpose m) u (rigid_transpose _ Hr)) as H.
  rewrite transpose_transpose in H. exact H.
Qed.

(** The fit of a view-aligned volume shows what the volume holds: with the
    camera off, a rigid rotation, limits [0 < min <= max] and a largest
    extent not below the dilated size of the volume, every world point whose
    view coordinates lie in the volume lies in the view volume afterwards. *)
Lemma lookAtViewAlignedVolume_shows_points (view : ViewState3d) (volume : Range3d) :
  let d := createStartEnd (low volume) (high volume) in
  _cameraOn view = false ->
  Matrix3d.isRigid (rotation view) ->
  Range3d.isNull volume = false ->
  0 < min (extentLimits view) <= max (extentLimits view) ->
  x d * 1.04 <= max (extentLimits view) ->
  y d * 1.04 <= max (extentLimits view) ->
  Rmax (z d) Constant.oneMillimeter * 1.04 <= max (extentLimits view) ->
  exists view',
    lookAtViewAlignedVolume view volume None None = Some view' /\
    rotation view' = rotation view /\
    forall q : Point3d,
      inRange volume (Matrix3d.multiplyVector (rotation view) q) ->
      let p := Matrix3d.multiplyVector (rotation view') (createStartEnd (origin view') q) in
      (0 <= x p <= x (extents view')) /\
      (0 <= y p <= y (extents view')) /\
      (0 <= z p <= z (extents view')).
Proof.
  intros d Hoff Hr Hnull Hlim Mx My Mz.
  assert (Hd : 0 <= x d /\ 0 <= y d /\ 0 <= z d).
  { unfold Range3d.isNull in Hnull. unfold d, createStartEnd; cbn [x y z].
    revert Hnull. repeat case_R; intros Hnull; try discriminate Hnull; lra. }
  set (depth := if Rlt_dec (z d) Constant.oneMillimeter then Constant.oneMillimeter else z d).
  assert (Hdepth : z d <= depth /\ depth = Rmax (z d) Constant.oneMillimeter).
  { unfold depth, Rmax. destruct (Rlt_dec (z d) Constant.oneMillimeter);
      destruct (Rle_dec (z d) Constant.oneMillimeter); split; try reflexivity; lra. }
  destruct Hdepth as [Hdz Edepth].
  set (d0 := mkXYZ (x d) (y d) depth).
  set (e := snd (validateViewDelta view (scale d0 1.04) true)).
  assert (He : x d <= x e /\ y d <= y e /\ depth <= z e).
  { unfold e. rewrite validateViewDelta_delta. unfold limitWindowSize, scale, d0. cbn [x y z fst].
    rewrite Edepth in *.
    assert (0 <= Rmax (z d) Constant.oneMillimeter) by (eapply Rle_trans; [|apply Rmax_l]; lra).
    repeat case_R; cbn [fst]; lra. }
  destruct (lookAtViewAlignedVolume_cameraOff view (ViewState3d.setExtents view e) volume None None
              _ _ _ Hoff Hnull eq_refl eq_refl Hoff)
    as (view' & E & Ho & Hext & Hrot & _).
  exists view'. split; [exact E|]. split; [exact Hrot|].
  intros q (Px & Py & Pz).
  rewrite Hrot. cbn [rotation ViewState3d.setExtents].
  rewrite multiplyVector_createStartEnd, Ho, (rigid_multiply_transpose _ _ Hr), Hext.
  cbn [extents ViewState3d.setExtents].
  fold d. fold depth. unfold createStartEnd; cbn [x y z]. fold e.
  assert (Dx : x d = x (high volume) - x (low volume)) by reflexivity.
  assert (Dy : y d = y (high volume) - y (low volume)) by reflexivity.
  assert (Dz : z d = z (high volume) - z (low volume)) by reflexivity.
  repeat split; lra.
Qed.

(** X18.  The fit of a view-aligned volume shows what the volume holds.  In
    a 3d view with its camera off, a rigid rotation and limits
    [0 < min <= max], after [lookAtViewAlignedVolume] without aspect and
    margin every world point whose view coordinates lie in the volume lies
    within the view volume, when the largest extent allowed is not below the
    size of the volume dilated by 1.04 (its depth at least one
    millimetre). *)
Theorem lookAtViewAlignedVolume_shows (view : ViewState3d) (volume : Range3d) :
  let d := createStartEnd (low volume) (high volume) in
  _cameraOn view = false ->
  Matrix3d.isRigid (rotation view) ->
  Range3d.isNull volume = false ->
  0 < min (extentLimits view) <= max (extentLimits view) ->
  x d * 1.04 <= max (extentLimits view) ->
  y d * 1.04 <= max (extentLimits view) ->
  Rmax (z d) Constant.oneMillimeter * 1.04 <= max (extentLimits view) ->
  exists view',
    lookAtViewAlignedVolume view volume None None = Some view' /\
    rotation view' = rotation view /\
    forall q : Point3d,
      inRange volume (Matrix3d.multiplyVector (rotation view) q) ->
      let p := Matrix3d.multiplyVector (rotation view') (createStartEnd (origin view') q) in
      (0 <= x p <= x (extents view')) /\
      (0 <= y p <= y (extents view')) /\
      (0 <= z p <= z (extents view')).
Proof. exact (lookAtViewAlignedVolume_shows_points view volume). Qed.

Lemma lookAtVolume_unfold (view : ViewState3d) (volume : Range3d) (aspect : option R)
  (margin : option MarginPercent) :
  lookAtVolume view volume aspect margin
  = lookAtViewAlignedVolume view
      (Range3d_createArray
         (Frustum_pointList
            (Frustum.mapPoints (Matrix3d.multiplyVector (getRotation view))
               (Frustum_fromRange volume)))) aspect margin.
Proof. unfold lookAtVolume. reflexivity. Qed.

(** X19.  The fit of a world volume shows the volume.  In a 3d view with
    its camera off, a rigid rotation and limits [0 < min <= max], after
    [lookAtVolume] without aspect and margin every corner of the volume lies
    within the view volume, when the largest extent allowed is not below the
    size of the box around the corners in view coordinates, dilated by
    1.04. *)
Theorem lookAtVolume_shows_volume (view : ViewState3d) (volume : Range3d) :
  let box :=
    Range3d_createArray
      (Frustum_pointList
         (Frustum.mapPoints (Matrix3d.multiplyVector (rotation view)) (Frustum_fromRange volume))) in
  let d := createStartEnd (low box) (high box) in
  _cameraOn view = false ->
  Matrix3d.isRigid (rotation view) ->
  0 < min (extentLimits view) <= max (extentLimits view) ->
  x d * 1.04 <= max (extentLimits view) ->
  y d * 1.04 <= max (extentLimits view) ->
  Rmax (z d) Constant.oneMillimeter * 1.04 <= max (extentLimits view) ->
  exists view',
    lookAtVolume view volume None None = Some view' /\
    rotation view' = rotation view /\
    forall n : Npc,
      let p :=
        Matrix3d.multiplyVector (rotation view')
          (createStartEnd (origin view') (points (Frustum_fromRange volume) n)) in
      (0 <= x p <= x (extents view')) /\
      (0 <= y p <= y (extents view')) /\
      (0 <= z p <= z (extents view')).
Proof.
  intros box d Hoff Hr Hlim Mx My Mz.
  assert (Hin : forall n,
            inRange box (Matrix3d.multiplyVector (rotation view)
                           (points (Frustum_fromRange volume) n))).
  { intros n. apply createArray_inRange.
    apply (pointList_In (Frustum.mapPoints (Matrix3d.multiplyVector (rotation view))
                           (Frustum_fromRange volume)) n). }
  rewrite lookAtVolume_unfold. change (getRotation view) with (rotation view). fold box.
  assert (Hnull : Range3d.isNull box = false).
  { destruct (Hin LeftBottomRear) as (Bx & By & Bz).
    unfold Range3d.isNull. repeat case_R; try reflexivity; lra. }
  clearbody box.
  destruct (lookAtViewAlignedVolume_shows_points view box Hoff Hr Hnull Hlim Mx My Mz)
    as (view' & E & Hrot & Hq).
  exists view'. split; [exact E|]. split; [exact Hrot|].
  intros n. apply Hq, Hin.
Qed.
End WorldVolume.

Section WorldVolumeSample.
Import Vector3d.

Lemma lookAtViewAlignedVolume_shows_witness :
  exists view',
    lookAtViewAlignedVolume sampleView (mkRange3d (mkXYZ 1 2 3) (mkXYZ 4 6 8)) None None
      = Some view' /\
    0 <= x (createStartEnd (origin view') (mkXYZ 2 3 4)) <= x (extents view').
Proof.
  destruct (lookAtViewAlignedVolume_shows sampleView (mkRange3d (mkXYZ 1 2 3) (mkXYZ 4 6 8)))
    as (view' & H1 & H2 & H3).
  - reflexivity.
  - exact rigid_identity.
  - unfold Range3d.isNull; cbn [low high x y z]. repeat decide_cmp. reflexivity.
  - simpl. unfold Constant.oneMillimeter. lra.
  - simpl. lra.
  - simpl. lra.
  - simpl. unfold Constant.oneMillimeter. repeat decide_Rmax. lra.
  - exists view'. split; [exact H1|].
    destruct (H3 (mkXYZ 2 3 4)) as (Hx & _).
    + unfold inRange, Matrix3d.multiplyVector, dotProduct; simpl. lra.
    + rewrite H2 in Hx.
      unfold Matrix3d.multiplyVector, dotProduct, createStartEnd in *.
      cbn [rotation sampleView Matrix3d.rowX Matrix3d.createIdentity xx xy xz x y z] in *.
      lra.
Defined.

Lemma sample_box :
  let box :=
    Range3d_createArray
      (Frustum_pointList
         (Frustum.mapPoints (Matrix3d.multiplyVector (rotation sampleView))
            (Frustum_fromRange (mkRange3d (mkXYZ 1 2 3) (mkXYZ 4 6 8))))) in
  (1 <= x (low box) /\ x (high box) <= 4) /\
  (2 <= y (low box) /\ y (high box) <= 6) /\
  (3 <= z (low box) /\ z (high box) <= 8).
Proof.
  apply (createArray_within _ (mkRange3d (mkXYZ 1 2 3) (mkXYZ 4 6 8)));
    cbn [low high x y z]; try lra.
  intros p Hp.
  unfold Frustum_pointList, Frustum.mapPoints, Frustum_fromRange in Hp.
  cbn [List.map points In low high x y z] in Hp.
  unfold inRange; cbn [low high x y z].
  repeat (destruct Hp as [<- | Hp]; [unfold Matrix3d.multiplyVector, dotProduct; simpl; lra|]).
  contradiction.
Qed.

Lemma lookAtVolume_shows_volume_witness :
  exists view',
    lookAtVolume sampleView (mkRange3d (mkXYZ 1 2 3) (mkXYZ 4 6 8)) None None = Some view' /\
    0 <= x (createStartEnd (origin view') (mkXYZ 4 6 8)) <= x (extents view').
Proof.
  pose proof sample_box as ((Bx1 & Bx2) & (By1 & By2) & (Bz1 & Bz2)).
  destruct (lookAtVolume_shows_volume sampleView (mkRange3d (mkXYZ 1 2 3) (mkXYZ 4 6 8)))
    as (view' & H1 & H2 & H3).
  - reflexivity.
  - exact rigid_identity.
  - simpl. unfold Constant.oneMillimeter. lra.
  - unfold createStartEnd; cbn [x y z].
    replace (max (extentLimits sampleView)) with 12742000 by reflexivity.
    unfold Constant.oneMillimeter. lra.
  - unfold createStartEnd; cbn [x y z].
    replace (max (extentLimits sampleView)) with 12742000 by reflexivity.
    unfold Constant.oneMillimeter. lra.
  - unfold createStartEnd; cbn [x y z].
    replace (max (extentLimits sampleView)) with 12742000 by reflexivity.
    unfold Constant.oneMillimeter. apply Rle_trans with (8 * 1.04); [|lra].
    apply Rmult_le_compat_r; [lra|]. apply Rmax_lub; lra.
  - exists view'. split; [exact H1|].
    destruct (H3 RightTopFront) as (Hx & _).
    rewrite H2 in Hx. cbn [points Frustum_fromRange low high x y z] in Hx.
    unfold Matrix3d.multiplyVector, dotProduct, createStartEnd in *.
    cbn [rotation sampleView Matrix3d.rowX Matrix3d.createIdentity xx xy xz x y z] in *.
    lra.
Defined.
End WorldVolumeSample.

(* ================================================================== *)
(** * Rotation about a point *)

Section RotationAboutPoint.
Context {K : Constants}.
Import Vector3d.

Lemma multiplyMatrixMatrix_vector (a b : Matrix3d) (u : XYZ) :
  Matrix3d.multiplyVector (Matrix3d.multiplyMatrixMatrix a b) u
  = Matrix3d.multiplyVector a (Matrix3d.multiplyVector b u).
Proof.
  destruct a, b, u as [ux uy uz].
  unfold Matrix3d.multiplyVector, Matrix3d.multiplyMatrixMatrix, Matrix3d.multiplyTransposeVector,
    dotProduct; simpl. f_equal; ring.
Qed.

Lemma multiplyVector_transpose (m : Matrix3d) (u : XYZ) :
  Matrix3d.multiplyVector (Matrix3d.transpose m) u = Matrix3d.multiplyTransposeVector m u.
Proof.
  destruct m, u as [ux uy uz].
  unfold Matrix3d.multiplyVector, Matrix3d.multiplyTransposeVector, dotProduct; simpl.
  f_equal; ring.
Qed.

(** A corner of a box: its origin and the transposed rotation of the scaled
    corner of the unit cube. *)
Lemma boxFrustum_point (o : Point3d) (rot : Matrix3d) (d : Vector3d) (n : Npc) :
  points (boxFrustum o rot d) n
  = plus o (Matrix3d.multiplyTransposeVector rot
              (mkXYZ (x d * x (points Frustum.initNpc n))
                     (y d * y (points Frustum.initNpc n))
                     (z d * z (points Frustum.initNpc n)))).
Proof.
  destruct rot, o as [ox oy oz], d as [dx dy dz].
  unfold boxFrustum, Frustum.mapPoints, plus3Scaled, plus, scale,
    Matrix3d.multiplyTransposeVector, dotProduct; simpl.
  f_equal; ring.
Qed.

(** The box of one rigid frame taken to another about a fixed point is the
    box of the other frame. *)
Lemma Frustum_multiply_box (p o : Point3d) (r rot : Matrix3d) (d : Vector3d) :
  Matrix3d.isRigid r ->
  let trans :=
    Transform.createFixedPointAndMatrix p
      (Matrix3d.multiplyMatrixMatrix (Matrix3d.transpose rot) r) in
  Frustum_multiply trans (boxFrustum o r d)
  = boxFrustum (Transform.multiplyPoint3d trans o) rot d.
Proof.
  intros Hr trans.
  assert (E : forall n, points (Frustum_multiply trans (boxFrustum o r d)) n
                        = points (boxFrustum (Transform.multiplyPoint3d trans o) rot d) n).
  { intros n. rewrite boxFrustum_point.
    unfold Frustum_multiply, Frustum.mapPoints. cbn [points].
    change (points (Frustum.mapPoints
                      (fun p0 => plus3Scaled o (scale (Matrix3d.rowX r) (x d)) (x p0)
                                   (scale (Matrix3d.rowY r) (y d)) (y p0)
                                   (scale (Matrix3d.rowZ r) (z d)) (z p0)) Frustum.initNpc) n)
      with (points (boxFrustum o r d) n).
    rewrite boxFrustum_point.
    set (s := mkXYZ (x d * x (points Frustum.initNpc n)) (y d * y (points Frustum.initNpc n))
                    (z d * z (points Frustum.initNpc n))).
    unfold trans, Transform.multiplyPoint3d, Transform.createFixedPointAndMatrix.
    cbn [trOrigin trMatrix].
    rewrite !multiplyMatrixMatrix_vector, !multiplyVector_transpose.
    rewrite (multiplyVector_plus r o), (rigid_multiply_transpose r s Hr).
    generalize (Matrix3d.multiplyVector r o); intros ro.
    generalize (Matrix3d.multiplyVector r p); intros rp.
    destruct rot, ro as [a1 a2 a3], rp as [b1 b2 b3], s as [s1 s2 s3], p as [p1 p2 p3].
    unfold plus, minus, Matrix3d.multiplyTransposeVector, dotProduct; simpl. f_equal; ring. }
  unfold Frustum_multiply, boxFrustum, Frustum.mapPoints in *. cbn [points] in E.
  f_equal. apply functional_extensionality. exact E.
Qed.

End RotationAboutPoint.

Section RotationAboutPointSample.
Import Vector3d.

Lemma rigid_bottom : Matrix3d.isRigid (createRowValues 1 0 0 0 (-1) 0 0 0 (-1)).
Proof.
  unfold Matrix3d.isRigid, Matrix3d.determinant, tripleProduct, dotProduct, crossProduct; simpl.
  repeat split; ring.
Qed.

Lemma adjustToStandardRotation_bottom_sample :
  @StandardView.adjustToStandardRotation sampleConstants
    (Matrix3d.transpose (createRowValues 1 0 0 0 (-1) 0 0 0 (-1)))
  = Matrix3d.transpose (createRowValues 1 0 0 0 (-1) 0 0 0 (-1)).
Proof.
  unfold StandardView.adjustToStandardRotation.
  cbn [standardViewMatrices sampleConstants StandardView.snapTo standardViewTolerance].
  unfold Matrix3d.maxDiff; simpl.
  repeat decide_Rmax. repeat decide_cmp. reflexivity.
Qed.

End RotationAboutPointSample.

(* ================================================================== *)
(** * The eye and the focus plane *)

Section FocusPlane.
Context {K : Constants}.
Import Vector3d.

Lemma createStartEnd_plus (o u : XYZ) : createStartEnd o (plus o u) = u.
Proof. destruct o, u. unfold createStartEnd, plus; simpl. f_equal; ring. Qed.

(** The eye that [centerEyePoint] stores, in view coordinates. *)
Lemma centerEyePoint_eye (view : ViewState3d) (backDistance : option R) :
  Matrix3d.isRigid (rotation view) ->
  Matrix3d.multiplyVector (rotation (centerEyePoint view backDistance))
    (vectorTo (origin (centerEyePoint view backDistance))
       (ViewState3d.getEyePoint (centerEyePoint view backDistance)))
  = mkXYZ (x (extents view) * 0.5) (y (extents view) * 0.5)
          (orElse backDistance (ViewState3d.getBackDistance view)).
Proof.
  intros Hr. unfold centerEyePoint, vectorTo. view_fields.
  unfold Matrix3d.multiplyTransposeXYZ.
  rewrite createStartEnd_plus. cbn [scale x y z].
  apply (rigid_multiply_transpose _ _ Hr).
Qed.

(** X21.  [centerEyePoint] puts the eye over the center of the view.  With
    a rigid rotation, the eye ends at half the X and Y extents in view
    coordinates, at the back distance it was given, or at the back distance
    it had when none or zero is given; nothing but the eye point changes. *)
Theorem centerEyePoint_centers (view : ViewState3d) (backDistance : option R) :
  let view' := centerEyePoint view backDistance in
  Matrix3d.isRigid (rotation view) ->
  x (Matrix3d.multiplyVector (rotation view')
       (vectorTo (origin view') (ViewState3d.getEyePoint view'))) = x (extents view') / 2 /\
  y (Matrix3d.multiplyVector (rotation view')
       (vectorTo (origin view') (ViewState3d.getEyePoint view'))) = y (extents view') / 2 /\
  (forall b, backDistance = Some b -> b <> 0 -> ViewState3d.getBackDistance view' = b) /\
  (backDistance = None \/ backDistance = Some 0 ->
   ViewState3d.getBackDistance view' = ViewState3d.getBackDistance view) /\
  ViewState3d.setEyePoint view' (ViewState3d.getEyePoint view) = view.
Proof.
  intros view' Hr.
  pose proof (centerEyePoint_eye view backDistance Hr) as E. fold view' in E.
  unfold ViewState3d.getBackDistance at 1 2.
  change (ViewState3d.getRotation view') with (rotation view').
  rewrite E. cbn [x y z].
  change (extents view') with (extents view).
  repeat split; try lra.
  - intros b -> Hb. unfold orElse. destruct (Req_dec_T b 0); [contradiction | reflexivity].
  - intros [-> | ->]; unfold orElse; [reflexivity|].
    destruct (Req_dec_T 0 0); [reflexivity | lra].
  - unfold view', centerEyePoint, ViewState3d.setEyePoint, ViewState3d.setCamera,
      Camera.setEyePoint, ViewState3d.getEyePoint.
    destruct view as [c o e r [l f ey] m el del sk sc]; reflexivity.
Qed.

(** The eye seen from the corner [eye - back * Z - a * X - b * Y] of a rigid
    frame. *)
Lemma eye_from_corner (r : Matrix3d) (e : Point3d) (back a b : R) :
  Matrix3d.isRigid r ->
  Matrix3d.multiplyVector r
    (vectorTo (plus3Scaled e (Matrix3d.rowZ r) (- back) (Matrix3d.rowX r) (- a)
                 (Matrix3d.rowY r) (- b)) e)
  = mkXYZ a b back.
Proof.
  intros Hr.
  rewrite <- (rigid_multiply_transpose r (mkXYZ a b back) Hr).
  f_equal. destruct r, e as [e1 e2 e3].
  unfold vectorTo, createStartEnd, plus3Scaled, Matrix3d.multiplyTransposeVector, dotProduct;
    simpl. f_equal; ring.
Qed.

(** X22.  [verifyFocusPlane] on a valid camera.  With the camera on, a
    rigid rotation, a positive depth, the front plane in front of the eye and
    a focus distance other than zero, after [verifyFocusPlane] the focus plane
    lies strictly between the front and back planes; the eye, the rotation,
    the lens angle and the front and back distances are as they were, the X
    and Y extents are scaled with the focus distance, the eye is over the
    center of the view when the focus plane was moved, and a view whose focus
    plane already lay between the planes is not touched. *)
Theorem verifyFocusPlane_valid_camera (view : ViewState3d) :
  let view' := verifyFocusPlane view in
  let back := ViewState3d.getBackDistance view in
  let front := ViewState3d.getFrontDistance view in
  _cameraOn view = true ->
  Matrix3d.isRigid (rotation view) ->
  0 < z (extents view) ->
  0 < front ->
  ViewState3d.getFocusDistance view <> 0 ->
  front < ViewState3d.getFocusDistance view' < back /\
  ViewState3d.getBackDistance view' = back /\
  ViewState3d.getFrontDistance view' = front /\
  ViewState3d.getEyePoint view' = ViewState3d.getEyePoint view /\
  rotation view' = rotation view /\
  ViewState3d.getLensAngle view' = ViewState3d.getLensAngle view /\
  x (extents view') * ViewState3d.getFocusDistance view
    = x (extents view) * ViewState3d.getFocusDistance view' /\
  y (extents view') * ViewState3d.getFocusDistance view
    = y (extents view) * ViewState3d.getFocusDistance view' /\
  (front < ViewState3d.getFocusDistance view < back -> view' = view) /\
  (~ front < ViewState3d.getFocusDistance view < back ->
   ViewState3d.getFocusDistance view' = (front + back) / 2 /\
   Matrix3d.multiplyVector (rotation view')
     (vectorTo (origin view') (ViewState3d.getEyePoint view'))
   = mkXYZ (x (extents view') / 2) (y (extents view') / 2) back).
Proof.
  intros view' back front Hc Hr Hz Hfront Hf.
  assert (Hback : back = front + z (extents view)).
  { unfold front, ViewState3d.getFrontDistance. fold back. lra. }
  unfold view', verifyFocusPlane. rewrite Hc. cbn [negb].
  fold back. replace (back - z (extents view)) with front by lra.
  destruct (Rle_dec back 0) as [|_]; [lra|].
  destruct (Rle_dec front 0) as [|_]; [lra|].
  unfold ViewState3d.getFocusDistance in *.
  match goal with
  | |- context [if ?c then view else _] =>
    assert (Hin : c = true <-> front < focusDist (camera view) < back);
      [| destruct c; [assert (Hi : front < focusDist (camera view) < back) by (apply Hin; reflexivity)
                     | assert (Hi : ~ front < focusDist (camera view) < back)
                         by (intros Hi; apply Hin in Hi; discriminate Hi)]; clear Hin]
  end.
  { destruct (Rlt_dec front (focusDist (camera view)));
      [destruct (Rlt_dec (focusDist (camera view)) back)|];
      split; intros H; try discriminate H; try reflexivity; lra. }
  - fold back. fold front. repeat split; try reflexivity; try lra.
  - set (f' := z (extents view) / 2.0 + front).
    assert (En : forall a, -0.5 * a = - (0.5 * a)) by (intros a; lra).
    assert (Hback' :
      ViewState3d.getBackDistance
        (ViewState3d.setOrigin
           (ViewState3d.setExtents
              (ViewState3d.setCamera view (Camera.setFocusDistance (camera view) f'))
              (mkXYZ (x (extents view) * (f' / focusDist (camera view)))
                     (y (extents view) * (f' / focusDist (camera view))) (z (extents view))))
           (plus3Scaled (eye (camera view)) (Matrix3d.rowZ (rotation view)) (- back)
              (Matrix3d.rowX (rotation view))
              (-0.5 * (x (extents view) * (f' / focusDist (camera view))))
              (Matrix3d.rowY (rotation view))
              (-0.5 * (y (extents view) * (f' / focusDist (camera view)))))) = back).
    { unfold ViewState3d.getBackDistance. view_fields.
      rewrite !En, (eye_from_corner _ _ _ _ _ Hr). reflexivity. }
    view_fields. cbn [x y z focusDist Camera.setFocusDistance].
    unfold ViewState3d.getFrontDistance. rewrite Hback'. view_fields. cbn [x y z].
    fold back. fold f'.
    repeat split; try (unfold f'; lra).
    + field. exact Hf.
    + field. exact Hf.
    + rewrite !En, (eye_from_corner _ _ _ _ _ Hr). f_equal; lra.
Qed.
(** X23.  [verifyFocusPlane] on an invalid camera.  With the camera on, a
    rigid rotation, a positive depth [d] and a lens angle whose half has a
    positive tangent [t], when the back plane or the front plane is not in
    front of the eye [verifyFocusPlane] puts the eye over the center of the
    view at the back distance [d / t] and the focus plane at half that
    distance, and leaves origin, extents and rotation alone.  The focus plane
    then lies beyond the front plane only when [1/2 < t], and the front plane
    is in front of the eye only when [t < 1]. *)
Theorem verifyFocusPlane_invalid_camera (view : ViewState3d) :
  let view' := verifyFocusPlane view in
  let t := tan (radians (ViewState3d.getLensAngle view) / 2.0) in
  let d := z (extents view) in
  _cameraOn view = true ->
  Matrix3d.isRigid (rotation view) ->
  0 < d ->
  0 < t ->
  ViewState3d.getBackDistance view <= 0 \/ ViewState3d.getFrontDistance view <= 0 ->
  ViewState3d.getBackDistance view' = d / t /\
  ViewState3d.getFrontDistance view' = d / t - d /\
  ViewState3d.getFocusDistance view' = d / t / 2 /\
  Matrix3d.multiplyVector (rotation view')
    (vectorTo (origin view') (ViewState3d.getEyePoint view'))
  = mkXYZ (x (extents view') / 2) (y (extents view') / 2) (d / t) /\
  origin view' = origin view /\ extents view' = extents view /\
  rotation view' = rotation view /\
  (ViewState3d.getFrontDistance view' < ViewState3d.getFocusDistance view' <-> 1 / 2 < t) /\
  (0 < ViewState3d.getFrontDistance view' <-> t < 1).
Proof.
  intros view' t d Hc Hr Hd Ht Hbad.
  set (view1 := ViewState3d.setCamera view (Camera.setFocusDistance (camera view) (d / t / 2))).
  assert (E : view' = centerEyePoint view1 (Some (d / t))).
  { unfold view', verifyFocusPlane. rewrite Hc. cbn [negb].
    unfold ViewState3d.getFrontDistance in Hbad.
    destruct (Rle_dec (ViewState3d.getBackDistance view) 0) as [|Hb]; [reflexivity|].
    destruct (Rle_dec (ViewState3d.getBackDistance view - z (extents view)) 0) as [|Hf];
      [reflexivity|].
    exfalso. destruct Hbad; contradiction. }
  assert (Hq : 0 < d / t) by (apply Rdiv_lt_0_compat; assumption).
  assert (Hback : ViewState3d.getBackDistance view' = d / t).
  { rewrite E. unfold ViewState3d.getBackDistance at 1.
    change (ViewState3d.getRotation (centerEyePoint view1 (Some (d / t))))
      with (rotation (centerEyePoint view1 (Some (d / t)))).
    rewrite (centerEyePoint_eye view1 (Some (d / t)) Hr). cbn [z].
    unfold orElse. destruct (Req_dec_T (d / t) 0); [lra | reflexivity]. }
  assert (Hfront : ViewState3d.getFrontDistance view' = d / t - d).
  { unfold ViewState3d.getFrontDistance. rewrite Hback. rewrite E. reflexivity. }
  assert (Hfocus : ViewState3d.getFocusDistance view' = d / t / 2).
  { rewrite E. reflexivity. }
  rewrite Hback, Hfront, Hfocus.
  split; [reflexivity|]. split; [reflexivity|]. split; [reflexivity|].
  split.
  { rewrite E, (centerEyePoint_eye view1 (Some (d / t)) Hr).
    unfold orElse. destruct (Req_dec_T (d / t) 0); [lra|].
    change (extents (centerEyePoint view1 (Some (d / t)))) with (extents view).
    change (extents view1) with (extents view). f_equal; lra. }
  split; [rewrite E; reflexivity|]. split; [rewrite E; reflexivity|].
  split; [rewrite E; reflexivity|].
  assert (Hdt : d / t * t = d) by (field; lra).
  split; split; intros H.
  - apply Rmult_lt_reg_r with (d / t); [exact Hq|]. nra.
  - assert (d / t < 2 * d) by nra. lra.
  - nra.
  - nra.
Qed.
End FocusPlane.

Section FocusPlaneSample.
Import Vector3d.

Lemma centerEyePoint_centers_witness :
  ViewState3d.getBackDistance (centerEyePoint cameraOnView (Some 7)) = 7.
Proof.
  destruct (centerEyePoint_centers cameraOnView (Some 7) rigid_identity) as (_ & _ & H & _).
  apply (H 7); [reflexivity | lra].
Defined.

Lemma cameraOnView_back : ViewState3d.getBackDistance cameraOnView = 5.5.
Proof.
  unfold ViewState3d.getBackDistance, ViewState3d.getEyePoint, ViewState3d.getRotation,
    Matrix3d.multiplyVector, dotProduct, vectorTo, createStartEnd; simpl. lra.
Qed.

Lemma verifyFocusPlane_valid_camera_witness :
  ViewState3d.getFocusDistance
    (verifyFocusPlane (ViewState3d.setFocusDistance cameraOnView 10)) = 5.
Proof.
  assert (Hb : ViewState3d.getBackDistance (ViewState3d.setFocusDistance cameraOnView 10) = 5.5)
    by exact cameraOnView_back.
  assert (Hf : ViewState3d.getFrontDistance (ViewState3d.setFocusDistance cameraOnView 10) = 4.5).
  { unfold ViewState3d.getFrontDistance. rewrite Hb. simpl. lra. }
  destruct (verifyFocusPlane_valid_camera (ViewState3d.setFocusDistance cameraOnView 10))
    as (_ & _ & _ & _ & _ & _ & _ & _ & _ & H).
  - reflexivity.
  - exact rigid_identity.
  - simpl. lra.
  - rewrite Hf. lra.
  - unfold ViewState3d.getFocusDistance; simpl. lra.
  - destruct H as [H _].
    + rewrite Hb, Hf. unfold ViewState3d.getFocusDistance; simpl. lra.
    + rewrite H, Hb, Hf. lra.
Defined.

Lemma cameraOnView_behind_back :
  ViewState3d.getBackDistance (ViewState3d.setEyePoint cameraOnView (mkXYZ 5 5 (-1))) = -1.
Proof.
  unfold ViewState3d.getBackDistance, ViewState3d.getEyePoint, ViewState3d.getRotation,
    Matrix3d.multiplyVector, dotProduct, vectorTo, createStartEnd; simpl. lra.
Qed.

Lemma verifyFocusPlane_invalid_camera_witness :
  ViewState3d.getBackDistance
    (verifyFocusPlane (ViewState3d.setEyePoint cameraOnView (mkXYZ 5 5 (-1)))) = 1.
Proof.
  assert (Ht : tan (radians (ViewState3d.getLensAngle
                               (ViewState3d.setEyePoint cameraOnView (mkXYZ 5 5 (-1)))) / 2.0) = 1).
  { simpl. replace (PI / 2 / 2.0) with (PI / 4) by lra. exact tan_PI4. }
  destruct (verifyFocusPlane_invalid_camera
              (ViewState3d.setEyePoint cameraOnView (mkXYZ 5 5 (-1)))) as (H & _).
  - reflexivity.
  - exact rigid_identity.
  - simpl. lra.
  - rewrite Ht. lra.
  - left. rewrite cameraOnView_behind_back. lra.
  - rewrite H, Ht. simpl. lra.
Defined.
End FocusPlaneSample.

(* ================================================================== *)
(** * The planes after [lookAt] *)

Section LookAtPlanes.
Context {K : Constants}.
Import Vector3d.

(** A direction that passed the test of its length, when the epsilon is
    positive, is a unit vector. *)
Lemma normalizeWithLength_passed (u : Vector3d) (dflt : Vector3d) :
  0 < smallMetricDistance ->
  ~ mag (normalizeWithLength u) < smallMetricDistance ->
  let u1 := match v (normalizeWithLength u) with Some w => w | None => dflt end in
  u1 = scale u (1 / magnitude u) /\ dotProduct u1 u1 = 1.
Proof.
  intros Hs Hm.
  destruct (normalizeWithLength_cases u) as [H | (S1 & N1 & H)]; rewrite H in *; cbn [v mag] in *.
  - contradiction.
  - split; [reflexivity|]. apply scale_inv_magnitude_unit; assumption.
Qed.

(** The rotation a successful [lookAt] stores is rigid. *)
Lemma lookAt_success_rigid
  (view : ViewState3d) (eyePoint targetPoint : XYZ) (upVector : Vector3d)
  (newExtents : option XAndY) (frontDistance backDistance : option R) :
  let result := lookAt view eyePoint targetPoint upVector newExtents frontDistance backDistance in
  0 < smallMetricDistance ->
  fst result = Success ->
  Matrix3d.isRigid (rotation (snd result)).
Proof.
  intros result Hs Hok.
  destruct (lookAt_success_inv view eyePoint targetPoint upVector newExtents frontDistance
              backDistance Hok)
    as (yVec0 & xVec & yVec & _ & Nz & Sz & _ & Ex & Hx & Ey & Hy & Hrot & _).
  fold result in Hrot. rewrite Hrot.
  set (zVec := scale (createStartEnd targetPoint eyePoint)
                 (1 / magnitude (createStartEnd targetPoint eyePoint))) in *.
  assert (Uz : dotProduct zVec zVec = 1) by (apply scale_inv_magnitude_unit; assumption).
  destruct (normalizeWithLength_passed _ createZero Hs Hx) as [Ex1 Ux]. rewrite <- Ex in Ex1, Ux.
  assert (Pxz : dotProduct xVec zVec = 0).
  { rewrite Ex1, dotProduct_scale_l, dotProduct_comm, crossProduct_perp_r. ring. }
  assert (Uy : dotProduct (crossProduct zVec xVec) (crossProduct zVec xVec) = 1).
  { rewrite crossProduct_magnitudeSquared, Ux, Uz, (dotProduct_comm zVec xVec), Pxz. ring. }
  destruct (normalizeWithLength_passed _ yVec0 Hs Hy) as [Ey1 _]. rewrite <- Ey in Ey1.
  rewrite (magnitude_unit _ Uy), scale_one in Ey1. rewrite Ey1.
  apply rigid_createRows; assumption.
Qed.

(** The front distance after the two clamps of [lookAt]. *)
Lemma front_clamp (m f0 mn : R) :
  0 < mn -> mn < m ->
  mn <= (if Rlt_dec (if Rlt_dec m f0 then m - mn else f0) mn then mn
         else if Rlt_dec m f0 then m - mn else f0) <= m.
Proof. intros H0 H1. destruct (Rlt_dec m f0); destruct (Rlt_dec _ mn); lra. Qed.

(** Where a successful [lookAt] puts the planes and the origin. *)
Lemma lookAt_success_planes
  (view : ViewState3d) (eyePoint targetPoint : XYZ) (upVector : Vector3d)
  (newExtents : option XAndY) (frontDistance backDistance : option R) :
  let result := lookAt view eyePoint targetPoint upVector newExtents frontDistance backDistance in
  fst result = Success ->
  exists front back,
    ViewState3d.minimumFrontDistance view <= front <= focusDist (camera (snd result)) /\
    focusDist (camera (snd result)) + 0.5 * Constant.oneMeter <= back /\
    z (extents (snd result)) = back - front /\
    origin (snd result)
    = plus3Scaled (eye (camera (snd result)))
        (Matrix3d.rowZ (rotation (snd result))) (- back)
        (Matrix3d.rowX (rotation (snd result))) (- (0.5 * x (extents (snd result))))
        (Matrix3d.rowY (rotation (snd result))) (- (0.5 * y (extents (snd result)))).
Proof.
  intros result.
  remember (lookAt view eyePoint targetPoint upVector newExtents frontDistance backDistance)
    as r eqn:Er.
  subst result. unfold lookAt in Er. rewrite xyz_eta in Er.
  pose proof (minimumFrontDistance_pos view) as Hmin.
  destruct (normalize upVector) as [yVec0|]; [|subst r; simpl; discriminate].
  destruct (normalizeWithLength_cases (createStartEnd targetPoint eyePoint))
    as [Hz | (Sz & Nz & Hz)]; rewrite Hz in Er; cbn [v mag] in Er.
  { destruct (Rle_dec 0 (ViewState3d.minimumFrontDistance view)); [subst r; simpl; discriminate | lra]. }
  set (m := magnitude (createStartEnd targetPoint eyePoint)) in *.
  set (zVec := scale (createStartEnd targetPoint eyePoint) (1 / m)) in *.
  clearbody zVec. clearbody m. clear Hz.
  destruct (Rle_dec m (ViewState3d.minimumFrontDistance view)) as [|Hfocus] in Er;
    [subst r; simpl; discriminate|].
  destruct (Rlt_dec _ _) as [|Hx] in Er; [subst r; simpl; discriminate|].
  destruct (Rlt_dec _ _) as [|Hy] in Er; [subst r; simpl; discriminate|].
  set (back0 := Rmax (orElse backDistance (ViewState3d.getBackDistance view))
                  (m + 0.5 * Constant.oneMeter)) in *.
  set (front0 := Rmax (orElse frontDistance (ViewState3d.getFrontDistance view))
                   (0.5 * Constant.oneMeter)) in *.
  assert (Hb0 : m + 0.5 * Constant.oneMeter <= back0) by apply Rmax_r.
  clearbody back0 front0.
  assert (Hm1 : 0 < Constant.oneMeter) by (unfold Constant.oneMeter; lra).
  destruct (Rlt_dec back0 m) as [|_] in Er; [lra|].
  set (front1 := if Rlt_dec m front0 then m - ViewState3d.minimumFrontDistance view else front0)
    in *.
  set (front := if Rlt_dec front1 (ViewState3d.minimumFrontDistance view)
                then ViewState3d.minimumFrontDistance view else front1) in *.
  assert (Hf : ViewState3d.minimumFrontDistance view <= front <= m).
  { unfold front, front1. apply front_clamp; lra. }
  clearbody front. clear front1.
  match type of Er with context [fst (validateViewDelta ?a ?b ?c)] =>
    destruct (fst (validateViewDelta a b c)) end; try (subst r; simpl; discriminate).
  destruct (Rlt_dec _ _) in Er; [subst r; simpl; discriminate|].
  intros _. subst r. cbn [snd].
  exists front, back0.
  unfold ViewState3d.enableCamera.
  destruct view as [on o e r c fm lim dlim skew sup].
  destruct sup; view_fields; cbn [x y z];
    rewrite ?rowX_createRows, ?rowY_createRows, ?rowZ_createRows;
    (split; [exact Hf|]); (split; [exact Hb0|]); (split; [reflexivity|]);
    f_equal; lra.
Qed.

(** X24.  The planes after [lookAt].  With a positive small-distance
    epsilon, after a successful [lookAt] the front plane is at least the
    minimum front distance from the eye and not beyond the focus plane, the
    back plane is at least half a meter beyond the focus plane, and the eye is
    over the center of the view: in view coordinates it is at half the X and
    Y extents, at the back distance. *)
Theorem lookAt_focus_between_planes
  (view : ViewState3d) (eyePoint targetPoint : XYZ) (upVector : Vector3d)
  (newExtents : option XAndY) (frontDistance backDistance : option R) :
  let result := lookAt view eyePoint targetPoint upVector newExtents frontDistance backDistance in
  let view' := snd result in
  0 < smallMetricDistance ->
  fst result = Success ->
  ViewState3d.minimumFrontDistance view <= ViewState3d.getFrontDistance view' /\
  ViewState3d.getFrontDistance view' <= ViewState3d.getFocusDistance view' /\
  ViewState3d.getFocusDistance view' + 0.5 * Constant.oneMeter
    <= ViewState3d.getBackDistance view' /\
  Matrix3d.multiplyVector (rotation view')
    (vectorTo (origin view') (ViewState3d.getEyePoint view'))
  = mkXYZ (x (extents view') / 2) (y (extents view') / 2) (ViewState3d.getBackDistance view').
Proof.
  intros result view' Hs Hok.
  pose proof (lookAt_success_rigid view eyePoint targetPoint upVector newExtents frontDistance
                backDistance Hs Hok) as Hr.
  destruct (lookAt_success_planes view eyePoint targetPoint upVector newExtents frontDistance
              backDistance Hok) as (front & back & Hf & Hb & Hz & Ho).
  fold result in Hr, Hf, Hb, Hz, Ho. fold view' in Hr, Hf, Hb, Hz, Ho.
  assert (E : Matrix3d.multiplyVector (rotation view')
                (vectorTo (origin view') (ViewState3d.getEyePoint view'))
              = mkXYZ (0.5 * x (extents view')) (0.5 * y (extents view')) back).
  { rewrite Ho. apply (eye_from_corner _ _ _ _ _ Hr). }
  assert (Eb : ViewState3d.getBackDistance view' = back).
  { unfold ViewState3d.getBackDistance.
    change (ViewState3d.getRotation view') with (rotation view'). rewrite E. reflexivity. }
  unfold ViewState3d.getFrontDistance, ViewState3d.getFocusDistance.
  rewrite E, Eb, Hz.
  repeat split; try lra. f_equal; lra.
Qed.
End LookAtPlanes.

Section LookAtPlanesSample.
Import Vector3d.

Lemma lookAt_focus_between_planes_witness :
  let view' :=
    snd (@lookAt sampleConstants sampleView (mkXYZ 0 0 100) (mkXYZ 0 0 0) (mkXYZ 0 1 0)
           None None None) in
  ViewState3d.getFrontDistance view' <= ViewState3d.getFocusDistance view' /\
  ViewState3d.getFocusDistance view' + 0.5 * Constant.oneMeter
    <= ViewState3d.getBackDistance view'.
Proof.
  assert (Hs : fst (@lookAt sampleConstants sampleView (mkXYZ 0 0 100) (mkXYZ 0 0 0) (mkXYZ 0 1 0)
                      None None None) = Success).
  { apply (@lookAt_scenario_eval sampleConstants sampleView); simpl;
      unfold Constant.oneMillimeter; try lra; try reflexivity.
    unfold ViewState3d.getBackDistance, Matrix3d.multiplyVector, dotProduct; simpl. lra. }
  destruct (@lookAt_focus_between_planes sampleConstants sampleView (mkXYZ 0 0 100) (mkXYZ 0 0 0)
              (mkXYZ 0 1 0) None None None) as (_ & H2 & H3 & _).
  - simpl. lra.
  - exact Hs.
  - cbv zeta. split; [exact H2 | exact H3].
Defined.
End LookAtPlanesSample.

(* ================================================================== *)
(** * The focus distance of [centerFocusDistance] *)

Section CenterFocus.
Context {K : Constants}.
Import Vector3d.

(** A successful [lookAt] along the Z row of a rigid rotation, with its Y
    row for the up vector, keeps the rotation. *)
Lemma lookAt_along_axis
  (view : ViewState3d) (eyePoint targetPoint : XYZ) (k : R)
  (newExtents : option XAndY) (frontDistance backDistance : option R) :
  let result :=
    lookAt view eyePoint targetPoint (getYVector view) newExtents frontDistance backDistance in
  Matrix3d.isRigid (rotation view) ->
  0 < k ->
  createStartEnd targetPoint eyePoint = scale (Matrix3d.rowZ (rotation view)) k ->
  fst result = Success ->
  rotation (snd result) = rotation view /\
  focusDist (camera (snd result)) = k /\
  eye (camera (snd result)) = eyePoint.
Proof.
  intros result Hr Hk Ez Hs. subst result.
  destruct (lookAt_success_inv _ _ _ _ _ _ _ Hs)
    as (yVec0 & xVec & yVec & Hup & Nz & Sz & _ & Ex & _ & Ey & _ & Hrot & He & Hfd & _).
  pose proof (rigid_cross_YZ _ Hr) as EX. pose proof (rigid_cross_ZX _ Hr) as EY.
  destruct Hr as (H1 & H2 & H3 & H12 & H13 & H23 & Hd).
  rewrite Ez in *.
  assert (Em : magnitude (scale (Matrix3d.rowZ (rotation view)) k) = k).
  { apply magnitude_scale_unit; [lra | exact H3]. }
  rewrite Em in *.
  rewrite scale_scale_inv in * by lra.
  change (getYVector view) with (Matrix3d.rowY (rotation view)) in Hup.
  apply normalize_Some_unit in Hup. destruct Hup as (_ & Ey0 & _ & Sy).
  rewrite (magnitude_unit _ H2) in Ey0, Sy. rewrite scale_one in Ey0. subst yVec0.
  rewrite EX in Ex. rewrite (normalizeWithLength_unit _ H1 Sy) in Ex. cbn [v] in Ex. subst xVec.
  rewrite EY in Ey. rewrite (normalizeWithLength_unit _ H2 Sy) in Ey. cbn [v] in Ey. subst yVec.
  rewrite createRows_rows in Hrot.
  repeat split; assumption.
Qed.

(** A successful [lookAtUsingLensAngle] is a successful [lookAt]. *)
Lemma lookAtUsingLensAngle_success_inv
  (view : ViewState3d) (eyePoint targetPoint : Point3d) (upVector : Vector3d) (fov : Angle)
  (frontDistance backDistance : option R) :
  let result :=
    lookAtUsingLensAngle view eyePoint targetPoint upVector fov frontDistance backDistance in
  fst result = Success ->
  exists delta,
    result = lookAt view eyePoint targetPoint upVector (Some delta) frontDistance backDistance.
Proof.
  intros result. subst result. unfold lookAtUsingLensAngle.
  repeat (match goal with |- fst (if ?c then _ else _) = _ -> _ => destruct c end;
          [cbn [fst]; discriminate|]).
  intros _. eexists. reflexivity.
Qed.

(** [lookAtUsingLensAngle] that does not answer [Success] leaves the view
    as it was. *)
Lemma lookAtUsingLensAngle_failure
  (view : ViewState3d) (eyePoint targetPoint : Point3d) (upVector : Vector3d) (fov : Angle)
  (frontDistance backDistance : option R) :
  let result :=
    lookAtUsingLensAngle view eyePoint targetPoint upVector fov frontDistance backDistance in
  fst result <> Success -> snd result = view.
Proof.
  intros result. subst result. unfold lookAtUsingLensAngle.
  repeat (match goal with |- fst (if ?c then _ else _) <> _ -> _ => destruct c end;
          [reflexivity|]).
  unfold lookAt.
  destruct (normalize upVector); [|reflexivity].
  repeat (match goal with |- fst (if ?c then _ else _) <> _ -> _ => destruct c end;
          [reflexivity|]).
  match goal with |- context [fst (validateViewDelta ?a ?b ?c)] =>
    destruct (fst (validateViewDelta a b c)) end;
    try reflexivity.
  match goal with |- fst (if ?c then _ else _) <> _ -> _ => destruct c end;
    [reflexivity | intros H; contradiction H; reflexivity].
Qed.

(** What [centerFocusDistance] stores when the camera could be
    positioned. *)
Lemma centerFocusDistance_success (view : ViewState3d) :
  Matrix3d.isRigid (rotation view) ->
  0 < z (extents view) ->
  fst (lookAtUsingLensAngle view (ViewState3d.getEyePoint view)
         (plusScaled (ViewState3d.getEyePoint view) (getZVector view)
            (ViewState3d.getFrontDistance view - ViewState3d.getBackDistance view))
         (getYVector view) (ViewState3d.getLensAngle view)
         (Some (ViewState3d.getFrontDistance view))
         (Some (ViewState3d.getBackDistance view))) = Success ->
  ViewState3d.getFocusDistance (centerFocusDistance view) = z (extents view) /\
  ViewState3d.getEyePoint (centerFocusDistance view) = ViewState3d.getEyePoint view /\
  rotation (centerFocusDistance view) = rotation view.
Proof.
  intros Hr Hz Hs. unfold centerFocusDistance.
  destruct (lookAtUsingLensAngle_success_inv _ _ _ _ _ _ _ Hs) as (delta & E).
  rewrite E in Hs. rewrite E.
  assert (Ez : createStartEnd
                 (plusScaled (ViewState3d.getEyePoint view) (getZVector view)
                    (ViewState3d.getFrontDistance view - ViewState3d.getBackDistance view))
                 (ViewState3d.getEyePoint view)
               = scale (Matrix3d.rowZ (rotation view)) (z (extents view))).
  { unfold ViewState3d.getFrontDistance, createStartEnd, plusScaled, scale.
    change (getZVector view) with (Matrix3d.rowZ (rotation view)).
    destruct (ViewState3d.getEyePoint view) as [ex ey ez],
      (Matrix3d.rowZ (rotation view)) as [zx0 zy0 zz0]; cbn [x y z].
    f_equal; lra. }
  destruct (lookAt_along_axis view _ _ (z (extents view)) _ _ _ Hr Hz Ez Hs)
    as (Hrot & Hf & He).
  unfold ViewState3d.getFocusDistance, ViewState3d.getEyePoint.
  repeat split; assumption.
Qed.

(** X25.  [centerFocusDistance] sets the focus distance to the depth of the
    view.  For a view with a rigid rotation and a positive depth: when the
    [lookAtUsingLensAngle] it calls answers [Success], [centerFocusDistance]
    keeps the eye point and the rotation and makes the focus distance the
    distance between the front and back planes, the Z extent the view had
    (the target it aims at is that far in front of the eye); when the call
    answers anything else, the view is left as it was. *)
Theorem centerFocusDistance_focus (view : ViewState3d) :
  let view' := centerFocusDistance view in
  let status :=
    fst (lookAtUsingLensAngle view (ViewState3d.getEyePoint view)
           (plusScaled (ViewState3d.getEyePoint view) (getZVector view)
              (ViewState3d.getFrontDistance view - ViewState3d.getBackDistance view))
           (getYVector view) (ViewState3d.getLensAngle view)
           (Some (ViewState3d.getFrontDistance view))
           (Some (ViewState3d.getBackDistance view))) in
  Matrix3d.isRigid (rotation view) ->
  0 < z (extents view) ->
  (status = Success ->
   ViewState3d.getFocusDistance view'
   = ViewState3d.getBackDistance view - ViewState3d.getFrontDistance view /\
   ViewState3d.getFocusDistance view' = z (extents view) /\
   ViewState3d.getEyePoint view' = ViewState3d.getEyePoint view /\
   rotation view' = rotation view) /\
  (status <> Success -> view' = view).
Proof.
  intros view' status Hr Hz. subst view' status. split.
  - intros Hs.
    destruct (centerFocusDistance_success view Hr Hz Hs) as (Hf & He & Hrot).
    rewrite Hf. unfold ViewState3d.getFrontDistance.
    repeat split; try assumption. lra.
  - intros Hs. unfold centerFocusDistance.
    apply lookAtUsingLensAngle_failure. exact Hs.
Qed.
End CenterFocus.

Section CenterFocusSample.
Import Vector3d.

(** On [cameraOnView] the camera of [centerFocusDistance] is positioned. *)
Lemma centerFocusDistance_sample_status :
  fst (@lookAtUsingLensAngle sampleConstants cameraOnView
         (ViewState3d.getEyePoint cameraOnView)
         (plusScaled (ViewState3d.getEyePoint cameraOnView) (getZVector cameraOnView)
            (ViewState3d.getFrontDistance cameraOnView
             - ViewState3d.getBackDistance cameraOnView))
         (getYVector cameraOnView) (ViewState3d.getLensAngle cameraOnView)
         (Some (ViewState3d.getFrontDistance cameraOnView))
         (Some (ViewState3d.getBackDistance cameraOnView))) = Success.
Proof.
  pose proof PI_gt_3 as Hpi3. pose proof PI_4 as Hpi4.
  unfold ViewState3d.getFrontDistance. rewrite cameraOnView_back.
  change (ViewState3d.getEyePoint cameraOnView) with (mkXYZ 5 5 5.5).
  change (getZVector cameraOnView) with (mkXYZ 0 0 1).
  change (getYVector cameraOnView) with (mkXYZ 0 1 0).
  change (ViewState3d.getLensAngle cameraOnView) with (createRadians (PI / 2)).
  change (z (extents cameraOnView)) with 1.
  set (target := plusScaled (mkXYZ 5 5 5.5) (mkXYZ 0 0 1) (5.5 - 1 - 5.5)).
  assert (Em : magnitude (vectorTo (mkXYZ 5 5 5.5) target) = 1).
  { apply magnitude_of_square; [lra|].
    unfold target, dotProduct, vectorTo, createStartEnd, plusScaled; simpl. lra. }
  assert (Hy : @normalize sampleConstants (mkXYZ 0 1 0) = Some (mkXYZ 0 1 0))
    by exact normalize_unitY_sample.
  assert (Hz : @normalizeWithLength sampleConstants (createStartEnd target (mkXYZ 5 5 5.5))
               = mkNormalized (Some (mkXYZ 0 0 1)) 1).
  { apply normalizeWithLength_value;
      unfold target, dotProduct, createStartEnd, plusScaled; simpl; lra. }
  assert (Hx : @normalizeWithLength sampleConstants (crossProduct (mkXYZ 0 1 0) (mkXYZ 0 0 1))
               = mkNormalized (Some (mkXYZ 1 0 0)) 1).
  { apply normalizeWithLength_value; unfold dotProduct; simpl; lra. }
  assert (Hy2 : @normalizeWithLength sampleConstants (crossProduct (mkXYZ 0 0 1) (mkXYZ 1 0 0))
               = mkNormalized (Some (mkXYZ 0 1 0)) 1).
  { apply normalizeWithLength_value; unfold dotProduct; simpl; lra. }
  unfold lookAtUsingLensAngle. rewrite Em. cbn [radians]. unfold Constant.oneMillimeter.
  destruct (Rle_dec 1 0.001); [lra|].
  destruct (Rlt_dec (PI / 2) 0.0001); [lra|].
  destruct (Rlt_dec PI (PI / 2)); [lra|].
  replace (PI / 2 / 2.0) with (PI / 4) by lra. rewrite tan_PI4.
  cbn [x y z extents cameraOnView x2 y2].
  rewrite (Rmax_left 10 10) by lra.
  replace (10 * (2.0 * 1 * 1 / 10)) with 2 by lra.
  unfold lookAt. cbn [x y z]. rewrite Hy, Hz. cbn [v mag]. rewrite Hx. cbn [v mag].
  rewrite Hy2. cbn [v mag].
  pose proof (minimumFrontDistance_bounds cameraOnView 1) as Hmfd.
  set (mfd := ViewState3d.minimumFrontDistance cameraOnView) in *.
  assert (Hm : 0.152 <= mfd < 1) by (apply Hmfd; simpl; lra).
  clearbody mfd. clear Hmfd.
  unfold orElse.
  destruct (Req_dec_T 5.5 0); [lra|].
  destruct (Req_dec_T (5.5 - 1) 0); [lra|].
  destruct (Rle_dec 1 mfd); [lra|].
  cbn [smallMetricDistance sampleConstants].
  destruct (Rlt_dec 1 1.0e-6); [lra|].
  cbn [x y z x2 y2 extents cameraOnView].
  unfold Constant.oneMeter, Constant.oneMillimeter.
  rewrite (Rabs_pos_eq 2) by lra.
  rewrite (Rmax_left 5.5 (1 + 0.5 * 1)) by lra.
  rewrite (Rmax_left (5.5 - 1) (0.5 * 1)) by lra.
  destruct (Rlt_dec 5.5 1); [lra|].
  destruct (Rlt_dec 1 (5.5 - 1)); [|lra].
  destruct (Rlt_dec (1 - mfd) mfd).
  all: rewrite validateViewDelta_xy_within;
    [| cbn [scale x y z]; simpl; unfold Constant.oneMillimeter; lra
     | cbn [scale x y z]; simpl; unfold Constant.oneMillimeter; lra].
  all: unfold ViewState3d.calculateMaxDepth; cbn [x y z];
    rewrite Rabs_R0, (Rmin_left 0 0) by lra;
    destruct (Req_dec_T 0 0); [|congruence];
    rewrite (Rmax_left 2 2) by lra.
  all: match goal with |- context [Rlt_dec ?a ?b] => destruct (Rlt_dec a b); [lra|] end.
  all: reflexivity.
Qed.

Lemma centerFocusDistance_focus_witness :
  fst (@lookAtUsingLensAngle sampleConstants cameraOnView
         (ViewState3d.getEyePoint cameraOnView)
         (plusScaled (ViewState3d.getEyePoint cameraOnView) (getZVector cameraOnView)
            (ViewState3d.getFrontDistance cameraOnView
             - ViewState3d.getBackDistance cameraOnView))
         (getYVector cameraOnView) (ViewState3d.getLensAngle cameraOnView)
         (Some (ViewState3d.getFrontDistance cameraOnView))
         (Some (ViewState3d.getBackDistance cameraOnView))) = Success /\
  ViewState3d.getFocusDistance (@centerFocusDistance sampleConstants cameraOnView) = 1 /\
  ViewState3d.getFocusDistance cameraOnView = 5.
Proof.
  split; [exact centerFocusDistance_sample_status|].
  destruct (@centerFocusDistance_focus sampleConstants cameraOnView rigid_identity)
    as [H _].
  - simpl. lra.
  - destruct (H centerFocusDistance_sample_status) as (_ & Hf & _).
    split; [exact Hf | reflexivity].
Defined.
End CenterFocusSample.

(* ================================================================== *)
(** * The rotation of a 2d view *)

Section Rotation2d.
Context {K : Constants}.
Import Vector3d.

(** The angle [atan2] gives for a point of the unit circle has the cosine and
    the sine of the point. *)
Lemma atan2_unit (s c : R) :
  s * s + c * c = 1 -> cos (atan2 s c) = c /\ sin (atan2 s c) = s.
Proof.
  intros Hu. unfold atan2.
  destruct (Rlt_dec 0 c) as [Hc | Hc]; [|destruct (Rlt_dec c 0) as [Hn | Hn]].
  - assert (Hq : sqrt (1 + (s / c)²) = 1 / c).
    { replace (1 + (s / c)²) with ((1 / c) * (1 / c)).
      - apply sqrt_square. apply Rlt_le, Rdiv_lt_0_compat; lra.
      - unfold Rsqr. field_simplify_eq; [nra | lra]. }
    rewrite cos_atan, sin_atan, Hq. split; field; lra.
  - assert (Hq : sqrt (1 + (s / c)²) = 1 / (- c)).
    { replace (1 + (s / c)²) with ((1 / (- c)) * (1 / (- c))).
      - apply sqrt_square. apply Rlt_le, Rdiv_lt_0_compat; lra.
      - unfold Rsqr. field_simplify_eq; [nra | lra]. }
    assert (Hcos : cos (atan (s / c)) = - c) by (rewrite cos_atan, Hq; field; lra).
    assert (Hsin : sin (atan (s / c)) = - s) by (rewrite sin_atan, Hq; field; lra).
    destruct (Rle_dec 0 s).
    + rewrite neg_cos, neg_sin, Hcos, Hsin. split; ring.
    + rewrite cos_minus, sin_minus, cos_PI, sin_PI, Hcos, Hsin. split; ring.
  - assert (c = 0) by lra. subst c.
    destruct (Rlt_dec 0 s); [|destruct (Rlt_dec s 0)].
    + rewrite cos_PI2, sin_PI2. split; [reflexivity | nra].
    + rewrite cos_neg, sin_neg, cos_PI2, sin_PI2. split; [reflexivity | nra].
    + exfalso. nra.
Qed.

(** [atan2] gives back an angle of the half-open turn from [- PI] to [PI]. *)
Lemma atan2_sin_cos (a : R) : - PI < a <= PI -> atan2 (sin a) (cos a) = a.
Proof.
  intros Ha. pose proof PI_RGT_0 as Hpi. unfold atan2.
  destruct (Rlt_dec 0 (cos a)) as [Hc | Hc]; [|destruct (Rlt_dec (cos a) 0) as [Hn | Hn]].
  - assert (Hr : - (PI / 2) < a < PI / 2).
    { split; apply Rnot_le_lt; intros Hle.
      - assert (cos (- a) <= 0) by (apply cos_le_0; lra). rewrite cos_neg in *. lra.
      - assert (cos a <= 0) by (apply cos_le_0; lra). lra. }
    change (sin a / cos a) with (tan a). apply atan_tan, Hr.
  - destruct (Rle_dec 0 (sin a)) as [Hs | Hs].
    + assert (Hr : PI / 2 < a).
      { apply Rnot_le_lt; intros Hle.
        destruct (Rle_lt_dec (- (PI / 2)) a).
        - assert (0 <= cos a) by (apply cos_ge_0; lra). lra.
        - assert (sin a < 0) by (apply sin_lt_0_var; lra). lra. }
      replace (sin a / cos a) with (tan (a - PI)).
      * rewrite atan_tan; lra.
      * unfold tan. rewrite sin_minus, cos_minus, cos_PI, sin_PI. field. lra.
    + assert (Hr : a < - (PI / 2)).
      { apply Rnot_le_lt; intros Hle.
        destruct (Rle_lt_dec a (PI / 2)).
        - assert (0 <= cos a) by (apply cos_ge_0; lra). lra.
        - assert (0 <= sin a) by (apply sin_ge_0; lra). lra. }
      replace (sin a / cos a) with (tan (a + PI)).
      * rewrite atan_tan; lra.
      * unfold tan. rewrite neg_sin, neg_cos. field. lra.
  - assert (H0 : cos a = 0) by lra.
    assert (Hr : a = PI / 2 \/ a = - (PI / 2)).
    { destruct (Rtotal_order a (PI / 2)) as [Hlt | [He | Hgt]]; [|left; exact He|].
      - destruct (Rtotal_order a (- (PI / 2))) as [Hlt' | [He' | Hgt']]; [|right; exact He'|].
        + assert (cos (- a) < 0) by (apply cos_lt_0; lra). rewrite cos_neg in *. lra.
        + assert (0 < cos a) by (apply cos_gt_0; lra). lra.
      - assert (cos a < 0) by (apply cos_lt_0; lra). lra. }
    destruct Hr as [-> | ->].
    + rewrite sin_PI2. destruct (Rlt_dec 0 1); [reflexivity | lra].
    + rewrite sin_neg, sin_PI2.
      destruct (Rlt_dec 0 _); [lra|]. destruct (Rlt_dec _ 0); [reflexivity | lra].
Qed.

(** The rotation of a 2d view is the rotation by its angle about Z. *)
Lemma ViewState2d_getRotation_value (view : ViewState2d) :
  ~ 1 < smallMetricDistance ->
  ViewState2d.getRotation view = ViewState2d.rotationAboutZ (ViewState2d.angle view).
Proof.
  intros Hs. unfold ViewState2d.getRotation, Matrix3d.createRotationAroundVector, normalize.
  rewrite (normalizeWithLength_unit unitZ) by (assumption || (unfold dotProduct; simpl; ring)).
  cbn [v]. unfold ViewState2d.rotationAboutZ, unitZ; cbn [x y z]. f_equal; ring.
Qed.

(** X26.  The rotation of a 2d view.  With a small-distance epsilon not
    above 1, the rotation of a 2d view is rigid; storing it with
    [setRotation] and reading it with [getRotation] gives the same matrix,
    whatever the angle; and the stored angle itself comes back, leaving the
    view as it was, when it lies in the half-open turn from [- PI] to [PI]
    that [atan2] answers in. *)
Theorem ViewState2d_rotation_roundtrip (view : ViewState2d) :
  ~ 1 < smallMetricDistance ->
  Matrix3d.isRigid (ViewState2d.getRotation view) /\
  ViewState2d.getRotation (ViewState2d.setRotation view (ViewState2d.getRotation view))
    = ViewState2d.getRotation view /\
  (- PI < radians (ViewState2d.angle view) <= PI ->
   ViewState2d.setRotation view (ViewState2d.getRotation view) = view).
Proof.
  intros Hs.
  set (a := radians (ViewState2d.angle view)).
  assert (Hu : sin a * sin a + cos a * cos a = 1).
  { pose proof (sin2_cos2 a) as H. unfold Rsqr in H. exact H. }
  rewrite (ViewState2d_getRotation_value view Hs).
  rewrite (ViewState2d_getRotation_value _ Hs).
  unfold ViewState2d.setRotation, ViewState2d.rotationAboutZ.
  cbn [ViewState2d.angle radians Matrix3d.getColumn Nat.modulo Nat.divmod fst snd Nat.sub
       Matrix3d.columnX xx yx zx x y].
  fold a.
  split; [|split].
  - unfold Matrix3d.isRigid, Matrix3d.determinant, tripleProduct, dotProduct, crossProduct.
    cbn [Matrix3d.rowX Matrix3d.rowY Matrix3d.rowZ xx xy xz yx yy yz zx zy zz x y z].
    repeat split; nra.
  - destruct (atan2_unit _ _ Hu) as [Hc Hsn]. rewrite Hc, Hsn. reflexivity.
  - intros Ha. rewrite (atan2_sin_cos a Ha). unfold a.
    destruct view as [o d [r] l dl sk]. reflexivity.
Qed.
End Rotation2d.

Section Rotation2dSample.

Lemma ViewState2d_rotation_roundtrip_witness :
  let view := ViewState2d.mk (mkXY 0 0) (mkXY 10 5) (createRadians 1) None spatialLimits None in
  @ViewState2d.getRotation sampleConstants
    (ViewState2d.setRotation view (@ViewState2d.getRotation sampleConstants view))
  = @ViewState2d.getRotation sampleConstants view /\
  ViewState2d.setRotation view (@ViewState2d.getRotation sampleConstants view) = view.
Proof.
  intros view.
  destruct (@ViewState2d_rotation_roundtrip sampleConstants view) as (_ & H2 & H3).
  - simpl. lra.
  - split; [exact H2|]. apply H3. pose proof PI_gt_3. simpl. lra.
Defined.
End Rotation2dSample.

(* ================================================================== *)
(** * The lens after [lookAt] *)

Section LookAtLens.
Context {K : Constants}.
Import Vector3d.

(** X27.  The lens after [lookAt] fits the view.  After a successful
    [lookAt] the lens angle, the focus distance and the extents agree: twice
    the focus distance times the tangent of half the lens angle is the larger
    of the X and Y extents.  The lens angle lies strictly between [- PI] and
    [PI], and is not negative when that extent is not. *)
Theorem lookAt_lens_fits
  (view : ViewState3d) (eyePoint targetPoint : XYZ) (upVector : Vector3d)
  (newExtents : option XAndY) (frontDistance backDistance : option R) :
  let result := lookAt view eyePoint targetPoint upVector newExtents frontDistance backDistance in
  let view' := snd result in
  fst result = Success ->
  2 * ViewState3d.getFocusDistance view' * tan (radians (ViewState3d.getLensAngle view') / 2)
    = Rmax (x (extents view')) (y (extents view')) /\
  - PI < radians (ViewState3d.getLensAngle view') < PI /\
  (0 <= Rmax (x (extents view')) (y (extents view')) ->
   0 <= radians (ViewState3d.getLensAngle view')).
Proof.
  intros result view' Hs.
  pose proof (minimumFrontDistance_pos view) as Hmin.
  destruct (lookAt_success_inv _ _ _ _ _ _ _ Hs)
    as (_ & _ & _ & _ & _ & _ & Hm & _ & _ & _ & _ & _ & _ & Hfd & _ & _ & Hlens & _).
  fold result in Hfd, Hlens. fold view' in Hfd, Hlens.
  unfold ViewState3d.getLensAngle, ViewState3d.getFocusDistance.
  rewrite Hlens. unfold ViewState3d.calcLensAngle, Camera.getFocusDistance. rewrite Hfd.
  set (m := magnitude (createStartEnd targetPoint eyePoint)) in *.
  set (big := Rmax (x (extents view')) (y (extents view'))).
  assert (Hpos : 0 < m) by lra.
  cbn [radians]. unfold atan2. destruct (Rlt_dec 0 m) as [_|]; [|contradiction].
  replace 0.5 with (1 / 2) by lra. replace 2.0 with 2 by lra.
  replace (2 * atan (big * (1 / 2) / m) / 2) with (atan (big * (1 / 2) / m)) by lra.
  pose proof (atan_bound (big * (1 / 2) / m)) as Hb.
  split; [rewrite tan_atan; field; lra|].
  split; [lra|].
  intros Hbig.
  assert (0 <= atan (big * (1 / 2) / m)); [|lra].
  destruct (Req_dec_T big 0) as [-> | Hne].
  - replace (0 * (1 / 2) / m) with 0 by (field; lra). rewrite atan_0. lra.
  - rewrite <- atan_0. apply Rlt_le, atan_increasing.
    apply Rdiv_lt_0_compat; lra.
Qed.
End LookAtLens.

Section LookAtLensSample.
Import Vector3d.

Lemma lookAt_lens_fits_witness :
  let view' :=
    snd (@lookAt sampleConstants sampleView (mkXYZ 0 0 100) (mkXYZ 0 0 0) (mkXYZ 0 1 0)
           None None None) in
  2 * ViewState3d.getFocusDistance view' * tan (radians (ViewState3d.getLensAngle view') / 2)
    = Rmax (x (extents view')) (y (extents view')).
Proof.
  assert (Hs : fst (@lookAt sampleConstants sampleView (mkXYZ 0 0 100) (mkXYZ 0 0 0) (mkXYZ 0 1 0)
                      None None None) = Success).
  { apply (@lookAt_scenario_eval sampleConstants sampleView); simpl;
      unfold Constant.oneMillimeter; try lra; try reflexivity.
    unfold ViewState3d.getBackDistance, Matrix3d.multiplyVector, dotProduct; simpl. lra. }
  destruct (@lookAt_lens_fits sampleConstants sampleView (mkXYZ 0 0 100) (mkXYZ 0 0 0)
              (mkXYZ 0 1 0) None None None Hs) as (H & _).
  exact H.
Defined.
End LookAtLensSample.

(* ================================================================== *)
(** * Undo of a 2d view *)

Section Undo2d.
Context {K : Constants}.
Import Vector3d.

Lemma setupFromFrustum_settings2d (view : ViewState2d) (frustum : Frustum) :
  viewSettings2d (snd (setupFromFrustum view frustum)) = viewSettings2d view.
Proof.
  unfold setupFromFrustum.
  destruct (Matrix3d.createRigidFromColumns _ _ _); [|reflexivity].
  destruct (Matrix3d.inverse _); [|reflexivity].
  destruct (Rlt_dec _ 0); reflexivity.
Qed.

Lemma setRotationAboutPoint_settings2d
  (view : ViewState2d) (rotation : Matrix3d) (point : option Point3d) :
  viewSettings2d (setRotationAboutPoint view rotation point) = viewSettings2d view.
Proof.
  unfold setRotationAboutPoint.
  destruct (Matrix3d.inverse rotation); [|reflexivity].
  destruct (calculateFrustum view) as [frustum|]; [|reflexivity].
  unfold callSetupFromFrustum. cbn [is3d ViewState2d_isViewState].
  apply setupFromFrustum_settings2d.
Qed.

Lemma adjustAspectRatio_settings2d (view view' : ViewState2d) (windowAspect : R) :
  adjustAspectRatio view windowAspect = Some view' -> viewSettings2d view' = viewSettings2d view.
Proof.
  unfold adjustAspectRatio.
  destruct (Rlt_dec _ _); [intros E; injection E as <-; reflexivity|].
  destruct (Transform.inverse _); [|discriminate].
  intros E; injection E as <-. reflexivity.
Qed.

Lemma lookAtViewAlignedVolume_settings2d
  (view view' : ViewState2d) (volume : Range3d) (aspect : option R)
  (margin : option MarginPercent) :
  lookAtViewAlignedVolume view volume aspect margin = Some view' ->
  viewSettings2d view' = viewSettings2d view.
Proof.
  unfold lookAtViewAlignedVolume.
  destruct (Range3d.isNull volume); [intros E; injection E as <-; reflexivity|].
  repeat match goal with
         | |- context [let '(_, _) := ?c in _] => destruct c
         end.
  match goal with
  | |- match ?adj with Some _ => _ | None => _ end = _ -> _ =>
    destruct adj as [v1|] eqn:Hadj; [|discriminate]
  end.
  assert (H1 : viewSettings2d v1 = viewSettings2d view).
  { destruct aspect as [a|].
    - destruct (Req_dec_T a 0).
      + injection Hadj as <-. reflexivity.
      + apply adjustAspectRatio_settings2d in Hadj. rewrite Hadj. reflexivity.
    - injection Hadj as <-. reflexivity. }
  cbn [is3d ViewState2d_isViewState].
  intros E; injection E as <-. exact H1.
Qed.

Lemma callManipulation2d_settings (view view' : ViewState2d) (op : ViewManipulation2d) :
  callManipulation2d view op = Some view' -> viewSettings2d view' = viewSettings2d view.
Proof.
  destruct op; cbn [callManipulation2d];
    try (intros E; injection E as <-).
  - reflexivity.
  - reflexivity.
  - reflexivity.
  - apply setupFromFrustum_settings2d.
  - apply setRotationAboutPoint_settings2d.
  - apply lookAtViewAlignedVolume_settings2d.
  - unfold lookAtVolume. apply lookAtViewAlignedVolume_settings2d.
Qed.

Lemma callManipulations2d_settings (ops : list ViewManipulation2d) (view view' : ViewState2d) :
  callManipulations2d view ops = Some view' -> viewSettings2d view' = viewSettings2d view.
Proof.
  revert view. induction ops as [|op rest IH]; intros view; cbn [callManipulations2d].
  - intros E; injection E as <-. reflexivity.
  - destruct (callManipulation2d view op) as [v1|] eqn:E1; [|discriminate].
    intros E. rewrite (IH _ E). apply (callManipulation2d_settings _ _ _ E1).
Qed.

End Undo2d.

Section Undo2dSample.

End Undo2dSample.
